(** * Duty Tracker: fairness bookkeeping and chat-roster import

    A shallow embedding of [app/crud.py] (with the [recalculate_fairness]
    route of [app/main.py] and the tables of [app/models.py]) and the
    properties of the fairness engine, the roster text parser, the import
    pipeline and the statistics views.

    Conventions of the embedding.
    - A Python [str] is the list of its Unicode code points.  Whitespace is
      the class that [str.strip], [str.split] and the regular expression
      escape [\s] share.  [upper] maps the ASCII letters; code points
      outside ASCII are left as they are (the Unicode case tables are not
      part of the model).
    - A [dict] is an association list in insertion order: assigning to a key
      that is present keeps its position and replaces its value, as in
      Python, so that iteration order can be followed.
    - A call either returns a value or raises: [result].
    - The ORM session is explicit.  [app/database.py] creates sessions with
      [autoflush=False], so an object handed to [db.add] stays in the list
      of pending objects, invisible to queries, until [db.flush] or
      [db.commit] writes it to its table.
    - Readings of the wall clock ([datetime.utcnow], [datetime.now]) are
      arguments.
    - [fairness_score] and the percentages are Python floats: IEEE 754
      binary64 numbers, computed with the operations of [SpecFloat], which
      round to the nearest double, a tie going to the even mantissa.
    - The integers of the database are 64-bit.  The model keeps them as
      unbounded integers and writes them without a check; a property that
      needs a value to fit its column says so. *)

From Stdlib Require Import ZArith NArith List Bool Lia String Ascii.
From Stdlib Require Import QArith Permutation Sorted SpecFloat.
Import ListNotations.

Local Open Scope Z_scope.

(** ** Results of calls that may raise *)

Inductive exn : Type :=
| AttributeError
| IndexError
| KeyError
| OverflowError
| TypeError
| ValidationError.

Inductive result (A : Type) : Type :=
| Ok (a : A)
| Raise (e : exn).

Arguments Ok {A} a.
Arguments Raise {A} e.

Definition bind {A B : Type} (r : result A) (k : A -> result B) : result B :=
  match r with
  | Ok a => k a
  | Raise e => Raise e
  end.

Notation "x <- r ;; k" := (bind r (fun x => k))
  (at level 61, r at next level, right associativity).
Notation "' p <- r ;; k" := (bind r (fun x => let p := x in k))
  (at level 61, p pattern, r at next level, right associativity).

(** A [for] loop whose body may raise: the first exception ends the loop. *)
Fixpoint for_each {S A : Type} (body : S -> A -> result S) (l : list A) (s : S)
  : result S :=
  match l with
  | [] => Ok s
  | a :: l' => s' <- body s a ;; for_each body l' s'
  end.

(** ** Python strings *)

Module PyStr.

Definition t : Type := list N.

(** The string of an ASCII literal. *)
Definition lit (s : string) : t := map N_of_ascii (list_ascii_of_string s).

Fixpoint eqb (a b : t) : bool :=
  match a, b with
  | [], [] => true
  | x :: a', y :: b' => N.eqb x y && eqb a' b'
  | _, _ => false
  end.

(** [str.isspace] on one code point. *)
Definition is_space (c : N) : bool :=
  ((9 <=? c) && (c <=? 13) || (28 <=? c) && (c <=? 32)
   || (c =? 133) || (c =? 160) || (c =? 5760)
   || (8192 <=? c) && (c <=? 8202)
   || (c =? 8232) || (c =? 8233) || (c =? 8239) || (c =? 8287)
   || (c =? 12288))%N.

Fixpoint lstrip (s : t) : t :=
  match s with
  | [] => []
  | c :: s' => if is_space c then lstrip s' else s
  end.

Definition rstrip (s : t) : t := rev (lstrip (rev s)).

(** [s.strip()] *)
Definition strip (s : t) : t := rstrip (lstrip s).

(** [s.split(sep)] for a one-character separator: always at least one
    field, empty fields kept. *)
Fixpoint split_on (sep : N) (s : t) : list t :=
  match s with
  | [] => [[]]
  | c :: s' =>
      if N.eqb c sep then [] :: split_on sep s'
      else match split_on sep s' with
           | w :: ws => (c :: w) :: ws
           | [] => [[c]]
           end
  end.

(** [s.split()]: the maximal runs of non-whitespace. *)
Fixpoint split (s : t) : list t :=
  match s with
  | [] => []
  | c :: s' =>
      if is_space c then split s'
      else match s' with
           | [] => [[c]]
           | d :: _ =>
               if is_space d then [c] :: split s'
               else match split s' with
                    | w :: ws => (c :: w) :: ws
                    | [] => [[c]]
                    end
           end
  end.

(** [s.startswith(p)] *)
Fixpoint startswith (p s : t) : bool :=
  match p, s with
  | [], _ => true
  | x :: p', y :: s' => N.eqb x y && startswith p' s'
  | _ :: _, [] => false
  end.

(** [p in s] *)
Fixpoint contains (p s : t) : bool :=
  startswith p s ||
  match s with
  | [] => false
  | _ :: s' => contains p s'
  end.

Definition upper_cp (c : N) : N :=
  (if (97 <=? c) && (c <=? 122) then c - 32 else c)%N.

(** [s.upper()], on the letters of ASCII: the other code points are kept,
    as Python keeps those that have no upper case. *)
Definition upper (s : t) : t := map upper_cp s.

(** The f-string ["{a} {b}"]. *)
Definition spaced (a b : t) : t := a ++ 32%N :: b.

End PyStr.

Abbreviation pystr := PyStr.t.

(** ** Python dictionaries, in insertion order *)

Module PyDict.
Section Dict.
Context {K V : Type} (keq : K -> K -> bool).

Definition t : Type := list (K * V).

(** [d.get(k)] *)
Fixpoint get (k : K) (d : t) : option V :=
  match d with
  | [] => None
  | (k', v) :: d' => if keq k k' then Some v else get k d'
  end.

(** [k in d] *)
Definition mem (k : K) (d : t) : bool :=
  match get k d with Some _ => true | None => false end.

(** [d[k] = v] *)
Fixpoint set (k : K) (v : V) (d : t) : t :=
  match d with
  | [] => [(k, v)]
  | (k', v') :: d' =>
      if keq k k' then (k', v) :: d' else (k', v') :: set k v d'
  end.

(** [d[k]] *)
Definition getitem (k : K) (d : t) : result V :=
  match get k d with Some v => Ok v | None => Raise KeyError end.

(** [d.items()] *)
Definition items (d : t) : list (K * V) := d.

(** [d.values()] *)
Definition values (d : t) : list V := map snd d.
End Dict.
Arguments t K V : clear implicits.
End PyDict.

(** Stable sorting by a key, as [sorted(l, key=...)] and [l.sort(key=...)]
    do it: [le] is [<=] on keys for an ascending sort and [>=] for
    [reverse=True]; elements with equal keys keep their order. *)

Section Sorting.
Context {A K : Type} (le : K -> K -> bool) (key : A -> K).

Fixpoint insert_by (x : A) (l : list A) : list A :=
  match l with
  | [] => [x]
  | y :: l' => if le (key x) (key y) then x :: l else y :: insert_by x l'
  end.

Definition sorted_by (l : list A) : list A := fold_right insert_by [] l.

(** The order of the keys, on the elements. *)
Definition key_le (x y : A) : Prop := le (key x) (key y) = true.
End Sorting.

(** ** Python floats

    A [float] is a binary64 number.  The operations are those of
    [SpecFloat] at precision 53 and with infinities at exponent 1024. *)

Module PyFloat.

Definition prec : Z := 53.
Definition emax : Z := 1024.

Definition t : Type := spec_float.

(** [0.0] *)
Definition zero : t := S754_zero false.

(** The double nearest to an integer. *)
Definition nearest (z : Z) : t := binary_normalize prec emax z 0 false.

(** An [int] as an operand of a float operation: the nearest double; an
    integer beyond the largest double raises. *)
Definition of_int (z : Z) : result t :=
  match nearest z with
  | S754_infinity _ => Raise OverflowError
  | x => Ok x
  end.

(** An integer as an operand of unbounded precision. *)
Definition exact (z : Z) : t :=
  match z with
  | Z0 => S754_zero false
  | Zpos p => S754_finite false p 0
  | Zneg p => S754_finite true p 0
  end.

(** [a / b] on two [int]s, [b] not being zero: the double nearest to the
    quotient. *)
Definition true_divide (a b : Z) : t := SFdiv prec emax (exact a) (exact b).

Definition mul : t -> t -> t := SFmul prec emax.
Definition sub : t -> t -> t := SFsub prec emax.

(** [x <= y] *)
Definition leb : t -> t -> bool := SFleb.

(** The literal [0.1]: the double nearest to one tenth. *)
Definition tenth : t := true_divide 1 10.

(** [100] as an operand of a float operation. *)
Definition hundred : t := nearest 100.

(** The decimal literal with one digit after the point whose digits are
    those of [k]: the double nearest to [k / 10]. *)
Definition decimal1 (k : Z) : t := true_divide k 10.

(** [n / d] rounded to the nearest integer, a tie going to the even one. *)
Definition div_half_even (n d : Z) : Z :=
  let q := n / d in
  match 2 * (n mod d) ?= d with
  | Lt => q
  | Gt => q + 1
  | Eq => if Z.even q then q else q + 1
  end.

(** The number of tenths that is nearest to [m * 2 ^ e]. *)
Definition tenths (m : positive) (e : Z) : Z :=
  if 0 <=? e then 10 * Zpos m * 2 ^ e
  else div_half_even (10 * Zpos m) (2 ^ (- e)).

(** [round(x, 1)]: the exact value of [x] is rounded to the nearest number
    with one digit after the point, a tie going to the even digit, and the
    answer is the double nearest to that number; the sign of a zero is
    kept, and infinities and NaN are returned as they are. *)
Definition round1 (x : t) : t :=
  match x with
  | S754_finite s m e =>
      match tenths m e with
      | Z0 => S754_zero s
      | k => decimal1 (if s then - k else k)
      end
  | _ => x
  end.


End PyFloat.

(** ** The tables of [app/models.py] *)

Module Personnel.
Record t : Type := mk
  { id : Z; rank : pystr; name : pystr; is_active : bool }.

(** The [full_name] property. *)
Definition full_name (p : t) : pystr := PyStr.spaced (rank p) (name p).
End Personnel.

Module PostType.
Record t : Type := mk
  { id : Z; name : pystr; difficulty_weight : option Z }.
End PostType.

Module Post.
Record t : Type := mk
  { id : Z; name : pystr; post_type_id : option Z; is_active : bool }.
End Post.

Module Assignment.
Record t : Type := mk
  { person_id : Z;
    post_id : Z;
    duty_date : Z;
    start_time : option pystr;
    end_time : option pystr;
    status : pystr;
    notes : option pystr }.
End Assignment.

Module FairnessTracking.
(** The counters are nullable columns; timestamps are instants in
    microseconds.  The columns [id] and [updated_at] are left out: the
    database and the ORM write them (the latter from the clock, at every
    flush of the row), and no function of the program reads them. *)
Record t : Type := mk
  { person_id : Z;
    total_assignments : option Z;
    total_difficulty_points : option Z;
    last_assignment_date : option Z;
    consecutive_standby : option Z }.
End FairnessTracking.

(** The rows of the database, each table in the order in which an
    unordered query returns it. *)
Record Store : Type := mkStore
  { personnel : list Personnel.t;
    post_types : list PostType.t;
    posts : list Post.t;
    assignments : list Assignment.t;
    fairness_tracking : list FairnessTracking.t }.

(** A session: the rows it works on and the [FairnessTracking] objects
    that were added and are not flushed yet. *)
Record Session : Type := mkSession
  { tables :> Store;
    pending : list FairnessTracking.t }.

(** A session as [get_db] yields it. *)
Definition get_db (s : Store) : Session := mkSession s [].

Definition with_assignments (s : Store) (l : list Assignment.t) : Store :=
  mkStore (personnel s) (post_types s) (posts s) l (fairness_tracking s).

Definition with_fairness (s : Store) (l : list FairnessTracking.t) : Store :=
  mkStore (personnel s) (post_types s) (posts s) (assignments s) l.

(** [db.flush()]: the pending rows are written after the existing ones.
    The write is that of values that fit their columns: the driver refuses
    an integer beyond 64 bits with [OverflowError], which is not part of
    the model. *)
Definition flush (db : Session) : Session :=
  mkSession (with_fairness db (fairness_tracking db ++ pending db)) [].

(** [db.commit()] *)
Definition commit (db : Session) : Session := flush db.

(** [query.first()] *)
Definition first {A : Type} (f : A -> bool) (l : list A) : option A := find f l.

(** The row that [first] returned is an object of the session: assigning to
    its attributes changes that row. *)
Fixpoint update_first {A : Type} (f : A -> bool) (g : A -> A) (l : list A)
  : list A :=
  match l with
  | [] => []
  | x :: l' => if f x then g x :: l' else x :: update_first f g l'
  end.

(** The relationship [post.post_type]. *)
Definition post_type_of (s : Store) (post : Post.t) : option PostType.t :=
  match Post.post_type_id post with
  | None => None
  | Some k => first (fun pt => PostType.id pt =? k) (post_types s)
  end.

(** ** Fairness engine *)

Definition stand_by : pystr := PyStr.lit "Stand by".

(** [x or 1] on a nullable integer. *)
Definition or_one (x : option Z) : Z :=
  match x with
  | Some w => if w =? 0 then 1 else w
  | None => 1
  end.

Definition or_zero (x : option Z) : Z :=
  match x with Some v => v | None => 0 end.

(** [update_fairness_tracking(db, person_id, post_id)], [now] being the
    reading of [datetime.utcnow()].  The query for the tracking row reads
    the table, not the pending objects.  The object it works on is the
    row found, or a new object that joins the pending ones.  When the call
    raises, its callers give the session up (the routes roll back or close
    it), so that no session is returned with the exception. *)
Definition update_fairness_tracking
    (db : Session) (now : Z) (person_id post_id : Z) : result Session :=
  let same_person f := FairnessTracking.person_id f =? person_id in
  let found := first same_person (fairness_tracking db) in
  let fairness :=
    match found with
    | Some f => f
    | None => FairnessTracking.mk person_id (Some 0) (Some 0) None (Some 0)
    end in
  let total_assignments := or_zero (FairnessTracking.total_assignments fairness) in
  let total_difficulty_points :=
    or_zero (FairnessTracking.total_difficulty_points fairness) in
  let consecutive_standby :=
    or_zero (FairnessTracking.consecutive_standby fairness) in
  let post := first (fun p => Post.id p =? post_id) (posts db) in
  let difficulty_weight :=
    match post with
    | Some p =>
        match post_type_of db p with
        | Some pt => or_one (PostType.difficulty_weight pt)
        | None => 1
        end
    | None => 1
    end in
  let store (standby : Z) : Session :=
    let updated :=
      FairnessTracking.mk (FairnessTracking.person_id fairness)
        (Some (total_assignments + 1))
        (Some (total_difficulty_points + difficulty_weight))
        (Some now)
        (Some standby) in
    match found with
    | Some _ =>
        mkSession
          (with_fairness db
             (update_first same_person (fun _ => updated) (fairness_tracking db)))
          (pending db)
    | None => mkSession db (pending db ++ [updated])
    end in
  match post with
  | None => Ok (store consecutive_standby)
  | Some p =>
      match post_type_of db p with
      | None => Raise AttributeError
      | Some pt =>
          if negb (PyStr.eqb (PostType.name pt) stand_by)
          then Ok (store 0)
          else Ok (store (consecutive_standby + 1))
      end
  end.

(** The schema [FairnessStats]. *)
Module FairnessStats.
Record t : Type := mk
  { person_id : Z;
    person_name : pystr;
    total_assignments : Z;
    total_difficulty_points : Z;
    last_assignment_date : option Z;
    consecutive_standby : Z;
    fairness_score : PyFloat.t }.
End FairnessStats.

Definition microseconds_per_day : Z := 86400000000.

(** [(now - last).days]: whole days, rounded down. *)
Definition days_since (now last : Z) : Z := (now - last) / microseconds_per_day.

(** The outer join of the active personnel with their tracking rows. *)
Definition personnel_with_tracking (s : Store)
  : list (Personnel.t * option FairnessTracking.t) :=
  flat_map
    (fun p =>
       match filter (fun f => FairnessTracking.person_id f =? Personnel.id p)
                    (fairness_tracking s) with
       | [] => [(p, None)]
       | fs => map (fun f => (p, Some f)) fs
       end)
    (filter Personnel.is_active (personnel s)).

(** The score of a tracking row whose points are [points]:
    [points - days_since * 0.1], both integers being converted to floats,
    or the points alone, which the schema converts to a float, when the
    date is null. *)
Definition tracked_score (now : Z) (points : Z) (last : option Z)
  : result PyFloat.t :=
  match last with
  | Some d =>
      waited <- PyFloat.of_int (days_since now d) ;;
      score <- PyFloat.of_int points ;;
      Ok (PyFloat.sub score (PyFloat.mul waited PyFloat.tenth))
  | None => PyFloat.of_int points
  end.

(** One turn of the loop of [get_fairness_stats].  Null points cannot be
    adjusted for the waiting time, and [FairnessStats] refuses null
    counters. *)
Definition fairness_stats_row (now : Z)
    (row : Personnel.t * option FairnessTracking.t) : result FairnessStats.t :=
  let (person, tracking) := row in
  match tracking with
  | Some tr =>
      match FairnessTracking.total_difficulty_points tr with
      | None =>
          match FairnessTracking.last_assignment_date tr with
          | Some _ => Raise TypeError
          | None => Raise ValidationError
          end
      | Some points =>
          fairness_score <-
            tracked_score now points (FairnessTracking.last_assignment_date tr) ;;
          match FairnessTracking.total_assignments tr,
                FairnessTracking.consecutive_standby tr with
          | Some total, Some standby =>
              Ok (FairnessStats.mk (Personnel.id person)
                    (Personnel.full_name person) total points
                    (FairnessTracking.last_assignment_date tr) standby
                    fairness_score)
          | _, _ => Raise ValidationError
          end
      end
  | None =>
      Ok (FairnessStats.mk (Personnel.id person) (Personnel.full_name person)
            0 0 None 0 PyFloat.zero)
  end.

(** [get_fairness_stats(db)], [now] being the reading of
    [datetime.utcnow()]. *)
Definition get_fairness_stats (db : Session) (now : Z)
  : result (list FairnessStats.t) :=
  stats <- for_each
             (fun stats row => s <- fairness_stats_row now row ;; Ok (stats ++ [s]))
             (personnel_with_tracking db) [] ;;
  Ok (sorted_by PyFloat.leb FairnessStats.fairness_score stats).

(** The answer of the [/api/recalculate-fairness] route. *)
Inductive recalculate_response : Type :=
| Recalculated (updated_count : Z)
| BadRequest (e : exn).

(** The body of the loop of [recalculate_fairness].  [clock n] is the
    reading of the clock in the call that replays the assignment of index
    [n]. *)
Definition replay (clock : Z -> Z) (st : Session * Z) (assignment : Assignment.t)
  : result (Session * Z) :=
  let (db, updated_count) := st in
  db' <- update_fairness_tracking db (clock updated_count)
           (Assignment.person_id assignment) (Assignment.post_id assignment) ;;
  Ok (db', updated_count + 1).

(** [recalculate_fairness] of [app/main.py]: the store after the request
    and the answer.  The rows are deleted, the assignments replayed and the
    session committed; an exception rolls everything back. *)
Definition recalculate_fairness (s : Store) (clock : Z -> Z)
  : Store * recalculate_response :=
  let db := get_db (with_fairness s []) in
  match for_each (replay clock) (assignments db) (db, 0) with
  | Ok (db', updated_count) => (tables (commit db'), Recalculated updated_count)
  | Raise e => (s, BadRequest e)
  end.


(** ** Post distribution *)

(** [sum(l)] *)
Definition sum (l : list Z) : Z := fold_right Z.add 0 l.

(** [(count / total) * 100] *)
Definition percent (count total : Z) : PyFloat.t :=
  PyFloat.mul (PyFloat.true_divide count total) PyFloat.hundred.

Module PostAssignment.
Record t : Type := mk
  { post_type : pystr;
    count : Z;
    percentage_of_total : PyFloat.t;
    percentage_of_person : PyFloat.t }.
End PostAssignment.

Module PersonStats.
Record t : Type := mk
  { person_id : Z;
    person_name : pystr;
    rank : pystr;
    post_assignments : list PostAssignment.t;
    total_assignments : Z }.
End PersonStats.

Module PersonData.
Record t : Type := mk
  { person_id : Z;
    person_name : pystr;
    rank : pystr;
    post_types : PyDict.t pystr Z }.
End PersonData.

Module Distribution.
Record t : Type := mk
  { personnel_stats : list PersonStats.t;
    post_type_totals : PyDict.t pystr Z;
    total_assignments : Z;
    total_personnel : Z }.
End Distribution.

(** The key [f"{person.id}_{person.full_name}"]: the identifier is a run of
    digits, so the key is the same for two persons exactly when identifier
    and full name are; the pair stands for it. *)
Definition person_key : Type := Z * pystr.

Definition person_key_eqb (a b : person_key) : bool :=
  (fst a =? fst b) && PyStr.eqb (snd a) (snd b).

(** The rows of [Assignment] joined with [Personnel], [Post] and
    [PostType], for the active personnel: the person and the name of the
    post type of each. *)
Definition assignments_joined (s : Store) : list (Personnel.t * pystr) :=
  flat_map
    (fun a =>
       match first (fun p => Personnel.id p =? Assignment.person_id a) (personnel s),
             first (fun p => Post.id p =? Assignment.post_id a) (posts s) with
       | Some person, Some post =>
           match post_type_of s post with
           | Some pt =>
               if Personnel.is_active person then [(person, PostType.name pt)]
               else []
           | None => []
           end
       | _, _ => []
       end)
    (assignments s).

(** The grouping loop of [get_post_distribution_stats]. *)
Definition count_assignment
    (st : PyDict.t person_key PersonData.t * PyDict.t pystr Z)
    (row : Personnel.t * pystr)
  : result (PyDict.t person_key PersonData.t * PyDict.t pystr Z) :=
  let (person_post_stats, post_type_totals) := st in
  let (person, post_type) := row in
  let key := (Personnel.id person, Personnel.full_name person) in
  let person_post_stats :=
    if PyDict.mem person_key_eqb key person_post_stats then person_post_stats
    else PyDict.set person_key_eqb key
           (PersonData.mk (Personnel.id person) (Personnel.full_name person)
              (Personnel.rank person) [])
           person_post_stats in
  data <- PyDict.getitem person_key_eqb key person_post_stats ;;
  let types := PersonData.post_types data in
  let types :=
    if PyDict.mem PyStr.eqb post_type types then types
    else PyDict.set PyStr.eqb post_type 0 types in
  n <- PyDict.getitem PyStr.eqb post_type types ;;
  let types := PyDict.set PyStr.eqb post_type (n + 1) types in
  let person_post_stats :=
    PyDict.set person_key_eqb key
      (PersonData.mk (PersonData.person_id data) (PersonData.person_name data)
         (PersonData.rank data) types)
      person_post_stats in
  let post_type_totals :=
    if PyDict.mem PyStr.eqb post_type post_type_totals then post_type_totals
    else PyDict.set PyStr.eqb post_type 0 post_type_totals in
  m <- PyDict.getitem PyStr.eqb post_type post_type_totals ;;
  Ok (person_post_stats, PyDict.set PyStr.eqb post_type (m + 1) post_type_totals).

(** The entry of one post type in the breakdown of a person. *)
Definition post_assignment_entry
    (post_type_totals : PyDict.t pystr Z) (total_assignments : Z)
    (item : pystr * Z) : result PostAssignment.t :=
  let (post_type, count) := item in
  total <- PyDict.getitem PyStr.eqb post_type post_type_totals ;;
  let percentage := if 0 <? total then percent count total else PyFloat.zero in
  Ok (PostAssignment.mk post_type count
        (PyFloat.round1 percentage)
        (if 0 <? total_assignments
         then PyFloat.round1 (percent count total_assignments)
         else PyFloat.zero)).

Definition ge_bool (a b : Z) : bool := b <=? a.

(** The metrics loop of [get_post_distribution_stats], for one person. *)
Definition person_stats_entry
    (post_type_totals : PyDict.t pystr Z) (person_data : PersonData.t)
  : result PersonStats.t :=
  let total_assignments :=
    sum (PyDict.values (PersonData.post_types person_data)) in
  post_assignments <-
    for_each
      (fun acc item =>
         e <- post_assignment_entry post_type_totals total_assignments item ;;
         Ok (acc ++ [e]))
      (PyDict.items (PersonData.post_types person_data)) [] ;;
  Ok (PersonStats.mk (PersonData.person_id person_data)
        (PersonData.person_name person_data) (PersonData.rank person_data)
        (sorted_by ge_bool PostAssignment.count post_assignments)
        total_assignments).

(** [get_post_distribution_stats(db)] *)
Definition get_post_distribution_stats (db : Session) : result Distribution.t :=
  '(person_post_stats, post_type_totals) <-
     for_each count_assignment (assignments_joined db) ([], []) ;;
  results <-
    for_each
      (fun acc person_data =>
         e <- person_stats_entry post_type_totals person_data ;;
         Ok (acc ++ [e]))
      (PyDict.values person_post_stats) [] ;;
  let results := sorted_by ge_bool PersonStats.total_assignments results in
  Ok (Distribution.mk results post_type_totals
        (sum (PyDict.values post_type_totals))
        (Z.of_nat (List.length results))).

(** ** Roster text parser and import *)

(** [query.offset(skip).limit(limit)] on integers that SQLite can hold
    (64 bits), as SQLite reads them: a negative offset is no offset, and a
    negative limit is no limit. *)
Definition sql_offset {A : Type} (skip : Z) (rows : list A) : list A :=
  skipn (Z.to_nat skip) rows.

Definition sql_limit {A : Type} (limit : Z) (rows : list A) : list A :=
  if limit <? 0 then rows else firstn (Z.to_nat limit) rows.

(** [get_personnel(db, skip, limit)] *)
Definition get_personnel (db : Session) (skip limit : Z) : list Personnel.t :=
  sql_limit limit (sql_offset skip (filter Personnel.is_active (personnel db))).

(** [get_post_types(db)] *)
Definition get_post_types (db : Session) : list PostType.t := post_types db.

(** One turn of the loop that fills [personnel_map]; [p.name.split()[-1]]
    raises when the name has no token. *)
Definition add_lookup_keys
    (personnel_map : PyDict.t pystr Personnel.t) (p : Personnel.t)
  : result (PyDict.t pystr Personnel.t) :=
  let full_name :=
    PyStr.upper (PyStr.spaced (Personnel.rank p) (Personnel.name p)) in
  let personnel_map := PyDict.set PyStr.eqb full_name p personnel_map in
  let personnel_map :=
    PyDict.set PyStr.eqb (PyStr.upper (Personnel.name p)) p personnel_map in
  match rev (PyStr.split (Personnel.name p)) with
  | [] => Raise IndexError
  | last :: _ =>
      Ok (PyDict.set PyStr.eqb (PyStr.upper last) p personnel_map)
  end.

(** [{pt.name.upper(): pt for pt in ...}] *)
Definition post_types_by_name (l : list PostType.t) : PyDict.t pystr PostType.t :=
  fold_left
    (fun d pt => PyDict.set PyStr.eqb (PyStr.upper (PostType.name pt)) pt d)
    l [].

Module PostMapping.
Record t : Type := mk { type : pystr; posts : list pystr }.
End PostMapping.

Definition post_mappings : PyDict.t pystr PostMapping.t :=
  map (fun '(k, ty, po) =>
         (PyStr.lit k, PostMapping.mk (PyStr.lit ty) [PyStr.lit po]))
    [("SOG", "SOG", "SOG"); ("CQ", "CQ", "CQ"); ("ECP1", "ECP", "ECP1");
     ("ECP2", "ECP", "ECP2"); ("ECP3", "ECP", "ECP3"); ("VCP", "VCP", "VCP");
     ("ROVER", "ROVER", "ROVER"); ("STAND BY", "Stand by", "Stand by")]%string.

(** The chain of header tests: the marker looked for in the line and the
    value it gives to [current_post_type], in the order of the tests. *)
Definition section_markers : list (pystr * pystr) :=
  map (fun '(marker, key) => (PyStr.lit marker, PyStr.lit key))
    [("SOG:", "SOG"); ("CQ:", "CQ"); ("ECP1:", "ECP1"); ("ECP2:", "ECP2");
     ("ECP3:", "ECP3"); ("VCP:", "VCP"); ("ROVER:", "ROVER");
     ("Stand by:", "STAND BY")]%string.

(** The prefixes of the lines that are skipped: minibus, laptop,
    construction sign, auto rickshaw, ["Meet at"], ["OCP"]. *)
Definition skipped_prefixes : list pystr :=
  [[128656%N]; [128187%N]; [128679%N]; [128762%N];
   PyStr.lit "Meet at"; PyStr.lit "OCP"].

(** *** The pattern of [name_matches]
    Group 1 is one of the rank tokens; then come one or more whitespace
    characters; group 2 is an ASCII letter followed by as many ASCII
    letters and hyphens as there are. *)

Definition rank_tokens : list pystr :=
  map PyStr.lit
    ["PV2"; "PFC"; "SPC"; "CPL"; "SGT"; "SSG"; "SFC"; "MSG"; "SGM"]%string.

Definition is_letter (c : N) : bool :=
  ((65 <=? c) && (c <=? 90) || (97 <=? c) && (c <=? 122))%N.

Definition is_name_char (c : N) : bool := is_letter c || (c =? 45)%N.

Fixpoint take_while (f : N -> bool) (s : pystr) : pystr :=
  match s with
  | [] => []
  | c :: s' => if f c then c :: take_while f s' else []
  end.

(** A match of the pattern at the start of [s]: the two groups and the
    length of the match.  The rank tokens have the same length and differ,
    and a shorter run of whitespace is followed by whitespace, so there is
    nothing to backtrack to. *)
Definition match_at (s : pystr) : option (pystr * pystr * nat) :=
  match first (fun r => PyStr.startswith r s) rank_tokens with
  | None => None
  | Some rank =>
      let after_rank := skipn (List.length rank) s in
      let spaces := take_while PyStr.is_space after_rank in
      let after_spaces := skipn (List.length spaces) after_rank in
      match spaces, after_spaces with
      | _ :: _, c :: _ =>
          if is_letter c then
            let name := take_while is_name_char after_spaces in
            Some (rank, name,
                  (List.length rank + List.length spaces + List.length name)%nat)
          else None
      | _, _ => None
      end
  end.

(** The matches from left to right, without overlap: [skip] characters of
    the last match are still to be passed. *)
Fixpoint findall_from (skip : nat) (s : pystr) : list (pystr * pystr) :=
  match s with
  | [] => []
  | _ :: s' =>
      match skip with
      | S k => findall_from k s'
      | O =>
          match match_at s with
          | Some (rank, name, len) => (rank, name) :: findall_from (len - 1) s'
          | None => findall_from 0 s'
          end
      end
  end.

(** [re.findall(pattern, line)] *)
Definition findall (line : pystr) : list (pystr * pystr) := findall_from 0 line.

(** *** Matching a name against [personnel_map] *)

(** The inner loop over [personnel_map.items()]. *)
Definition fuzzy_match (personnel_map : PyDict.t pystr Personnel.t)
    (rank last_name : pystr) : option Personnel.t :=
  option_map snd
    (first
       (fun item =>
          PyStr.contains (PyStr.upper last_name) (fst item)
          && PyStr.contains (PyStr.upper rank) (fst item))
       (PyDict.items personnel_map)).

(** The loop over [search_keys]: the fuzzy search stands inside it, after
    the test of the key. *)
Fixpoint search (personnel_map : PyDict.t pystr Personnel.t)
    (rank last_name : pystr) (search_keys : list pystr) : option Personnel.t :=
  match search_keys with
  | [] => None
  | key :: search_keys' =>
      match PyDict.get PyStr.eqb key personnel_map with
      | Some person => Some person
      | None =>
          match fuzzy_match personnel_map rank last_name with
          | Some person => Some person
          | None => search personnel_map rank last_name search_keys'
          end
      end
  end.

Definition find_person (personnel_map : PyDict.t pystr Personnel.t)
    (rank last_name : pystr) : option Personnel.t :=
  search personnel_map rank last_name
    [PyStr.upper (PyStr.spaced rank last_name);
     PyStr.upper last_name;
     PyStr.spaced (PyStr.upper rank) (PyStr.upper last_name)].

(** *** The import loop *)

Definition option_Z_eqb (a : option Z) (b : Z) : bool :=
  match a with Some x => x =? b | None => false end.

(** The assignment that the import creates. *)
Definition imported_assignment (person_id post_id duty_date : Z) : Assignment.t :=
  Assignment.mk person_id post_id duty_date
    (Some (PyStr.lit "06:00")) (Some (PyStr.lit "18:00"))
    (PyStr.lit "assigned") (Some (PyStr.lit "Imported from group chat")).

(** The text that SQLite holds for the value of a [DateTime] column,
    ["YYYY-MM-DD HH:MM:SS.ffffff"], and the text that is bound for a
    parameter that is a Python [date], ["YYYY-MM-DD"].  The type of the
    Python value decides how a parameter is bound, not the column it is
    compared with; a [date] that is stored in a [DateTime] column is
    stored as the text of its midnight. *)
Inductive sql_text : Type :=
| datetime_text (instant : Z)
| date_text (day : Z).

(** The comparison of two texts: that of a date and time is never that of
    a date, which is shorter. *)
Definition sql_text_eqb (a b : sql_text) : bool :=
  match a, b with
  | datetime_text x, datetime_text y => x =? y
  | date_text x, date_text y => x =? y
  | _, _ => false
  end.

(** The filter of the query for an existing assignment.  [duty_date_obj]
    is a [date], and [Assignment.duty_date] a [DateTime] column. *)
Definition same_assignment (person_id post_id duty_date : Z)
    (a : Assignment.t) : bool :=
  (Assignment.person_id a =? person_id)
  && (Assignment.post_id a =? post_id)
  && sql_text_eqb (datetime_text (Assignment.duty_date a)) (date_text duty_date).

(** [db.add(assignment); db.flush()] *)
Definition add_assignment_and_flush (db : Session) (a : Assignment.t) : Session :=
  flush (mkSession (with_assignments db (assignments db ++ [a])) (pending db)).

(** The variables of the loop over the lines. *)
Record import_state : Type := mkImport
  { current_post_type : option pystr;
    session : Session;
    assignments_created : Z }.

(** The body of the loop over [name_matches], [current] being the value of
    [current_post_type] on that line. *)
Definition import_match
    (personnel_map : PyDict.t pystr Personnel.t)
    (post_types : PyDict.t pystr PostType.t)
    (duty_date_obj : Z) (clock : Z -> Z) (current : pystr)
    (st : Session * Z) (name_match : pystr * pystr) : result (Session * Z) :=
  let (db, assignments_created) := st in
  let (rank, last_name) := name_match in
  match find_person personnel_map rank last_name with
  | None => Ok st
  | Some person =>
      match PyDict.get PyStr.eqb current post_mappings with
      | None => Ok st
      | Some mapping =>
          let post_type_name := PostMapping.type mapping in
          match PyDict.get PyStr.eqb (PyStr.upper post_type_name) post_types with
          | None => Ok st
          | Some post_type =>
              match PostMapping.posts mapping with
              | [] => Raise IndexError
              | post_name :: _ =>
                  match first
                          (fun p =>
                             option_Z_eqb (Post.post_type_id p) (PostType.id post_type)
                             && PyStr.eqb (Post.name p) post_name)
                          (posts db) with
                  | None => Ok st
                  | Some post =>
                      match first
                              (same_assignment (Personnel.id person) (Post.id post)
                                 duty_date_obj)
                              (assignments db) with
                      | Some _ => Ok st
                      | None =>
                          let assignment :=
                            imported_assignment (Personnel.id person)
                              (Post.id post) duty_date_obj in
                          let db := add_assignment_and_flush db assignment in
                          db <- update_fairness_tracking db
                                  (clock assignments_created)
                                  (Personnel.id person) (Post.id post) ;;
                          Ok (db, assignments_created + 1)
                      end
                  end
              end
          end
      end
  end.

(** The truth value of [current_post_type]. *)
Definition active_section (current : option pystr) : option pystr :=
  match current with
  | Some (c :: s) => Some (c :: s)
  | _ => None
  end.

(** The body of the loop over the lines. *)
Definition import_line
    (personnel_map : PyDict.t pystr Personnel.t)
    (post_types : PyDict.t pystr PostType.t)
    (duty_date_obj : Z) (clock : Z -> Z)
    (st : import_state) (line : pystr) : result import_state :=
  let line := PyStr.strip line in
  match line with
  | [] => Ok st
  | _ :: _ =>
      match first (fun m => PyStr.contains (fst m) line) section_markers with
      | Some (_, key) =>
          Ok (mkImport (Some key) (session st) (assignments_created st))
      | None =>
          match active_section (current_post_type st) with
          | None => Ok st
          | Some current =>
              if existsb (fun p => PyStr.startswith p line) skipped_prefixes
              then Ok st
              else
                '(db, created) <-
                   for_each
                     (import_match personnel_map post_types duty_date_obj clock
                        current)
                     (findall line) (session st, assignments_created st) ;;
                Ok (mkImport (current_post_type st) db created)
          end
      end
  end.

(** [parse_and_create_chat_assignments(db, chat_text, duty_date)]: the
    count and the session after the commit.  [duty_date] is the date that
    [datetime.fromisoformat] reads in the string, [None] when it raises;
    [today] is the reading of [datetime.now().date()], used in that case;
    [clock n] is the reading of the clock when [n] assignments were created
    before. *)
Definition parse_and_create_chat_assignments
    (db : Session) (chat_text : pystr) (duty_date : option Z)
    (today : Z) (clock : Z -> Z) : result (Z * Session) :=
  let duty_date_obj := match duty_date with Some d => d | None => today end in
  let all_personnel := get_personnel db 0 100 in
  personnel_map <- for_each add_lookup_keys all_personnel [] ;;
  let post_types := post_types_by_name (get_post_types db) in
  let lines := PyStr.split_on 10%N (PyStr.strip chat_text) in
  st <- for_each (import_line personnel_map post_types duty_date_obj clock)
          lines (mkImport None db 0) ;;
  Ok (assignments_created st, commit (session st)).

(** ** Other reads and writes of [app/crud.py] *)

(** [get_assignments(db, skip, limit, duty_date)], for [skip] and [limit]
    that SQLite can hold.  The rows of the date, when one is given (a
    [datetime], compared with the column as a date and time), by
    descending duty date.  The database promises no order among rows of
    the same date; the model keeps them in the order of the table. *)
Definition get_assignments (db : Session) (skip limit : Z)
    (duty_date : option Z) : list Assignment.t :=
  let query :=
    match duty_date with
    | Some d =>
        filter
          (fun a =>
             sql_text_eqb (datetime_text (Assignment.duty_date a))
               (datetime_text d))
          (assignments db)
    | None => assignments db
    end in
  sql_limit limit (sql_offset skip (sorted_by ge_bool Assignment.duty_date query)).

(** [create_assignment(db, assignment)], [now] being the reading of the
    clock in [update_fairness_tracking]: the session after the commit.
    The assignment is written by the commit; nothing reads the assignments
    before. *)
Definition create_assignment (db : Session) (assignment : Assignment.t)
    (now : Z) : result Session :=
  let db :=
    mkSession (with_assignments db (assignments db ++ [assignment]))
      (pending db) in
  db <- update_fairness_tracking db now
          (Assignment.person_id assignment) (Assignment.post_id assignment) ;;
  Ok (commit db).

(** ** The [/api/setup-posts] route of [app/main.py] *)

Definition with_post_types (s : Store) (l : list PostType.t) : Store :=
  mkStore (personnel s) l (posts s) (assignments s) (fairness_tracking s).

(** The identifier that the database gives a new row: one more than the
    largest of the table, 1 in an empty table. *)
Definition fresh_id (ids : list Z) : Z := fold_right Z.max 0 ids + 1.

(** The names of [post_type_data]. *)
Definition post_type_data : list pystr :=
  map PyStr.lit ["SOG"; "CQ"; "ECP"; "VCP"; "ROVER"; "Stand by"]%string.

(** [post_data]: the name of the post type and the name of the post. *)
Definition post_data : list (pystr * pystr) :=
  map (fun '(ty, po) => (PyStr.lit ty, PyStr.lit po))
    [("SOG", "SOG"); ("CQ", "CQ"); ("ECP", "ECP1"); ("ECP", "ECP2");
     ("ECP", "ECP3"); ("VCP", "VCP"); ("ROVER", "ROVER");
     ("Stand by", "Stand by")]%string.

(** The first loop: a post type that is missing is created (its weight is
    the default of the column) and committed. *)
Definition ensure_post_type (s : Store) (type_name : pystr) : Store :=
  match first (fun pt => PyStr.eqb (PostType.name pt) type_name) (post_types s) with
  | Some _ => s
  | None =>
      with_post_types s
        (post_types s
         ++ [PostType.mk (fresh_id (map PostType.id (post_types s))) type_name
               (Some 1)])
  end.

(** The second loop.  [Post(name=..., post_type_id=..., description=...)]
    names a column that [Post] does not have: the constructor raises
    [TypeError] before anything is added. *)
Definition ensure_post (s : Store) (created_posts : Z) (item : pystr * pystr)
  : result Z :=
  let (type_name, post_name) := item in
  match first (fun pt => PyStr.eqb (PostType.name pt) type_name) (post_types s) with
  | Some post_type =>
      match first
              (fun p =>
                 option_Z_eqb (Post.post_type_id p) (PostType.id post_type)
                 && PyStr.eqb (Post.name p) post_name)
              (posts s) with
      | Some _ => Ok created_posts
      | None => Raise TypeError
      end
  | None => Ok created_posts
  end.

(** [setup_posts]: the store after the request, and [posts_created] or the
    exception. *)
Definition setup_posts (s : Store) : Store * result Z :=
  let s := fold_left ensure_post_type post_type_data s in
  (s, for_each (ensure_post s) post_data 0).

(** ** The roster of [initialize_data], for examples *)

Definition seed_post_types : list PostType.t :=
  map (fun '(i, n, w) => PostType.mk i (PyStr.lit n) (Some w))
    [(1, "SOG", 5); (2, "CQ", 3); (3, "ECP", 4); (4, "VCP", 3);
     (5, "ROVER", 3); (6, "Stand by", 1)]%string.

Definition seed_posts : list Post.t :=
  map (fun '(i, n, ty) => Post.mk i (PyStr.lit n) (Some ty) true)
    [(1, "SOG", 1); (2, "CQ", 2); (3, "ECP1", 3); (4, "ECP2", 3);
     (5, "ECP3", 3); (6, "VCP", 4); (7, "ROVER", 5); (8, "Stand by", 6)]%string.

Definition person (i : Z) (rank name : string) : Personnel.t :=
  Personnel.mk i (PyStr.lit rank) (PyStr.lit name) true.

(** A store with the seeded post types and posts, the given roster, and no
    assignment. *)
Definition seeded (roster : list Personnel.t) : Store :=
  mkStore roster seed_post_types seed_posts [] [].

(** ** Vocabulary of the properties *)

(** Every tracking object of a session, written or pending. *)
Definition all_tracking (db : Session) : list FairnessTracking.t :=
  fairness_tracking db ++ pending db.

(** The invariant of a tracking row, a null counter read as 0 as
    [update_fairness_tracking] reads it. *)
Definition fairness_invariant (f : FairnessTracking.t) : Prop :=
  0 <= or_zero (FairnessTracking.consecutive_standby f)
    <= or_zero (FairnessTracking.total_assignments f)
  /\ 0 <= or_zero (FairnessTracking.total_difficulty_points f).

(** No post type has a negative difficulty weight. *)
Definition weights_nonnegative (s : Store) : Prop :=
  forall pt w,
    In pt (post_types s) -> PostType.difficulty_weight pt = Some w -> 0 <= w.

(** A tracking row without its timestamp. *)
Definition counters (f : FairnessTracking.t) : Z * option Z * option Z * option Z :=
  (FairnessTracking.person_id f,
   FairnessTracking.total_assignments f,
   FairnessTracking.total_difficulty_points f,
   FairnessTracking.consecutive_standby f).

(** The weight that a call adds to the points. *)
Definition resolved_weight (s : Store) (post_id : Z) : Z :=
  match first (fun p => Post.id p =? post_id) (posts s) with
  | Some p =>
      match post_type_of s p with
      | Some pt => or_one (PostType.difficulty_weight pt)
      | None => 1
      end
  | None => 1
  end.

(** Two sessions that differ at most in the timestamps of their pending
    tracking objects. *)
Definition same_but_time (db1 db2 : Session) : Prop :=
  tables db1 = tables db2
  /\ map counters (pending db1) = map counters (pending db2).

(** The entry [s] of a joined [row] holds the score of the row: that of
    [tracked_score] for a tracking row, and [0.0] without one. *)
Definition scored (now : Z) (row : Personnel.t * option FairnessTracking.t)
    (s : FairnessStats.t) : Prop :=
  FairnessStats.person_id s = Personnel.id (fst row)
  /\ match snd row with
     | Some tr =>
         exists points,
           FairnessTracking.total_difficulty_points tr = Some points
           /\ tracked_score now points (FairnessTracking.last_assignment_date tr)
              = Ok (FairnessStats.fairness_score s)
     | None => FairnessStats.fairness_score s = PyFloat.zero
     end.

(** Ascending fairness scores. *)
Definition score_le (a b : FairnessStats.t) : Prop :=
  PyFloat.leb (FairnessStats.fairness_score a) (FairnessStats.fairness_score b)
  = true.

(** The tracking row has no waiting time to its credit: its date is null,
    or the clock reads less than a day after it. *)
Definition no_waiting_bonus (now : Z) (tr : FairnessTracking.t) : Prop :=
  match FairnessTracking.last_assignment_date tr with
  | Some d => days_since now d = 0
  | None => True
  end.

(** The points of a tracking row are not negative. *)
Definition points_nonnegative (tr : FairnessTracking.t) : Prop :=
  exists points,
    FairnessTracking.total_difficulty_points tr = Some points /\ 0 <= points.

(** *** Floats and their order *)

(** A float that is not NaN and has the sign [s]. *)
Definition signed (s : bool) (x : PyFloat.t) : Prop :=
  match x with
  | S754_nan => False
  | S754_zero s' | S754_infinity s' | S754_finite s' _ _ => s' = s
  end.

Definition is_nan (x : PyFloat.t) : bool :=
  match x with S754_nan => true | _ => false end.

(** The place of a float in the order of [SFcompare], NaN being put
    first: the class, then the exponent, then the mantissa. *)
Definition float_key (x : PyFloat.t) : Z * Z * Z :=
  match x with
  | S754_nan => (-3, 0, 0)
  | S754_infinity true => (-2, 0, 0)
  | S754_finite true m e => (-1, - e, - Zpos m)
  | S754_zero _ => (0, 0, 0)
  | S754_finite false m e => (1, e, Zpos m)
  | S754_infinity false => (2, 0, 0)
  end.

Definition lex_leb (a b : Z * Z * Z) : bool :=
  let '(a1, a2, a3) := a in
  let '(b1, b2, b3) := b in
  (a1 <? b1) || (a1 =? b1) && ((a2 <? b2) || (a2 =? b2) && (a3 <=? b3)).

Definition key_leb (x y : PyFloat.t) : bool :=
  lex_leb (float_key x) (float_key y).

(** *** Stores of the examples *)

Definition lastre : Personnel.t := person 1 "SGT" "Lastre".
Definition miller : Personnel.t := person 7 "SPC" "Miller".
Definition kent : Personnel.t := person 5 "PV2" "Kent".

(** Kent was never assigned; Lastre has one assignment to SOG (5 points),
    recorded at instant 0. *)
Definition store_after_long_wait : Store :=
  mkStore [kent; lastre] seed_post_types seed_posts
    [imported_assignment 1 1 0]
    [FairnessTracking.mk 1 (Some 1) (Some 5) (Some 0) (Some 0)].

Definition sixty_days : Z := 60 * microseconds_per_day.

(** Lines joined by line feeds. *)
Fixpoint lines_of (ls : list string) : pystr :=
  match ls with
  | [] => []
  | [l] => PyStr.lit l
  | l :: ls' => PyStr.lit l ++ 10%N :: lines_of ls'
  end.

(** The text of the parser scenario, names on the header lines, and the
    same roster with the names on lines of their own. *)
Definition scenario_text : pystr :=
  lines_of ["SOG: SGT Lastre"; EmptyString; "CQ: SPC Miller"]%string.

Definition scenario_text_names_below : pystr :=
  lines_of ["SOG:"; "SGT Lastre"; EmptyString; "CQ:"; "SPC Miller"]%string.

(** The order of the matching rules in the words of the specification:
    the full name, compared without case; then the bare name; then the
    first roster entry whose upper-cased full name contains the name token
    and the rank. *)
Definition find_person_in_stated_order (roster : list Personnel.t)
    (rank name_token : pystr) : option Personnel.t :=
  match first
          (fun p =>
             PyStr.eqb (PyStr.upper (Personnel.full_name p))
               (PyStr.upper (PyStr.spaced rank name_token)))
          roster with
  | Some p => Some p
  | None =>
      match first (fun p => PyStr.eqb (Personnel.name p) name_token) roster with
      | Some p => Some p
      | None =>
          first
            (fun p =>
               PyStr.contains (PyStr.upper name_token)
                 (PyStr.upper (Personnel.full_name p))
               && PyStr.contains (PyStr.upper rank)
                    (PyStr.upper (Personnel.full_name p)))
            roster
      end
  end.

Definition leeds : Personnel.t := person 1 "SGT" "Leeds".
Definition lee : Personnel.t := person 2 "SPC" "Lee".

(** A hundred active persons, and a hundred-and-first whose name is one
    space. *)
Definition blank_name : Personnel.t :=
  Personnel.mk 101 (PyStr.lit "SPC") (PyStr.lit " ") true.

Definition store_crowded : Store :=
  seeded (map (fun i => person (Z.of_nat i) "SPC" "Hall") (seq 1 100)
          ++ [blank_name]).

(** *** Counting the joined assignments *)

Definition joined_row : Type := (Personnel.t * pystr)%type.

Definition row_key (row : joined_row) : person_key :=
  (Personnel.id (fst row), Personnel.full_name (fst row)).

(** The number of rows that [f] selects. *)
Definition count_rows (f : joined_row -> bool) (rows : list joined_row) : Z :=
  Z.of_nat (List.length (filter f rows)).

Definition of_type (t : pystr) (row : joined_row) : bool := PyStr.eqb (snd row) t.

Definition of_person_and_type (k : person_key) (t : pystr) (row : joined_row)
  : bool :=
  person_key_eqb (row_key row) k && PyStr.eqb (snd row) t.

Definition some_positive (n : Z) : option Z := if n =? 0 then None else Some n.

(** A dictionary of counters holds the values of [g] that are not zero,
    each under one key. *)
Definition counts (d : PyDict.t pystr Z) (g : pystr -> Z) : Prop :=
  NoDup (map fst d)
  /\ forall t, PyDict.get PyStr.eqb t d = some_positive (g t).

(** [person_post_stats] after the rows [rows]. *)
Definition counts_persons (rows : list joined_row)
    (person_post_stats : PyDict.t person_key PersonData.t) : Prop :=
  NoDup (map fst person_post_stats)
  /\ forall k,
       match PyDict.get person_key_eqb k person_post_stats with
       | Some data =>
           (PersonData.person_id data, PersonData.person_name data) = k
           /\ counts (PersonData.post_types data)
                (fun t => count_rows (of_person_and_type k t) rows)
       | None => forall t, count_rows (of_person_and_type k t) rows = 0
       end.

(** What the view says of the entry [e] in the breakdown of the person
    [k]: its count is the number of the person's assignments of that post
    type, the total of the post type is the number of all assignments of
    that type, and the percentage is their ratio rounded to a tenth. *)
Definition entry_of (rows : list joined_row) (totals : PyDict.t pystr Z)
    (k : person_key) (e : PostAssignment.t) : Prop :=
  let c := count_rows (of_person_and_type k (PostAssignment.post_type e)) rows in
  let total := count_rows (of_type (PostAssignment.post_type e)) rows in
  PostAssignment.count e = c
  /\ PyDict.get PyStr.eqb (PostAssignment.post_type e) totals = Some total
  /\ 0 < c <= total
  /\ PostAssignment.percentage_of_total e = PyFloat.round1 (percent c total).

(** One assignment of Lastre and two of Miller, all to SOG. *)
Definition store_one_of_three : Store :=
  with_assignments (seeded [lastre; miller])
    [imported_assignment 1 1 19737; imported_assignment 7 1 19738;
     imported_assignment 7 1 19739].

(** What the import reads and never writes. *)
Definition same_roster (s1 s2 : Store) : Prop :=
  personnel s1 = personnel s2
  /\ post_types s1 = post_types s2
  /\ posts s1 = posts s2.

(** A post whose [post_type_id] refers to no post type. *)
Definition store_with_untyped_post : Store :=
  mkStore [lastre] seed_post_types
    (seed_posts ++ [Post.mk 9 (PyStr.lit "Gate") (Some 99) true]) [] [].

(** A post type with a negative difficulty weight. *)
Definition store_with_negative_weight : Store :=
  mkStore [lastre] [PostType.mk 1 (PyStr.lit "SOG") (Some (-1))]
    [Post.mk 1 (PyStr.lit "SOG") (Some 1) true] [] [].

(** The same with Kent, who has no assignment, on the roster. *)
Definition store_with_negative_weight_and_kent : Store :=
  mkStore [kent; lastre] [PostType.mk 1 (PyStr.lit "SOG") (Some (-1))]
    [Post.mk 1 (PyStr.lit "SOG") (Some 1) true] [] [].


(** One assignment, of Lastre to SOG. *)
Definition store_with_one_assignment : Store :=
  with_assignments (seeded [lastre; miller]) [imported_assignment 1 1 19737].

(** *** Vocabulary of the further properties *)

(** The shape of a match: a rank token, whitespace, and a name that is a
    letter followed by letters and hyphens and that ends where no such
    character follows. *)
Definition is_match (rank spaces name after : pystr) : Prop :=
  In rank rank_tokens
  /\ spaces <> []
  /\ forallb PyStr.is_space spaces = true
  /\ (exists c rest,
        name = c :: rest /\ is_letter c = true
        /\ forallb is_name_char rest = true)
  /\ match after with
     | [] => True
     | c :: _ => is_name_char c = false
     end.

(** The keys under which [personnel_map] holds a person. *)
Definition answers_to (p : Personnel.t) (key : pystr) : Prop :=
  key = PyStr.upper (Personnel.full_name p)
  \/ key = PyStr.upper (Personnel.name p)
  \/ exists last rest,
       rev (PyStr.split (Personnel.name p)) = last :: rest
       /\ key = PyStr.upper last.


(** The rows that [get_assignments] orders. *)
Definition rows_of_date (db : Session) (duty_date : option Z) : list Assignment.t :=
  match duty_date with
  | Some d => filter (fun a => Assignment.duty_date a =? d) (assignments db)
  | None => assignments db
  end.

(** An integer that SQLite can hold. *)
Definition fits (z : Z) : Prop := - 2 ^ 63 <= z < 2 ^ 63.

(** A post that exists while its post type does not. *)
Definition untyped_post (s : Store) (post_id : Z) : bool :=
  match first (fun p => Post.id p =? post_id) (posts s) with
  | Some p =>
      match post_type_of s p with
      | Some _ => false
      | None => true
      end
  | None => false
  end.

(** An assignment to such a post. *)
Definition blocks_replay (s : Store) (a : Assignment.t) : bool :=
  untyped_post s (Assignment.post_id a).

(** The row that replaying [a] at time [now] adds. *)
Definition replayed (s : Store) (a : Assignment.t) (f : FairnessTracking.t) : Prop :=
  FairnessTracking.person_id f = Assignment.person_id a
  /\ FairnessTracking.total_assignments f = Some 1
  /\ FairnessTracking.total_difficulty_points f
     = Some (resolved_weight s (Assignment.post_id a)).

Definition has_post_type (s : Store) (type_name : pystr) : bool :=
  existsb (fun pt => PyStr.eqb (PostType.name pt) type_name) (post_types s).

(** A post of [post_data] that the second loop of [setup_posts] does not
    find. *)
Definition post_missing (s : Store) (item : pystr * pystr) : bool :=
  match first (fun pt => PyStr.eqb (PostType.name pt) (fst item)) (post_types s) with
  | Some post_type =>
      negb (existsb
              (fun p =>
                 option_Z_eqb (Post.post_type_id p) (PostType.id post_type)
                 && PyStr.eqb (Post.name p) (snd item))
              (posts s))
  | None => false
  end.

(** A store without post types and posts. *)
Definition store_without_posts : Store := mkStore [lastre] [] [] [] [].

(** The rows of the person [k]. *)
Definition of_person (k : person_key) (row : joined_row) : bool :=
  person_key_eqb (row_key row) k.

(** *** Tracking rows and the assignments they count *)

(** The rows [rows] track the assignments [asg]: one row per person at
    most, a row for every person with an assignment, and in every row the
    number of the person's assignments and the sum of their weights. *)
Definition tracked (asg : list Assignment.t) (weight : Z -> Z)
    (rows : list FairnessTracking.t) : Prop :=
  NoDup (map FairnessTracking.person_id rows)
  /\ Forall
       (fun f =>
          let own :=
            filter
              (fun a => Assignment.person_id a =? FairnessTracking.person_id f)
              asg in
          FairnessTracking.total_assignments f = Some (Z.of_nat (List.length own))
          /\ FairnessTracking.total_difficulty_points f
             = Some (sum (map (fun a => weight (Assignment.post_id a)) own)))
       rows
  /\ forall a,
       In a asg ->
       In (Assignment.person_id a) (map FairnessTracking.person_id rows).

Definition tracking_in_step (s : Store) : Prop :=
  tracked (assignments s) (resolved_weight s) (fairness_tracking s).

(** *** The import, one created assignment at a time *)

(** One assignment created by the import: a person of the roster and a
    post of the store; the row is added and flushed, and the tracking
    updated at the reading of the clock. *)
Inductive creates (roster : list Personnel.t) (duty_date : Z) (clock : Z -> Z)
  : Session * Z -> Session * Z -> Prop :=
| creates_one (db db' : Session) (n : Z) (person : Personnel.t) (post : Post.t) :
    In person roster ->
    In post (posts db) ->
    update_fairness_tracking
      (add_assignment_and_flush db
         (imported_assignment (Personnel.id person) (Post.id post) duty_date))
      (clock n) (Personnel.id person) (Post.id post) = Ok db' ->
    creates roster duty_date clock (db, n) (db', n + 1).

Inductive imports (roster : list Personnel.t) (duty_date : Z) (clock : Z -> Z)
  : Session * Z -> Session * Z -> Prop :=
| imports_none (st : Session * Z) : imports roster duty_date clock st st
| imports_more (st st1 st2 : Session * Z) :
    imports roster duty_date clock st st1 ->
    creates roster duty_date clock st1 st2 ->
    imports roster duty_date clock st st2.

(** The date the import works with. *)
Definition date_or_today (duty_date : option Z) (today : Z) : Z :=
  match duty_date with Some d => d | None => today end.

(** An assignment as the import creates it for the roster and the posts. *)
Definition imported_for (roster : list Personnel.t) (posts : list Post.t)
    (duty_date : Z) (a : Assignment.t) : Prop :=
  exists person post,
    In person roster /\ In post posts
    /\ a = imported_assignment (Personnel.id person) (Post.id post) duty_date.

(** A person whose name has no token. *)
Definition blank (p : Personnel.t) : bool :=
  forallb PyStr.is_space (Personnel.name p).

(** A line that contains one of the section markers. *)
Definition has_marker (line : pystr) : bool :=
  existsb (fun m => PyStr.contains (fst m) line) section_markers.

(** Lines whose names all stand on header lines or before the first
    header: each line contains a marker, or no line before it does, or it
    holds no rank followed by a name.  [seen_header] tells whether a line
    before contained a marker. *)
Fixpoint names_on_headers_only (seen_header : bool) (lines : list pystr) : bool :=
  match lines with
  | [] => true
  | line :: lines' =>
      if has_marker (PyStr.strip line)
      then names_on_headers_only true lines'
      else (negb seen_header
            || match findall (PyStr.strip line) with [] => true | _ => false end)
           && names_on_headers_only seen_header lines'
  end.

(** * Properties *)

(** ** Loops *)

(** A loop that appends one computed element per turn is a [map] that may
    raise. *)
Lemma for_each_append {A B : Type} (f : A -> result B) (l : list A) (acc : list B) :
  match for_each (fun acc a => b <- f a ;; Ok (acc ++ [b])) l acc with
  | Ok out => exists bs, out = acc ++ bs /\ Forall2 (fun a b => f a = Ok b) l bs
  | Raise e => exists a, In a l /\ f a = Raise e
  end.
Proof.
  revert acc; induction l as [|a l IH]; intros acc; simpl.
  - exists []. split; [now rewrite app_nil_r | constructor].
  - destruct (f a) as [b|e] eqn:Ha; simpl.
    + specialize (IH (acc ++ [b])).
      destruct (for_each _ l (acc ++ [b])) as [out|e].
      * destruct IH as (bs & -> & HF). exists (b :: bs).
        split; [now rewrite <- app_assoc | now constructor].
      * destruct IH as (a' & Hin & Hr). exists a'. auto.
    + exists a. auto.
Qed.

(** ** Queries *)

Lemma first_some_in {A : Type} (f : A -> bool) (l : list A) (x : A) :
  first f l = Some x -> In x l /\ f x = true.
Proof. unfold first. apply find_some. Qed.

Lemma in_update_first {A : Type} (f : A -> bool) (g : A -> A) (l : list A) (x : A) :
  In x (update_first f g l) ->
  In x l \/ exists y, In y l /\ f y = true /\ x = g y.
Proof.
  induction l as [|y l IH]; simpl; [tauto|].
  destruct (f y) eqn:Hy; simpl.
  - intros [<-|Hin]; [right; exists y; auto | auto].
  - intros [<-|Hin]; [auto|].
    destruct (IH Hin) as [H|(z & Hz & Hfz & ->)]; [auto|].
    right. exists z. auto.
Qed.

Lemma post_type_of_in (s : Store) (post : Post.t) (pt : PostType.t) :
  post_type_of s post = Some pt -> In pt (post_types s).
Proof.
  unfold post_type_of. destruct (Post.post_type_id post); [|discriminate].
  intros H. now apply first_some_in in H.
Qed.

(** ** Fairness engine: [update_fairness_tracking] *)

Lemma resolved_weight_nonnegative (s : Store) (post_id : Z) :
  weights_nonnegative s -> 0 <= resolved_weight s post_id.
Proof.
  intros Hw. unfold resolved_weight.
  destruct (first _ (posts s)) as [p|]; [|lia].
  destruct (post_type_of s p) as [pt|] eqn:Hpt; [|lia].
  apply post_type_of_in in Hpt.
  unfold or_one. destruct (PostType.difficulty_weight pt) as [w|] eqn:E; [|lia].
  specialize (Hw pt w Hpt E). destruct (w =? 0); lia.
Qed.

(** What a call that returns has done: the object it worked on (the first
    row of the person, or a new object with zero counters) has one more
    assignment and [resolved_weight] more points, and its streak is the
    old one, zero, or one more; that object replaces the row, or joins
    the pending objects; nothing else changes. *)
Lemma update_fairness_tracking_ok
    (db db' : Session) (now person_id post_id : Z) :
  update_fairness_tracking db now person_id post_id = Ok db' ->
  let same_person f := FairnessTracking.person_id f =? person_id in
  let found := first same_person (fairness_tracking db) in
  let old :=
    match found with
    | Some f => f
    | None => FairnessTracking.mk person_id (Some 0) (Some 0) None (Some 0)
    end in
  exists standby,
    let updated :=
      FairnessTracking.mk (FairnessTracking.person_id old)
        (Some (or_zero (FairnessTracking.total_assignments old) + 1))
        (Some (or_zero (FairnessTracking.total_difficulty_points old)
               + resolved_weight db post_id))
        (Some now) (Some standby) in
    (standby = or_zero (FairnessTracking.consecutive_standby old)
     \/ standby = 0
     \/ standby = or_zero (FairnessTracking.consecutive_standby old) + 1)
    /\ db' =
       match found with
       | Some _ =>
           mkSession
             (with_fairness db
                (update_first same_person (fun _ => updated) (fairness_tracking db)))
             (pending db)
       | None => mkSession db (pending db ++ [updated])
       end.
Proof.
  unfold update_fairness_tracking, resolved_weight. intros H; cbv zeta.
  destruct (first (fun p => Post.id p =? post_id) (posts db)) as [p|].
  - destruct (post_type_of db p) as [pt|]; [|discriminate].
    destruct (negb (PyStr.eqb (PostType.name pt) stand_by));
      injection H as <-; refine (ex_intro _ _ (conj _ eq_refl)); auto.
  - injection H as <-. refine (ex_intro _ _ (conj _ eq_refl)); auto.
Qed.

(** A post that does not exist: the call returns, with weight 1 and the
    streak as it was. *)
Lemma update_fairness_tracking_missing_post (db : Session) (now person_id post_id : Z) :
  first (fun p => Post.id p =? post_id) (posts db) = None ->
  resolved_weight db post_id = 1
  /\ exists db', update_fairness_tracking db now person_id post_id = Ok db'
     /\ forall old,
          first (fun f => FairnessTracking.person_id f =? person_id)
            (fairness_tracking db) = Some old ->
          In (FairnessTracking.mk (FairnessTracking.person_id old)
                (Some (or_zero (FairnessTracking.total_assignments old) + 1))
                (Some (or_zero (FairnessTracking.total_difficulty_points old) + 1))
                (Some now)
                (Some (or_zero (FairnessTracking.consecutive_standby old))))
             (fairness_tracking db').
Proof.
  intros Hpost. unfold update_fairness_tracking, resolved_weight.
  rewrite Hpost. split; [reflexivity|].
  eexists; split; [reflexivity|].
  intros old Hold. rewrite Hold. cbn [tables fairness_tracking with_fairness].
  revert Hold. generalize (fairness_tracking db) as l.
  induction l as [|f l IH]; simpl; [discriminate|].
  destruct (FairnessTracking.person_id f =? person_id).
  - intros [= ->]. now left.
  - intros H. right. now apply IH.
Qed.

(** C2 (fails on the code).  A post that exists while its post type cannot
    be resolved makes [update_fairness_tracking] raise [AttributeError]:
    the weight is guarded by [post and post.post_type], the streak test
    reads [post.post_type.name] under the guard [post] alone. *)
Theorem update_fairness_tracking_raises_without_post_type
    (db : Session) (now person_id post_id : Z) (post : Post.t) :
  first (fun p => Post.id p =? post_id) (posts db) = Some post ->
  post_type_of db post = None ->
  update_fairness_tracking db now person_id post_id = Raise AttributeError.
Proof.
  intros Hpost Htype. unfold update_fairness_tracking.
  now rewrite Hpost, Htype.
Qed.

Lemma update_fairness_tracking_raises_without_post_type_witness :
  update_fairness_tracking (get_db store_with_untyped_post) 0 1 9
  = Raise AttributeError.
Proof.
  apply (update_fairness_tracking_raises_without_post_type
           (get_db store_with_untyped_post) 0 1 9
           (Post.mk 9 (PyStr.lit "Gate") (Some 99) true));
    reflexivity.
Defined.

(** The invariant of the object that a call leaves behind. *)
Lemma fairness_invariant_step (old : FairnessTracking.t) (w now standby : Z) :
  fairness_invariant old -> 0 <= w ->
  standby = or_zero (FairnessTracking.consecutive_standby old)
  \/ standby = 0
  \/ standby = or_zero (FairnessTracking.consecutive_standby old) + 1 ->
  fairness_invariant
    (FairnessTracking.mk (FairnessTracking.person_id old)
       (Some (or_zero (FairnessTracking.total_assignments old) + 1))
       (Some (or_zero (FairnessTracking.total_difficulty_points old) + w))
       (Some now) (Some standby)).
Proof.
  unfold fairness_invariant; simpl. intros [H1 H2] Hw Hs. lia.
Qed.

(** C9 (amended).  When no post type has a negative difficulty weight, a
    call of [update_fairness_tracking] that returns keeps, for every
    tracking object of the session, [0 <= consecutive_standby <=
    total_assignments] and [0 <= total_difficulty_points]. *)
Theorem update_fairness_tracking_preserves_invariant
    (db db' : Session) (now person_id post_id : Z) :
  weights_nonnegative db ->
  Forall fairness_invariant (all_tracking db) ->
  update_fairness_tracking db now person_id post_id = Ok db' ->
  Forall fairness_invariant (all_tracking db').
Proof.
  intros Hw Hinv Hok.
  pose proof (resolved_weight_nonnegative db post_id Hw) as Hweight.
  apply update_fairness_tracking_ok in Hok. cbv zeta in Hok.
  destruct Hok as (standby & Hstandby & ->).
  unfold all_tracking in *. rewrite Forall_forall in *.
  destruct (first _ (fairness_tracking db)) as [old|] eqn:Hfound;
    cbn [tables pending fairness_tracking with_fairness].
  - apply first_some_in in Hfound as [Hin _].
    intros x Hx. apply in_app_or in Hx as [Hx|Hx].
    + apply in_update_first in Hx as [Hx|(y & _ & _ & ->)].
      * apply Hinv, in_or_app; auto.
      * apply fairness_invariant_step; auto.
        apply Hinv, in_or_app; auto.
    + apply Hinv, in_or_app; auto.
  - intros x Hx. rewrite app_assoc in Hx. apply in_app_or in Hx as [Hx|[<-|[]]].
    + now apply Hinv.
    + apply fairness_invariant_step; auto.
      unfold fairness_invariant; simpl; lia.
Qed.

Lemma seed_weights_nonnegative (roster : list Personnel.t) :
  weights_nonnegative (seeded roster).
Proof.
  intros pt w Hin Hw. simpl in Hin.
  repeat (destruct Hin as [<-|Hin]; [injection Hw as <-; lia|]).
  destruct Hin.
Qed.

Lemma update_fairness_tracking_preserves_invariant_witness :
  exists db',
    update_fairness_tracking (get_db (seeded [lastre])) 0 1 8 = Ok db'
    /\ Forall fairness_invariant (all_tracking db').
Proof.
  eexists. split; [reflexivity|].
  apply (update_fairness_tracking_preserves_invariant
           (get_db (seeded [lastre])) _ 0 1 8).
  - apply seed_weights_nonnegative.
  - constructor.
  - reflexivity.
Defined.

(** C9 (as stated, refuted).  With a post type of weight -1 the call
    returns and leaves a tracking object whose points are negative. *)
Lemma update_fairness_tracking_negative_points :
  Forall fairness_invariant (all_tracking (get_db store_with_negative_weight))
  /\ exists db',
       update_fairness_tracking (get_db store_with_negative_weight) 0 1 1 = Ok db'
       /\ ~ Forall fairness_invariant (all_tracking db').
Proof.
  split; [constructor|].
  eexists. split; [reflexivity|].
  intros H. inversion H as [|f l [_ Hpoints] _]; subst.
  simpl in Hpoints. lia.
Qed.

(** ** Fairness engine: [recalculate_fairness] *)

(** While the table is empty, a call adds a pending object; the clock
    decides its timestamp and nothing else, in particular not whether the
    call raises. *)
Lemma update_fairness_tracking_fresh
    (db1 db2 : Session) (now1 now2 person_id post_id : Z) :
  fairness_tracking db1 = [] ->
  same_but_time db1 db2 ->
  match update_fairness_tracking db1 now1 person_id post_id,
        update_fairness_tracking db2 now2 person_id post_id with
  | Ok d1, Ok d2 =>
      tables d1 = tables db1 /\ same_but_time d1 d2
  | Raise e1, Raise e2 => e1 = e2
  | _, _ => False
  end.
Proof.
  destruct db1 as [s1 p1], db2 as [s2 p2]. unfold same_but_time. simpl.
  intros Hempty [<- Hp]. unfold update_fairness_tracking. simpl.
  rewrite Hempty. simpl.
  destruct (first _ (posts s1)) as [post|].
  - destruct (post_type_of s1 post) as [pt|]; [|reflexivity].
    destruct (negb _); simpl; repeat split;
      now rewrite !map_app, Hp.
  - simpl. repeat split. now rewrite !map_app, Hp.
Qed.

Lemma replay_related (c1 c2 : Z -> Z) (l : list Assignment.t) :
  forall (db1 db2 : Session) (n : Z),
    fairness_tracking db1 = [] ->
    same_but_time db1 db2 ->
    match for_each (replay c1) l (db1, n), for_each (replay c2) l (db2, n) with
    | Ok (d1, k1), Ok (d2, k2) =>
        k1 = k2 /\ tables d1 = tables db1 /\ same_but_time d1 d2
    | Raise e1, Raise e2 => e1 = e2
    | _, _ => False
    end.
Proof.
  induction l as [|a l IH]; intros db1 db2 n Hempty Hrel; simpl.
  - auto.
  - pose proof (update_fairness_tracking_fresh db1 db2 (c1 n) (c2 n)
                  (Assignment.person_id a) (Assignment.post_id a) Hempty Hrel)
      as Hstep.
    destruct (update_fairness_tracking db1 _ _ _) as [d1|e1];
      destruct (update_fairness_tracking db2 _ _ _) as [d2|e2];
      simpl; try contradiction; [|assumption].
    destruct Hstep as [Ht Hrel'].
    assert (Hempty' : fairness_tracking d1 = []) by now rewrite Ht.
    specialize (IH d1 d2 (n + 1) Hempty' Hrel').
    destruct (for_each (replay c1) l (d1, n + 1)) as [[d1' k1]|];
      destruct (for_each (replay c2) l (d2, n + 1)) as [[d2' k2]|];
      try contradiction; [|assumption].
    destruct IH as (Hk & Ht' & Hr). split; [|split]; congruence.
Qed.

(** Nothing is flushed during the replay: every call finds the table
    empty and adds an object of its own, so that a recalculation that
    succeeds leaves one row per assignment, each counting one
    assignment. *)
Lemma replay_adds_a_row_each (clock : Z -> Z) (l : list Assignment.t) :
  forall (db d' : Session) (n n' : Z),
    fairness_tracking db = [] ->
    for_each (replay clock) l (db, n) = Ok (d', n') ->
    tables d' = tables db
    /\ exists rows,
         pending d' = pending db ++ rows
         /\ List.length rows = List.length l
         /\ Forall (fun f => FairnessTracking.total_assignments f = Some 1) rows.
Proof.
  induction l as [|a l IH]; intros db d' n n' Hempty; cbn [for_each].
  - intros [= <- <-]. split; [reflexivity|]. exists [].
    rewrite app_nil_r. repeat split. constructor.
  - unfold replay at 1.
    destruct (update_fairness_tracking db (clock n) (Assignment.person_id a)
                (Assignment.post_id a)) as [d1|e] eqn:Hupdate;
      cbn [bind]; [|discriminate].
    apply update_fairness_tracking_ok in Hupdate. cbv zeta in Hupdate.
    rewrite Hempty in Hupdate. cbn [first find] in Hupdate.
    destruct Hupdate as (standby & _ & ->).
    intros Hrest. apply IH in Hrest as (Ht & rows & Hp & Hlen & Hall);
      [|exact Hempty].
    split; [exact Ht|].
    cbn [pending] in Hp. rewrite <- app_assoc in Hp.
    eexists. split; [exact Hp|]. split.
    + simpl. now rewrite Hlen.
    + constructor; [reflexivity | exact Hall].
Qed.

Lemma recalculate_fairness_one_row_per_assignment
    (s s' : Store) (clock : Z -> Z) (n : Z) :
  recalculate_fairness s clock = (s', Recalculated n) ->
  List.length (fairness_tracking s') = List.length (assignments s)
  /\ Forall (fun f => FairnessTracking.total_assignments f = Some 1)
       (fairness_tracking s').
Proof.
  unfold recalculate_fairness.
  destruct (for_each (replay clock) _ _) as [[d' k]|e] eqn:E; [|discriminate].
  intros [= <- <-].
  apply replay_adds_a_row_each in E as (Ht & rows & Hp & Hlen & Hall);
    [|reflexivity].
  destruct d' as [t p]. simpl in Ht, Hp. subst t p.
  cbn [commit flush tables fairness_tracking with_fairness pending get_db app].
  split; [exact Hlen | exact Hall].
Qed.

(** C4 (amended).  Two recalculations in a row leave tracking rows that
    agree in [person_id], [total_assignments], [total_difficulty_points]
    and [consecutive_standby]; [last_assignment_date] holds the reading of
    the clock in the replaying call and is not kept.  In the columns of
    the model, the second run leaves the store that a single run at that
    time leaves. *)
Theorem recalculate_fairness_twice (s : Store) (c1 c2 : Z -> Z) :
  let s1 := fst (recalculate_fairness s c1) in
  let s2 := fst (recalculate_fairness s1 c2) in
  map counters (fairness_tracking s2) = map counters (fairness_tracking s1)
  /\ s2 = fst (recalculate_fairness s c2).
Proof.
  cbv zeta.
  assert (Hrun : forall F c,
             recalculate_fairness (with_fairness s F) c =
             match for_each (replay c) (assignments s)
                     (get_db (with_fairness s []), 0) with
             | Ok (db', n) => (tables (commit db'), Recalculated n)
             | Raise e => (with_fairness s F, BadRequest e)
             end) by reflexivity.
  assert (Hcommit : forall d : Session,
             tables d = with_fairness s [] ->
             tables (commit d) = with_fairness s (pending d)).
  { intros [t p] Ht. simpl in Ht. subst t. reflexivity. }
  pose proof (replay_related c1 c2 (assignments s)
                (get_db (with_fairness s [])) (get_db (with_fairness s [])) 0
                eq_refl (conj eq_refl eq_refl)) as H.
  pose proof (replay_related c2 c1 (assignments s)
                (get_db (with_fairness s [])) (get_db (with_fairness s [])) 0
                eq_refl (conj eq_refl eq_refl)) as H'.
  assert (Hrun0 : forall c,
             recalculate_fairness s c =
             match for_each (replay c) (assignments s)
                     (get_db (with_fairness s []), 0) with
             | Ok (db', n) => (tables (commit db'), Recalculated n)
             | Raise e => (s, BadRequest e)
             end) by reflexivity.
  rewrite (Hrun0 c1), (Hrun0 c2).
  destruct (for_each (replay c1) _ _) as [[d1 k1]|e1] eqn:E1;
    destruct (for_each (replay c2) _ _) as [[d2 k2]|e2] eqn:E2;
    try contradiction; cbn [fst].
  - destruct H as (_ & Ht1 & _ & Hc). destruct H' as (_ & Ht2 & _).
    rewrite (Hcommit d1 Ht1), Hrun, E2. cbn [fst].
    rewrite (Hcommit d2 Ht2). cbn [fairness_tracking with_fairness]. auto.
  - rewrite Hrun0, E2. auto.
Qed.

(** C4 (as stated, refuted).  With one assignment in the store, a
    recalculation at time 0 and one at time 1 leave different tracking
    rows. *)
Lemma recalculate_fairness_twice_differs :
  let s1 := fst (recalculate_fairness store_with_one_assignment (fun _ => 0)) in
  let s2 := fst (recalculate_fairness s1 (fun _ => 1)) in
  fairness_tracking s1 <> fairness_tracking s2.
Proof. vm_compute. discriminate. Qed.

(** ** Stable sorting *)

Section SortingFacts.
Context {A K : Type} (le : K -> K -> bool) (key : A -> K).
Hypothesis le_total : forall a b, le a b = false -> le b a = true.
Hypothesis le_trans : forall a b c, le a b = true -> le b c = true -> le a c = true.

Lemma insert_by_permutation (x : A) (l : list A) :
  Permutation (x :: l) (insert_by le key x l).
Proof.
  induction l as [|y l IH]; simpl; [reflexivity|].
  destruct (le (key x) (key y)); [reflexivity|].
  rewrite perm_swap. now apply perm_skip.
Qed.

Lemma sorted_by_permutation (l : list A) : Permutation l (sorted_by le key l).
Proof.
  induction l as [|x l IH]; simpl; [constructor|].
  rewrite <- insert_by_permutation. now apply perm_skip.
Qed.

Lemma insert_by_sorted (x : A) (l : list A) :
  StronglySorted (key_le le key) l ->
  StronglySorted (key_le le key) (insert_by le key x l).
Proof.
  induction 1 as [|y l Hsorted IH Hall]; simpl.
  - repeat constructor.
  - destruct (le (key x) (key y)) eqn:Hxy.
    + constructor; [now constructor|].
      constructor; [exact Hxy|].
      eapply Forall_impl; [|exact Hall].
      intros z Hz. exact (le_trans _ _ _ Hxy Hz).
    + constructor; [exact IH|].
      eapply Permutation_Forall; [apply insert_by_permutation|].
      constructor; [exact (le_total _ _ Hxy) | exact Hall].
Qed.

Lemma sorted_by_sorted (l : list A) :
  StronglySorted (key_le le key) (sorted_by le key l).
Proof.
  induction l as [|x l IH]; simpl; [constructor | now apply insert_by_sorted].
Qed.
End SortingFacts.

Lemma strongly_sorted_order {A : Type} (R : A -> A -> Prop) (l1 l2 l3 : list A) (x y : A) :
  StronglySorted R (l1 ++ x :: l2 ++ y :: l3) -> R x y.
Proof.
  induction l1 as [|z l1 IH]; simpl; intros H; inversion H as [|? ? Hs Hall]; subst.
  - rewrite Forall_forall in Hall. apply Hall, in_or_app. right. now left.
  - now apply IH.
Qed.

Lemma strongly_sorted_weaken {A : Type} (R S : A -> A -> Prop) (l : list A) :
  (forall a b, R a b -> S a b) -> StronglySorted R l -> StronglySorted S l.
Proof.
  intros HRS. induction 1 as [|x l Hs IH Hall]; constructor; [exact IH|].
  eapply Forall_impl; [|exact Hall]. intros y. apply HRS.
Qed.

(** ** Floats

    What the properties need of the operations of [SpecFloat]: an
    operation on numbers gives a number, the conversion of an integer keeps
    the sign, and [<=] is a total preorder away from NaN. *)

Lemma iter_pos_invariant {A : Type} (P : A -> Prop) (f : A -> A) :
  (forall x, P x -> P (f x)) -> forall n x, P x -> P (iter_pos f n x).
Proof.
  intros Hf. induction n as [n IH|n IH|]; intros x Hx; cbn [iter_pos]; auto.
Qed.

Lemma shr_1_nonnegative (mrs : shr_record) :
  0 <= shr_m mrs -> 0 <= shr_m (shr_1 mrs).
Proof.
  destruct mrs as [m r s]. destruct m as [|[p|p|]|p]; cbn; lia.
Qed.

Lemma shr_fexp_nonnegative (m e : Z) (l : location) :
  0 <= m -> 0 <= shr_m (fst (shr_fexp PyFloat.prec PyFloat.emax m e l)).
Proof.
  intros Hm. unfold shr_fexp, shr.
  assert (H0 : 0 <= shr_m (shr_record_of_loc m l))
    by (destruct l as [|[]]; exact Hm).
  match goal with |- context [match ?n with _ => _ end] => destruct n end;
    cbn [fst]; auto.
  apply (iter_pos_invariant (fun r => 0 <= shr_m r)); [|exact H0].
  exact shr_1_nonnegative.
Qed.

Lemma round_nearest_even_nonnegative (m : Z) (l : location) :
  0 <= m -> 0 <= round_nearest_even m l.
Proof.
  intros Hm. unfold round_nearest_even.
  destruct l as [|[]]; try destruct (Z.even m); lia.
Qed.

Lemma binary_round_aux_signed (s : bool) (m e : Z) (l : location) :
  0 <= m -> signed s (binary_round_aux PyFloat.prec PyFloat.emax s m e l).
Proof.
  intros Hm. unfold binary_round_aux.
  pose proof (shr_fexp_nonnegative m e l Hm) as H1.
  destruct (shr_fexp PyFloat.prec PyFloat.emax m e l) as [mrs' e'].
  cbn [fst] in H1.
  pose proof (shr_fexp_nonnegative _ e' loc_Exact
                (round_nearest_even_nonnegative _ (loc_of_shr_record mrs') H1)) as H2.
  destruct (shr_fexp PyFloat.prec PyFloat.emax _ e' loc_Exact) as [mrs'' e''].
  cbn [fst] in H2.
  destruct (shr_m mrs'') as [|p|p]; [reflexivity| |lia].
  destruct (e'' <=? PyFloat.emax - PyFloat.prec); reflexivity.
Qed.

Lemma binary_round_signed (s : bool) (m : positive) (e : Z) :
  signed s (binary_round PyFloat.prec PyFloat.emax s m e).
Proof.
  unfold binary_round.
  destruct (shl_align m e _) as [mz ez].
  apply binary_round_aux_signed. lia.
Qed.

Lemma binary_normalize_not_nan (m e : Z) (szero : bool) :
  is_nan (binary_normalize PyFloat.prec PyFloat.emax m e szero) = false.
Proof.
  destruct m as [|p|p]; cbn [binary_normalize]; [reflexivity| |].
  - pose proof (binary_round_signed false p e) as H.
    now destruct (binary_round PyFloat.prec PyFloat.emax false p e).
  - pose proof (binary_round_signed true p e) as H.
    now destruct (binary_round PyFloat.prec PyFloat.emax true p e).
Qed.

Lemma nearest_signed (z : Z) : 0 <= z -> signed false (PyFloat.nearest z).
Proof.
  intros Hz. unfold PyFloat.nearest.
  destruct z as [|p|p]; cbn [binary_normalize]; [reflexivity| |lia].
  apply binary_round_signed.
Qed.

Lemma leb_zero_signed (x : spec_float) :
  signed false x -> PyFloat.leb PyFloat.zero x = true.
Proof.
  destruct x as [s|s| |s m e]; cbn; intros H; try contradiction; now subst s.
Qed.

Lemma mul_not_nan (x y : spec_float) :
  (forall s, x <> S754_infinity s) -> (forall s, y <> S754_infinity s) ->
  is_nan x = false -> is_nan y = false ->
  is_nan (PyFloat.mul x y) = false.
Proof.
  intros Hx Hy Nx Ny.
  destruct x as [sx|sx| |sx mx ex], y as [sy|sy| |sy my ey];
    try discriminate; try reflexivity;
    try (exfalso; now apply (Hx sx)); try (exfalso; now apply (Hy sy)).
  cbn [PyFloat.mul SFmul].
  pose proof (binary_round_aux_signed (xorb sx sy) (Zpos (mx * my)) (ex + ey)
                loc_Exact ltac:(lia)) as H.
  now destruct (binary_round_aux _ _ _ _ _ _).
Qed.

Lemma sub_not_nan (x y : spec_float) :
  (forall s, x <> S754_infinity s) ->
  is_nan x = false -> is_nan y = false ->
  is_nan (PyFloat.sub x y) = false.
Proof.
  intros Hx Nx Ny.
  destruct x as [sx|sx| |sx mx ex], y as [sy|sy| |sy my ey];
    try discriminate; try reflexivity;
    try (exfalso; now apply (Hx sx)).
  - now destruct sx, sy.
  - cbn [PyFloat.sub SFsub]. apply binary_normalize_not_nan.
Qed.

Lemma of_int_ok (z : Z) (x : spec_float) :
  PyFloat.of_int z = Ok x ->
  x = PyFloat.nearest z /\ is_nan x = false /\ forall s, x <> S754_infinity s.
Proof.
  unfold PyFloat.of_int.
  pose proof (binary_normalize_not_nan z 0 false) as Hn.
  fold (PyFloat.nearest z) in Hn.
  destruct (PyFloat.nearest z) as [s|s| |s m e]; try discriminate;
    intros [= <-]; repeat split; try reflexivity; intros; discriminate.
Qed.

Lemma leb_key_leb (x y : spec_float) :
  is_nan x = false -> is_nan y = false ->
  PyFloat.leb x y = key_leb x y.
Proof.
  unfold PyFloat.leb, SFleb, key_leb.
  destruct x as [sx|sx| |sx mx ex], y as [sy|sy| |sy my ey];
    try discriminate; intros _ _;
    try (destruct sx; reflexivity); try (destruct sy; reflexivity);
    try (destruct sx, sy; reflexivity).
  destruct sx, sy; cbn [SFcompare float_key lex_leb]; try reflexivity.
  - rewrite Pos.compare_cont_spec. cbn [Pos.switch_Eq].
    change (-1 <? -1) with false. change (-1 =? -1) with true. cbn [orb andb].
    destruct (Z.compare_spec ex ey) as [->|H|H].
    + rewrite Z.ltb_irrefl, Z.eqb_refl. cbn [orb andb].
      destruct (Pos.compare_spec mx my) as [->|H|H]; cbn [CompOpp].
      * symmetry. apply Z.leb_le. lia.
      * symmetry. apply Z.leb_gt. lia.
      * symmetry. apply Z.leb_le. lia.
    + assert (E : (- ex <? - ey) = false) by (apply Z.ltb_ge; lia).
      assert (E' : (- ex =? - ey) = false) by (apply Z.eqb_neq; lia).
      now rewrite E, E'.
    + assert (E : (- ex <? - ey) = true) by (apply Z.ltb_lt; lia).
      now rewrite E.
  - rewrite Pos.compare_cont_spec. cbn [Pos.switch_Eq].
    change (1 <? 1) with false. change (1 =? 1) with true. cbn [orb andb].
    destruct (Z.compare_spec ex ey) as [->|H|H].
    + rewrite Z.ltb_irrefl, Z.eqb_refl. cbn [orb andb].
      destruct (Pos.compare_spec mx my) as [->|H|H].
      * symmetry. apply Z.leb_le. lia.
      * symmetry. apply Z.leb_le. lia.
      * symmetry. apply Z.leb_gt. lia.
    + assert (E : (ex <? ey) = true) by (apply Z.ltb_lt; lia).
      now rewrite E.
    + assert (E : (ex <? ey) = false) by (apply Z.ltb_ge; lia).
      assert (E' : (ex =? ey) = false) by (apply Z.eqb_neq; lia).
      now rewrite E, E'.
Qed.

Lemma lex_leb_spec (a b : Z * Z * Z) :
  lex_leb a b = true <->
  (fst (fst a) < fst (fst b)
   \/ fst (fst a) = fst (fst b)
      /\ (snd (fst a) < snd (fst b)
          \/ snd (fst a) = snd (fst b) /\ snd a <= snd b)).
Proof.
  destruct a as [[a1 a2] a3], b as [[b1 b2] b3]. cbn [lex_leb fst snd].
  rewrite orb_true_iff, andb_true_iff, orb_true_iff, andb_true_iff.
  rewrite !Z.ltb_lt, !Z.eqb_eq, Z.leb_le. tauto.
Qed.

Lemma key_leb_total (x y : spec_float) : key_leb x y = false -> key_leb y x = true.
Proof.
  unfold key_leb. intros H. apply lex_leb_spec.
  destruct (lex_leb (float_key x) (float_key y)) eqn:E; [discriminate|].
  assert (Hn : ~ (lex_leb (float_key x) (float_key y) = true)) by congruence.
  rewrite lex_leb_spec in Hn. lia.
Qed.

Lemma key_leb_trans (x y z : spec_float) :
  key_leb x y = true -> key_leb y z = true -> key_leb x z = true.
Proof.
  unfold key_leb. rewrite !lex_leb_spec. lia.
Qed.



Lemma tenth_is_finite :
  PyFloat.tenth = S754_finite false 7205759403792794 (-56).
Proof. reflexivity. Qed.

Lemma sub_zero_signed (x : PyFloat.t) :
  signed false x -> signed false (PyFloat.sub x PyFloat.zero).
Proof. destruct x as [[]|[]| |[] m e]; cbn; auto. Qed.

(** Sorting with two orders that agree on the keys of the list. *)
Lemma insert_by_ext {A K : Type} (le le' : K -> K -> bool) (key : A -> K)
    (x : A) (l : list A) :
  (forall y, In y l -> le (key x) (key y) = le' (key x) (key y)) ->
  insert_by le key x l = insert_by le' key x l.
Proof.
  induction l as [|y l IH]; intros H; cbn [insert_by]; [reflexivity|].
  rewrite (H y (or_introl eq_refl)).
  destruct (le' (key x) (key y)); [reflexivity|].
  f_equal. apply IH. intros z Hz. apply H. now right.
Qed.

Lemma sorted_by_ext {A K : Type} (le le' : K -> K -> bool) (key : A -> K)
    (l : list A) :
  (forall x y, In x l -> In y l -> le (key x) (key y) = le' (key x) (key y)) ->
  sorted_by le key l = sorted_by le' key l.
Proof.
  induction l as [|x l IH]; intros H; [reflexivity|].
  cbn [sorted_by fold_right]. fold (sorted_by le key l) (sorted_by le' key l).
  rewrite IH by (intros a b Ha Hb; apply H; now right).
  apply insert_by_ext. intros y Hy. apply H; [now left|]. right.
  exact (Permutation_in y (Permutation_sym (sorted_by_permutation le' key l)) Hy).
Qed.

Lemma strongly_sorted_weaken_in {A : Type} (R S : A -> A -> Prop) (l : list A) :
  (forall a b, In a l -> In b l -> R a b -> S a b) ->
  StronglySorted R l -> StronglySorted S l.
Proof.
  intros HRS H. induction H as [|x l Hs IH Hall]; constructor.
  - apply IH. intros a b Ha Hb. apply HRS; now right.
  - rewrite Forall_forall in *. intros y Hy.
    apply HRS; [now left | now right | now apply Hall].
Qed.

(** A list without NaN among its keys is sorted by [<=] on floats. *)
Lemma sorted_by_leb_sorted {A : Type} (key : A -> PyFloat.t) (l : list A) :
  (forall x, In x l -> is_nan (key x) = false) ->
  StronglySorted (key_le PyFloat.leb key) (sorted_by PyFloat.leb key l).
Proof.
  intros Hnan.
  rewrite (sorted_by_ext PyFloat.leb key_leb key l)
    by (intros x y Hx Hy; apply leb_key_leb; now apply Hnan).
  apply (strongly_sorted_weaken_in (key_le key_leb key)).
  - intros a b Ha Hb Hab. unfold key_le in *.
    rewrite leb_key_leb; [exact Hab| |]; apply Hnan;
      eapply Permutation_in; try apply Permutation_sym;
      try apply (sorted_by_permutation key_leb key l); assumption.
  - apply sorted_by_sorted; [exact key_leb_total | exact key_leb_trans].
Qed.

(** ** Fairness engine: [get_fairness_stats] *)

(** The join lists the active persons: once without tracking when they
    have no row, once with each of their rows otherwise. *)
Lemma personnel_with_tracking_spec (s : Store) (p : Personnel.t)
    (tracking : option FairnessTracking.t) :
  In (p, tracking) (personnel_with_tracking s) <->
  In p (personnel s) /\ Personnel.is_active p = true
  /\ match tracking with
     | Some tr =>
         In tr (fairness_tracking s)
         /\ FairnessTracking.person_id tr = Personnel.id p
     | None =>
         forall tr, In tr (fairness_tracking s) ->
                    FairnessTracking.person_id tr <> Personnel.id p
     end.
Proof.
  unfold personnel_with_tracking. rewrite in_flat_map.
  setoid_rewrite filter_In.
  split.
  - intros (q & [Hq Hactive] & Hin).
    destruct (filter _ (fairness_tracking s)) as [|f fs] eqn:Hrows.
    + destruct Hin as [[= <- <-]|[]]. repeat split; auto.
      intros tr Htr Hid.
      assert (Hf : In tr (filter (fun f => FairnessTracking.person_id f =? Personnel.id q)
                            (fairness_tracking s))).
      { apply filter_In. split; [exact Htr | now apply Z.eqb_eq]. }
      rewrite Hrows in Hf. destruct Hf.
    + apply in_map_iff in Hin as (tr & [= <- <-] & Htr).
      rewrite <- Hrows in Htr. apply filter_In in Htr as [Htr Hid].
      apply Z.eqb_eq in Hid. repeat split; auto.
  - intros (Hp & Hactive & Htracking). exists p. split; [auto|].
    destruct (filter _ (fairness_tracking s)) as [|f fs] eqn:Hrows.
    + destruct tracking as [tr|].
      * destruct Htracking as [Htr Hid].
        assert (Hf : In tr (filter (fun f => FairnessTracking.person_id f =? Personnel.id p)
                              (fairness_tracking s))).
        { apply filter_In. split; [exact Htr | now apply Z.eqb_eq]. }
        rewrite Hrows in Hf. destruct Hf.
      * now left.
    + destruct tracking as [tr|].
      * destruct Htracking as [Htr Hid].
        apply in_map_iff. exists tr. split; [reflexivity|].
        rewrite <- Hrows. apply filter_In. split; [exact Htr | now apply Z.eqb_eq].
      * exfalso.
        assert (Hf : In f (filter (fun f => FairnessTracking.person_id f =? Personnel.id p)
                             (fairness_tracking s))) by (rewrite Hrows; now left).
        apply filter_In in Hf as [Hf Hid]. apply Z.eqb_eq in Hid.
        exact (Htracking f Hf Hid).
Qed.

Lemma tracked_score_not_nan (now points : Z) (last : option Z) (x : PyFloat.t) :
  tracked_score now points last = Ok x -> is_nan x = false.
Proof.
  unfold tracked_score. destruct last as [d|].
  - destruct (PyFloat.of_int (days_since now d)) as [w|] eqn:Hw;
      cbn [bind]; [|discriminate].
    destruct (PyFloat.of_int points) as [p|] eqn:Hp; cbn [bind]; [|discriminate].
    intros [= <-].
    apply of_int_ok in Hw as (_ & Hwn & Hwi), Hp as (_ & Hpn & Hpi).
    apply sub_not_nan; [exact Hpi | exact Hpn |].
    apply mul_not_nan; [exact Hwi | | exact Hwn | reflexivity].
    intros s. rewrite tenth_is_finite. discriminate.
  - intros H. now apply of_int_ok in H.
Qed.

Lemma fairness_stats_row_scored (now : Z)
    (row : Personnel.t * option FairnessTracking.t) (s : FairnessStats.t) :
  fairness_stats_row now row = Ok s ->
  scored now row s /\ FairnessStats.person_name s = Personnel.full_name (fst row).
Proof.
  destruct row as [p [tr|]]; unfold fairness_stats_row, scored; cbn [fst snd].
  - destruct (FairnessTracking.total_difficulty_points tr) as [points|].
    + destruct (tracked_score now points _) as [x|] eqn:Hx;
        cbn [bind]; [|discriminate].
      destruct (FairnessTracking.total_assignments tr); [|discriminate].
      destruct (FairnessTracking.consecutive_standby tr); [|discriminate].
      intros [= <-]. cbn. repeat split. exists points. auto.
    + destruct (FairnessTracking.last_assignment_date tr); discriminate.
  - intros [= <-]. cbn. repeat split.
Qed.

Lemma fairness_stats_row_not_nan (now : Z)
    (row : Personnel.t * option FairnessTracking.t) (s : FairnessStats.t) :
  fairness_stats_row now row = Ok s ->
  is_nan (FairnessStats.fairness_score s) = false.
Proof.
  intros H. apply fairness_stats_row_scored in H as [[_ H] _].
  destruct (snd row) as [tr|].
  - destruct H as (points & _ & H). exact (tracked_score_not_nan _ _ _ _ H).
  - now rewrite H.
Qed.

(** The list before and after sorting. *)
Lemma get_fairness_stats_ok (db : Session) (now : Z) (out : list FairnessStats.t) :
  get_fairness_stats db now = Ok out ->
  exists stats,
    Forall2 (fun row s => fairness_stats_row now row = Ok s)
      (personnel_with_tracking db) stats
    /\ Permutation stats out
    /\ out = sorted_by PyFloat.leb FairnessStats.fairness_score stats.
Proof.
  unfold get_fairness_stats.
  pose proof (for_each_append (fairness_stats_row now)
                (personnel_with_tracking db) []) as H.
  destruct (for_each _ (personnel_with_tracking db) []) as [stats|e];
    simpl; [|discriminate].
  intros [= <-]. destruct H as (bs & -> & HF). exists bs. simpl.
  split; [exact HF|]. split; [apply sorted_by_permutation | reflexivity].
Qed.

Lemma forall2_in_left {A B : Type} (R : A -> B -> Prop) (l1 : list A) (l2 : list B) (a : A) :
  Forall2 R l1 l2 -> In a l1 -> exists b, In b l2 /\ R a b.
Proof.
  induction 1 as [|x y l1 l2 Hxy HF IH]; simpl; [tauto|].
  intros [<-|Hin].
  - exists y. auto.
  - destruct (IH Hin) as (b & Hb & Hab). exists b. auto.
Qed.

Lemma forall2_in_right {A B : Type} (R : A -> B -> Prop) (l1 : list A) (l2 : list B) (b : B) :
  Forall2 R l1 l2 -> In b l2 -> exists a, In a l1 /\ R a b.
Proof.
  induction 1 as [|x y l1 l2 Hxy HF IH]; simpl; [tauto|].
  intros [<-|Hin].
  - exists x. auto.
  - destruct (IH Hin) as (a & Ha & Hab). exists a. auto.
Qed.

(** The entries are in ascending order of their scores. *)
Lemma get_fairness_stats_sorted (db : Session) (now : Z)
    (out : list FairnessStats.t) :
  get_fairness_stats db now = Ok out -> StronglySorted score_le out.
Proof.
  intros H. apply get_fairness_stats_ok in H as (stats & HF & _ & ->).
  apply sorted_by_leb_sorted. intros s Hs.
  destruct (forall2_in_right _ _ _ _ HF Hs) as (row & _ & Hrow).
  exact (fairness_stats_row_not_nan _ _ _ Hrow).
Qed.

Lemma get_fairness_stats_in (db : Session) (now : Z) (out : list FairnessStats.t)
    (row : Personnel.t * option FairnessTracking.t) (s : FairnessStats.t) :
  get_fairness_stats db now = Ok out ->
  In row (personnel_with_tracking db) ->
  fairness_stats_row now row = Ok s ->
  In s out.
Proof.
  intros Hout Hrow Hs.
  apply get_fairness_stats_ok in Hout as (stats & HF & HP & _).
  destruct (forall2_in_left _ _ _ _ HF Hrow) as (s' & Hin & Hs').
  rewrite Hs in Hs'. injection Hs' as <-.
  eapply Permutation_in; eauto.
Qed.


(** Without waiting time, a tracking row with non-negative points has a
    score that is not below zero. *)
Lemma tracked_score_nonnegative (now points : Z) (last : option Z) (x : PyFloat.t) :
  match last with
  | Some d => days_since now d = 0
  | None => True
  end ->
  0 <= points ->
  tracked_score now points last = Ok x ->
  PyFloat.leb PyFloat.zero x = true.
Proof.
  unfold tracked_score. intros Hwait Hpoints.
  destruct last as [d|].
  - rewrite Hwait. change (PyFloat.of_int 0) with (Ok PyFloat.zero).
    cbn [bind].
    destruct (PyFloat.of_int points) as [p|] eqn:Hp; cbn [bind]; [|discriminate].
    intros [= <-]. apply of_int_ok in Hp as (-> & _).
    change (PyFloat.mul PyFloat.zero PyFloat.tenth) with PyFloat.zero.
    apply leb_zero_signed, sub_zero_signed, nearest_signed, Hpoints.
  - intros H. apply of_int_ok in H as (-> & _).
    apply leb_zero_signed, nearest_signed, Hpoints.
Qed.

(** C6 (amended).  A person without tracking row is ranked at or before a
    person with a tracking row that has no waiting time to its credit (the
    date is null, or less than a day has passed) and whose points are not
    negative.  Both are in the ranking, the first has the smaller or equal
    score, and stands after the second only when their scores are
    equal. *)
Theorem zero_assignments_ranked_first_without_waiting_bonus
    (db : Session) (now : Z) (out : list FairnessStats.t)
    (pa pb : Personnel.t) (tr : FairnessTracking.t) (sa sb : FairnessStats.t) :
  get_fairness_stats db now = Ok out ->
  In (pa, None) (personnel_with_tracking db) ->
  In (pb, Some tr) (personnel_with_tracking db) ->
  fairness_stats_row now (pa, None) = Ok sa ->
  fairness_stats_row now (pb, Some tr) = Ok sb ->
  no_waiting_bonus now tr ->
  points_nonnegative tr ->
  In sa out /\ In sb out /\ score_le sa sb
  /\ forall l1 l2 l3,
       out = l1 ++ sb :: l2 ++ sa :: l3 -> score_le sb sa.
Proof.
  intros Hout Ha Hb Hsa Hsb Hwait (points & Hpoints & Hnonneg).
  assert (Hle : score_le sa sb).
  { unfold score_le. simpl in Hsa. injection Hsa as <-.
    apply fairness_stats_row_scored in Hsb as [[_ Hsb] _]. cbn [snd] in Hsb.
    destruct Hsb as (points' & Hpoints' & Hscore).
    rewrite Hpoints in Hpoints'. injection Hpoints' as <-.
    cbn [FairnessStats.fairness_score].
    exact (tracked_score_nonnegative _ _ _ _ Hwait Hnonneg Hscore). }
  split; [|split; [|split]].
  - exact (get_fairness_stats_in db now out _ sa Hout Ha Hsa).
  - exact (get_fairness_stats_in db now out _ sb Hout Hb Hsb).
  - exact Hle.
  - intros l1 l2 l3 Hsplit.
    apply get_fairness_stats_sorted in Hout.
    rewrite Hsplit in Hout. now apply strongly_sorted_order in Hout.
Qed.

Lemma zero_assignments_ranked_first_without_waiting_bonus_witness :
  exists out sa sb,
    get_fairness_stats (get_db store_after_long_wait) 0 = Ok out
    /\ In sa out /\ In sb out /\ score_le sa sb
    /\ forall l1 l2 l3,
         out = l1 ++ sb :: l2 ++ sa :: l3 -> score_le sb sa.
Proof.
  eexists. eexists. eexists. split; [reflexivity|].
  apply (zero_assignments_ranked_first_without_waiting_bonus
           (get_db store_after_long_wait) 0 _
           kent lastre (FairnessTracking.mk 1 (Some 1) (Some 5) (Some 0) (Some 0))).
  - reflexivity.
  - simpl. auto.
  - simpl. auto.
  - reflexivity.
  - reflexivity.
  - reflexivity.
  - exists 5. split; [reflexivity | lia].
Defined.

(** C6 (as stated, refuted).  The only post type has the weight -1.
    Lastre is assigned at instant 0 and the ranking is read at that same
    instant, so that no waiting time is counted for anybody: Lastre has -1
    point and the score -1.0, and is ranked before Kent, who has no
    assignment and the score 0.0. *)
Lemma zero_assignments_ranked_after_negative_points :
  exists db tr sb sa,
    create_assignment (get_db store_with_negative_weight_and_kent)
      (imported_assignment 1 1 0) 0 = Ok db
    /\ fairness_tracking db = [tr]
    /\ FairnessTracking.total_difficulty_points tr = Some (-1)
    /\ no_waiting_bonus 0 tr
    /\ get_fairness_stats db 0 = Ok [sb; sa]
    /\ FairnessStats.person_id sb = Personnel.id lastre
    /\ FairnessStats.total_assignments sb = 1
    /\ FairnessStats.person_id sa = Personnel.id kent
    /\ FairnessStats.total_assignments sa = 0
    /\ FairnessStats.fairness_score sa = PyFloat.zero
    /\ PyFloat.leb (FairnessStats.fairness_score sa)
         (FairnessStats.fairness_score sb) = false.
Proof.
  eexists. eexists. eexists. eexists.
  split; [vm_compute; reflexivity|].
  split; [reflexivity|]. split; [reflexivity|]. split; [reflexivity|].
  split; [vm_compute; reflexivity|].
  repeat split.
Qed.

(** ** Roster text parser *)

(** C1 (fails on the code).  On the scenario text the import creates no
    assignment: a line that contains a marker only sets the section, and
    the names that stand on it are never looked for. *)
Theorem header_line_names_are_not_imported
    (duty_date : option Z) (today : Z) (clock : Z -> Z) :
  parse_and_create_chat_assignments (get_db (seeded [lastre; miller]))
    scenario_text duty_date today clock
  = Ok (0, get_db (seeded [lastre; miller])).
Proof. reflexivity. Qed.

(** With the names below the headers, the two assignments are created,
    for the posts SOG (1) and CQ (2). *)
Lemma names_below_headers_are_imported :
  exists db,
    parse_and_create_chat_assignments (get_db (seeded [lastre; miller]))
      scenario_text_names_below (Some 19737) 0 (fun n => n)
    = Ok (2, db)
    /\ assignments db
       = [imported_assignment 1 1 19737; imported_assignment 7 2 19737].
Proof. eexists. split; reflexivity. Qed.

Lemma upper_spaced (a b : pystr) :
  PyStr.upper (PyStr.spaced a b) = PyStr.spaced (PyStr.upper a) (PyStr.upper b).
Proof. unfold PyStr.upper, PyStr.spaced. now rewrite map_app. Qed.

(** The order in which the code consults its rules: the key
    ["RANK NAME"], then the fuzzy search over the keys of the map, then
    the key ["NAME"]. *)
Lemma find_person_order (personnel_map : PyDict.t pystr Personnel.t)
    (rank last_name : pystr) :
  find_person personnel_map rank last_name =
  match PyDict.get PyStr.eqb (PyStr.upper (PyStr.spaced rank last_name))
          personnel_map with
  | Some p => Some p
  | None =>
      match fuzzy_match personnel_map rank last_name with
      | Some p => Some p
      | None => PyDict.get PyStr.eqb (PyStr.upper last_name) personnel_map
      end
  end.
Proof.
  unfold find_person. simpl. rewrite <- upper_spaced.
  destruct (PyDict.get PyStr.eqb (PyStr.upper (PyStr.spaced rank last_name))
              personnel_map); [reflexivity|].
  destruct (fuzzy_match personnel_map rank last_name); [reflexivity|].
  now destruct (PyDict.get PyStr.eqb (PyStr.upper last_name) personnel_map).
Qed.

(** C3 (fails on the code).  With Leeds (SGT) and Lee (SPC) on the roster,
    the pair (SGT, Lee) has no exact full name; the bare-name rule would
    give Lee, but the fuzzy search runs first and gives Leeds, whose key
    ["SGT LEEDS"] contains ["LEE"] and ["SGT"]; the import assigns
    Leeds. *)
Theorem fuzzy_match_precedes_bare_name :
  exists personnel_map db,
    for_each add_lookup_keys [leeds; lee] [] = Ok personnel_map
    /\ find_person personnel_map (PyStr.lit "SGT") (PyStr.lit "Lee") = Some leeds
    /\ find_person_in_stated_order [leeds; lee] (PyStr.lit "SGT") (PyStr.lit "Lee")
       = Some lee
    /\ parse_and_create_chat_assignments (get_db (seeded [leeds; lee]))
         (lines_of ["SOG:"; "SGT Lee"]%string) (Some 19737) 0 (fun n => n)
       = Ok (1, db)
    /\ assignments db = [imported_assignment (Personnel.id leeds) 1 19737].
Proof. eexists. eexists. repeat split; reflexivity. Qed.

(** *** Names without a token *)

Lemma split_of_spaces (s : pystr) :
  forallb PyStr.is_space s = true -> PyStr.split s = [].
Proof.
  induction s as [|c s IH]; simpl; [reflexivity|].
  destruct (PyStr.is_space c); [exact IH | discriminate].
Qed.

Lemma add_lookup_keys_raises (l : list Personnel.t) (p : Personnel.t) :
  In p l -> PyStr.split (Personnel.name p) = [] ->
  forall acc, for_each add_lookup_keys l acc = Raise IndexError.
Proof.
  intros Hin Hsplit. induction l as [|q l IH]; [destruct Hin|].
  intros acc. simpl. unfold add_lookup_keys at 1.
  destruct (rev (PyStr.split (Personnel.name q))) as [|last rest] eqn:Hq;
    simpl; [reflexivity|].
  destruct Hin as [->|Hin].
  - rewrite Hsplit in Hq. discriminate.
  - now apply IH.
Qed.

(** Within the first hundred active persons, a name without any character
    that is not whitespace makes the call raise [IndexError]. *)
Lemma parse_raises_on_blank_name
    (db : Session) (chat_text : pystr) (duty_date : option Z) (today : Z)
    (clock : Z -> Z) (p : Personnel.t) :
  In p (get_personnel db 0 100) ->
  forallb PyStr.is_space (Personnel.name p) = true ->
  parse_and_create_chat_assignments db chat_text duty_date today clock
  = Raise IndexError.
Proof.
  intros Hin Hblank. unfold parse_and_create_chat_assignments.
  now rewrite (add_lookup_keys_raises _ p Hin (split_of_spaces _ Hblank)).
Qed.

(** The call returns only when every person it reads has a name with a
    token. *)
Lemma parse_returns_only_with_tokens
    (db : Session) (chat_text : pystr) (duty_date : option Z) (today : Z)
    (clock : Z -> Z) (r : Z * Session) :
  parse_and_create_chat_assignments db chat_text duty_date today clock = Ok r ->
  forall p, In p (get_personnel db 0 100) ->
            forallb PyStr.is_space (Personnel.name p) = false.
Proof.
  intros Hok p Hin.
  destruct (forallb PyStr.is_space (Personnel.name p)) eqn:E; [|reflexivity].
  unfold parse_and_create_chat_assignments in Hok.
  rewrite (add_lookup_keys_raises _ p Hin (split_of_spaces _ E)) in Hok.
  discriminate.
Qed.

(** C10 (fails on the code).  An active person has a name that is one
    space.  [get_personnel], whose docstring is "Get all personnel", is
    called with its default limit of 100, so that the import, which means
    to read all personnel, reads the first hundred active persons.  With
    the blank name in the hundred-and-first place the call returns; with
    the same person in the first place it raises [IndexError]. *)
Theorem parse_returns_with_blank_name_beyond_limit :
  In blank_name (personnel store_crowded)
  /\ Personnel.is_active blank_name = true
  /\ forallb PyStr.is_space (Personnel.name blank_name) = true
  /\ ~ In blank_name (get_personnel (get_db store_crowded) 0 100)
  /\ parse_and_create_chat_assignments (get_db store_crowded)
       scenario_text_names_below (Some 19737) 0 (fun n => n)
     = Ok (0, get_db store_crowded)
  /\ parse_and_create_chat_assignments
       (get_db (seeded (blank_name :: personnel store_crowded)))
       scenario_text_names_below (Some 19737) 0 (fun n => n)
     = Raise IndexError.
Proof.
  split; [|split; [|split; [|split; [|split]]]].
  - unfold store_crowded, seeded. cbn [personnel].
    apply in_or_app. right. now left.
  - reflexivity.
  - reflexivity.
  - intros H. vm_compute in H.
    repeat (destruct H as [H|H]; [discriminate H|]). exact H.
  - vm_compute. reflexivity.
  - vm_compute. reflexivity.
Qed.

(** ** Import pipeline *)

Lemma same_roster_refl (s : Store) : same_roster s s.
Proof. repeat split. Qed.

Lemma same_roster_trans (s1 s2 s3 : Store) :
  same_roster s1 s2 -> same_roster s2 s3 -> same_roster s1 s3.
Proof. unfold same_roster. intuition congruence. Qed.

Lemma update_fairness_tracking_keeps_rows
    (db db' : Session) (now person_id post_id : Z) :
  update_fairness_tracking db now person_id post_id = Ok db' ->
  same_roster db db' /\ assignments db' = assignments db.
Proof.
  intros H. apply update_fairness_tracking_ok in H. cbv zeta in H.
  destruct H as (standby & _ & ->).
  destruct (first _ (fairness_tracking db)); repeat split.
Qed.

Lemma first_found_in_larger {A : Type} (f : A -> bool) (l l2 : list A) (a : A) :
  In a l -> f a = true -> incl l l2 -> exists b, first f l2 = Some b.
Proof.
  intros Hin Hf Hincl. unfold first.
  destruct (find f l2) as [b|] eqn:E; [now exists b|].
  pose proof (find_none f l2 E a (Hincl a Hin)). congruence.
Qed.

(** The query for an existing assignment finds nothing. *)
Lemma no_assignment_is_found (person_id post_id duty_date : Z)
    (l : list Assignment.t) :
  first (same_assignment person_id post_id duty_date) l = None.
Proof.
  unfold first. induction l as [|a l IH]; [reflexivity|].
  cbn [find]. unfold same_assignment at 1. cbn [sql_text_eqb].
  now rewrite andb_false_r.
Qed.

(** C5 (fails on the code).  The roster of the scenario is imported twice,
    with the same text and the same date.  The query for an existing
    assignment compares the [DateTime] column with a [date] and finds
    nothing: the second run returns 2 as the first did, and the store
    holds every assignment twice. *)
Theorem import_twice_creates_duplicates :
  exists db1 db2,
    parse_and_create_chat_assignments (get_db (seeded [lastre; miller]))
      scenario_text_names_below (Some 19737) 0 (fun n => n) = Ok (2, db1)
    /\ parse_and_create_chat_assignments db1
         scenario_text_names_below (Some 19737) 0 (fun n => n) = Ok (2, db2)
    /\ assignments db1
       = [imported_assignment 1 1 19737; imported_assignment 7 2 19737]
    /\ assignments db2 = assignments db1 ++ assignments db1.
Proof.
  eexists. eexists. split; [vm_compute; reflexivity|].
  split; [vm_compute; reflexivity|]. split; reflexivity.
Qed.

(** ** Dictionaries *)

Lemma pystr_eqb_eq (a b : pystr) : PyStr.eqb a b = true <-> a = b.
Proof.
  revert b; induction a as [|x a IH]; intros [|y b]; simpl;
    try (split; [discriminate | congruence]); [tauto|].
  rewrite andb_true_iff, N.eqb_eq, IH. split; [intros [-> ->] | intros [= -> ->]]; auto.
Qed.

Lemma person_key_eqb_eq (a b : person_key) : person_key_eqb a b = true <-> a = b.
Proof.
  destruct a as [i n], b as [j m]. unfold person_key_eqb. simpl.
  rewrite andb_true_iff, Z.eqb_eq, pystr_eqb_eq.
  split; [intros [-> ->] | intros [= -> ->]]; auto.
Qed.

Section DictFacts.
Context {K V : Type} (keq : K -> K -> bool).
Hypothesis keq_eq : forall a b, keq a b = true <-> a = b.

Lemma keq_refl (k : K) : keq k k = true.
Proof. now apply keq_eq. Qed.

Lemma keq_neq (a b : K) : a <> b -> keq a b = false.
Proof.
  intros H. destruct (keq a b) eqn:E; [|reflexivity].
  apply keq_eq in E. contradiction.
Qed.

Lemma get_set_same (k : K) (v : V) (d : PyDict.t K V) :
  PyDict.get keq k (PyDict.set keq k v d) = Some v.
Proof.
  induction d as [|[k' v'] d IH]; simpl.
  - now rewrite keq_refl.
  - destruct (keq k k') eqn:E; simpl; rewrite E; [reflexivity | exact IH].
Qed.

Lemma get_set_other (k k' : K) (v : V) (d : PyDict.t K V) :
  k' <> k ->
  PyDict.get keq k' (PyDict.set keq k v d) = PyDict.get keq k' d.
Proof.
  intros Hne. induction d as [|[k0 v0] d IH]; simpl.
  - now rewrite (keq_neq _ _ Hne).
  - destruct (keq k k0) eqn:E; simpl.
    + apply keq_eq in E. subst k0. now rewrite (keq_neq _ _ Hne).
    + destruct (keq k' k0); [reflexivity | exact IH].
Qed.

Lemma get_none_not_key (k : K) (d : PyDict.t K V) :
  PyDict.get keq k d = None -> ~ In k (map fst d).
Proof.
  induction d as [|[k' v'] d IH]; simpl; [tauto|].
  destruct (keq k k') eqn:E; [discriminate|].
  intros Hget [->|Hin]; [now rewrite keq_refl in E | now apply IH].
Qed.

Lemma keys_of_set (k : K) (v : V) (d : PyDict.t K V) :
  map fst (PyDict.set keq k v d) =
  match PyDict.get keq k d with
  | Some _ => map fst d
  | None => map fst d ++ [k]
  end.
Proof.
  induction d as [|[k' v'] d IH]; simpl; [reflexivity|].
  destruct (keq k k') eqn:E; simpl; [reflexivity|].
  rewrite IH. now destruct (PyDict.get keq k d).
Qed.

Lemma set_keeps_keys_distinct (k : K) (v : V) (d : PyDict.t K V) :
  NoDup (map fst d) -> NoDup (map fst (PyDict.set keq k v d)).
Proof.
  intros Hd. rewrite keys_of_set.
  destruct (PyDict.get keq k d) eqn:E; [exact Hd|].
  apply NoDup_app; [exact Hd | repeat constructor; intros [] | ].
  intros x Hx [<-|[]]. exact (get_none_not_key _ _ E Hx).
Qed.

Lemma item_is_got (k : K) (v : V) (d : PyDict.t K V) :
  NoDup (map fst d) -> In (k, v) d -> PyDict.get keq k d = Some v.
Proof.
  induction d as [|[k' v'] d IH]; simpl; [tauto|].
  intros Hd [[= -> ->]|Hin].
  - now rewrite keq_refl.
  - inversion Hd as [|? ? Hnotin Hd']; subst.
    destruct (keq k k') eqn:E; [|now apply IH].
    apply keq_eq in E. subst k'. exfalso. apply Hnotin.
    change k with (fst (k, v)). now apply in_map.
Qed.
End DictFacts.

(** ** Post distribution: the grouping loop *)

Lemma count_rows_nonnegative (f : joined_row -> bool) (rows : list joined_row) :
  0 <= count_rows f rows.
Proof. unfold count_rows. lia. Qed.

Lemma count_rows_snoc (f : joined_row -> bool) (rows : list joined_row)
    (row : joined_row) :
  count_rows f (rows ++ [row]) = count_rows f rows + (if f row then 1 else 0).
Proof.
  unfold count_rows. rewrite filter_app, length_app. simpl.
  destruct (f row); simpl; lia.
Qed.

Lemma count_rows_le (f g : joined_row -> bool) (rows : list joined_row) :
  (forall r, f r = true -> g r = true) ->
  count_rows f rows <= count_rows g rows.
Proof.
  intros Hfg. unfold count_rows. induction rows as [|r rows IH]; simpl; [lia|].
  destruct (f r) eqn:Hf.
  - rewrite (Hfg r Hf). simpl. lia.
  - destruct (g r); simpl; lia.
Qed.

Lemma some_positive_succ (n : Z) : 0 <= n -> some_positive (n + 1) = Some (n + 1).
Proof.
  intros H. unfold some_positive.
  destruct (n + 1 =? 0) eqn:E; [lia | reflexivity].
Qed.

Lemma some_positive_some (n m : Z) : some_positive n = Some m -> n = m /\ n <> 0.
Proof.
  unfold some_positive. destruct (n =? 0) eqn:E; [discriminate|].
  intros [= <-]. split; [reflexivity | lia].
Qed.

Lemma some_positive_none (n : Z) : some_positive n = None -> n = 0.
Proof.
  unfold some_positive. destruct (n =? 0) eqn:E; [lia | discriminate].
Qed.

Lemma counts_ext (d : PyDict.t pystr Z) (g g' : pystr -> Z) :
  counts d g -> (forall t, g' t = g t) -> counts d g'.
Proof.
  intros [Hd Hg] Hext. split; [exact Hd|]. intros t. now rewrite Hext.
Qed.

(** The idiom [if k not in d: d[k] = 0] followed by [d[k] += 1]. *)
Lemma bump_counts (d : PyDict.t pystr Z) (g : pystr -> Z) (t : pystr) :
  counts d g -> 0 <= g t ->
  let d1 := if PyDict.mem PyStr.eqb t d then d else PyDict.set PyStr.eqb t 0 d in
  PyDict.getitem PyStr.eqb t d1 = Ok (g t)
  /\ counts (PyDict.set PyStr.eqb t (g t + 1) d1)
       (fun t' => g t' + (if PyStr.eqb t t' then 1 else 0)).
Proof.
  intros [Hd Hg] Hpos. unfold PyDict.mem, PyDict.getitem. cbv zeta.
  assert (Hafter :
            forall d1 : PyDict.t pystr Z,
              NoDup (map fst d1) ->
              (forall t', t' <> t ->
                          PyDict.get PyStr.eqb t' d1 = PyDict.get PyStr.eqb t' d) ->
              counts (PyDict.set PyStr.eqb t (g t + 1) d1)
                (fun t' => g t' + (if PyStr.eqb t t' then 1 else 0))).
  { intros d1 Hd1 Hother. split.
    - now apply (set_keeps_keys_distinct _ pystr_eqb_eq).
    - intros t'. destruct (PyStr.eqb t t') eqn:E.
      + apply pystr_eqb_eq in E. subst t'.
        rewrite (get_set_same _ pystr_eqb_eq). now rewrite some_positive_succ.
      + assert (Hne : t' <> t).
        { intros ->. rewrite (keq_refl _ pystr_eqb_eq) in E. discriminate. }
        rewrite (get_set_other _ pystr_eqb_eq) by exact Hne.
        rewrite (Hother t' Hne), Hg. f_equal. lia. }
  destruct (PyDict.get PyStr.eqb t d) as [n|] eqn:E.
  - rewrite E. rewrite Hg in E. apply some_positive_some in E as [<- _].
    split; [reflexivity|]. apply Hafter; auto.
  - rewrite (get_set_same _ pystr_eqb_eq).
    rewrite Hg in E. apply some_positive_none in E.
    split; [now rewrite E|]. apply Hafter.
    + now apply (set_keeps_keys_distinct _ pystr_eqb_eq).
    + intros t' Hne. now apply (get_set_other _ pystr_eqb_eq).
Qed.

Lemma counts_totals_snoc (rows : list joined_row) (row : joined_row)
    (d : PyDict.t pystr Z) :
  counts d (fun t => count_rows (of_type t) rows + (if PyStr.eqb (snd row) t then 1 else 0)) ->
  counts d (fun t => count_rows (of_type t) (rows ++ [row])).
Proof.
  intros H. eapply counts_ext; [exact H|].
  intros t. now rewrite count_rows_snoc.
Qed.

Lemma of_person_and_type_same (row : joined_row) (t : pystr) :
  of_person_and_type (row_key row) t row = PyStr.eqb (snd row) t.
Proof.
  unfold of_person_and_type. now rewrite (keq_refl _ person_key_eqb_eq).
Qed.

Lemma of_person_and_type_other (row : joined_row) (k : person_key) (t : pystr) :
  k <> row_key row -> of_person_and_type k t row = false.
Proof.
  intros Hne. unfold of_person_and_type.
  rewrite (keq_neq _ person_key_eqb_eq); [reflexivity | congruence].
Qed.

(** One turn of the grouping loop keeps the counters exact. *)
Lemma count_assignment_step (rows : list joined_row) (row : joined_row)
    (person_post_stats : PyDict.t person_key PersonData.t)
    (post_type_totals : PyDict.t pystr Z) :
  counts_persons rows person_post_stats ->
  counts post_type_totals (fun t => count_rows (of_type t) rows) ->
  exists person_post_stats' post_type_totals',
    count_assignment (person_post_stats, post_type_totals) row
    = Ok (person_post_stats', post_type_totals')
    /\ counts_persons (rows ++ [row]) person_post_stats'
    /\ counts post_type_totals'
         (fun t => count_rows (of_type t) (rows ++ [row])).
Proof.
  intros [Hkeys Hpersons] Htotals.
  destruct row as [person t]. unfold count_assignment.
  set (k0 := (Personnel.id person, Personnel.full_name person)).
  set (fresh := PersonData.mk (Personnel.id person) (Personnel.full_name person)
                  (Personnel.rank person) []).
  set (pps1 := if PyDict.mem person_key_eqb k0 person_post_stats
               then person_post_stats
               else PyDict.set person_key_eqb k0 fresh person_post_stats).
  assert (Hdata :
            exists data,
              PyDict.get person_key_eqb k0 pps1 = Some data
              /\ (PersonData.person_id data, PersonData.person_name data) = k0
              /\ counts (PersonData.post_types data)
                   (fun t' => count_rows (of_person_and_type k0 t') rows)
              /\ NoDup (map fst pps1)
              /\ forall k, k <> k0 ->
                   PyDict.get person_key_eqb k pps1
                   = PyDict.get person_key_eqb k person_post_stats).
  { subst pps1. unfold PyDict.mem. specialize (Hpersons k0).
    destruct (PyDict.get person_key_eqb k0 person_post_stats) as [data|] eqn:E.
    - exists data. destruct Hpersons as [Hid Hc]. rewrite E. auto.
    - exists fresh. rewrite (get_set_same _ person_key_eqb_eq).
      split; [reflexivity|]. split; [reflexivity|]. split; [|split].
      + split; [constructor|]. intros t'. simpl. now rewrite Hpersons.
      + now apply (set_keeps_keys_distinct _ person_key_eqb_eq).
      + intros k Hne. now apply (get_set_other _ person_key_eqb_eq). }
  destruct Hdata as (data & Hget & Hid & Hcounts & Hkeys1 & Hother).
  unfold PyDict.getitem at 1. rewrite Hget. cbn [bind].
  destruct (bump_counts _ _ t Hcounts (count_rows_nonnegative _ _))
    as [Hn Htypes].
  cbv zeta in Hn, Htypes. rewrite Hn. cbn [bind].
  destruct (bump_counts _ _ t Htotals (count_rows_nonnegative _ _))
    as [Hm Htotals'].
  cbv zeta in Hm, Htotals'. rewrite Hm. cbn [bind].
  eexists. eexists. split; [reflexivity|]. split.
  - split; [now apply (set_keeps_keys_distinct _ person_key_eqb_eq)|].
    intros k. destruct (person_key_eqb k k0) eqn:Ek.
    + apply person_key_eqb_eq in Ek. subst k.
      rewrite (get_set_same _ person_key_eqb_eq). cbn [PersonData.person_id
        PersonData.person_name PersonData.post_types].
      split; [exact Hid|].
      eapply counts_ext; [exact Htypes|].
      intros t'. rewrite count_rows_snoc.
      change k0 with (row_key (person, t)).
      now rewrite of_person_and_type_same.
    + assert (Hne : k <> k0).
      { intros ->. rewrite (keq_refl _ person_key_eqb_eq) in Ek. discriminate. }
      rewrite (get_set_other _ person_key_eqb_eq) by exact Hne.
      rewrite (Hother k Hne). specialize (Hpersons k).
      destruct (PyDict.get person_key_eqb k person_post_stats) as [data1|].
      * destruct Hpersons as [Hid1 Hc1]. split; [exact Hid1|].
        eapply counts_ext; [exact Hc1|].
        intros t'. rewrite count_rows_snoc.
        rewrite (of_person_and_type_other (person, t) k t' Hne). lia.
      * intros t'. rewrite count_rows_snoc, Hpersons.
        now rewrite (of_person_and_type_other (person, t) k t' Hne).
  - now apply counts_totals_snoc.
Qed.

(** The grouping loop returns, with exact counters. *)
Lemma count_assignments_ok (l : list joined_row) :
  forall (rows : list joined_row)
         (person_post_stats : PyDict.t person_key PersonData.t)
         (post_type_totals : PyDict.t pystr Z),
    counts_persons rows person_post_stats ->
    counts post_type_totals (fun t => count_rows (of_type t) rows) ->
    exists person_post_stats' post_type_totals',
      for_each count_assignment l (person_post_stats, post_type_totals)
      = Ok (person_post_stats', post_type_totals')
      /\ counts_persons (rows ++ l) person_post_stats'
      /\ counts post_type_totals' (fun t => count_rows (of_type t) (rows ++ l)).
Proof.
  induction l as [|row l IH]; intros rows pps totals Hp Ht; cbn [for_each].
  - exists pps, totals. rewrite app_nil_r. auto.
  - destruct (count_assignment_step rows row pps totals Hp Ht)
      as (pps1 & totals1 & -> & Hp1 & Ht1).
    cbn [bind].
    destruct (IH (rows ++ [row]) pps1 totals1 Hp1 Ht1)
      as (pps2 & totals2 & Hloop & Hp2 & Ht2).
    rewrite <- app_assoc in Hp2, Ht2. eauto.
Qed.

(** ** Post distribution: the metrics *)

(** Three of ten is 30.0 and one of three 33.3; 23 of 80 is 28.7, the
    product being the double below 28.75. *)
Lemma round1_examples :
  PyFloat.round1 (percent 3 10) = PyFloat.decimal1 300
  /\ PyFloat.round1 (percent 1 3) = PyFloat.decimal1 333
  /\ PyFloat.round1 (percent 23 80) = PyFloat.decimal1 287
  /\ PyFloat.leb (PyFloat.decimal1 2875) (percent 23 80) = false.
Proof. repeat split; reflexivity. Qed.

Lemma ge_bool_total (a b : Z) : ge_bool a b = false -> ge_bool b a = true.
Proof. unfold ge_bool. lia. Qed.

Lemma ge_bool_trans (a b c : Z) :
  ge_bool a b = true -> ge_bool b c = true -> ge_bool a c = true.
Proof. unfold ge_bool. lia. Qed.

(** The entry of one post type of one person. *)
Lemma post_assignment_entry_ok (rows : list joined_row)
    (totals : PyDict.t pystr Z) (total_assignments : Z) (k : person_key)
    (types : PyDict.t pystr Z) (t : pystr) (c : Z) :
  counts totals (fun t => count_rows (of_type t) rows) ->
  counts types (fun t => count_rows (of_person_and_type k t) rows) ->
  In (t, c) types ->
  exists e,
    post_assignment_entry totals total_assignments (t, c) = Ok e
    /\ entry_of rows totals k e.
Proof.
  intros [_ Htotals] [Hkeys Htypes] Hin.
  apply (item_is_got _ pystr_eqb_eq) in Hin; [|exact Hkeys].
  rewrite Htypes in Hin. apply some_positive_some in Hin as [Hc Hc0].
  pose proof (count_rows_nonnegative (of_person_and_type k t) rows) as Hpos.
  assert (Hle : count_rows (of_person_and_type k t) rows
                <= count_rows (of_type t) rows).
  { apply count_rows_le. intros r Hr. unfold of_person_and_type in Hr.
    now apply andb_true_iff in Hr. }
  assert (Hget : PyDict.get PyStr.eqb t totals = Some (count_rows (of_type t) rows)).
  { rewrite Htotals. unfold some_positive.
    destruct (count_rows (of_type t) rows =? 0) eqn:E; [lia | reflexivity]. }
  unfold post_assignment_entry, PyDict.getitem. rewrite Hget. cbn [bind].
  assert (Hlt : (0 <? count_rows (of_type t) rows) = true) by lia.
  rewrite Hlt. eexists. split; [reflexivity|].
  unfold entry_of. cbn [PostAssignment.post_type PostAssignment.count
                          PostAssignment.percentage_of_total].
  rewrite Hc. repeat split; auto; lia.
Qed.

(** The entry of one person. *)
Lemma person_stats_entry_ok (rows : list joined_row)
    (totals : PyDict.t pystr Z) (k : person_key) (data : PersonData.t) :
  counts totals (fun t => count_rows (of_type t) rows) ->
  (PersonData.person_id data, PersonData.person_name data) = k ->
  counts (PersonData.post_types data)
    (fun t => count_rows (of_person_and_type k t) rows) ->
  exists ps,
    person_stats_entry totals data = Ok ps
    /\ (PersonStats.person_id ps, PersonStats.person_name ps) = k
    /\ (forall e, In e (PersonStats.post_assignments ps) ->
                  entry_of rows totals k e)
    /\ StronglySorted (key_le ge_bool PostAssignment.count)
         (PersonStats.post_assignments ps).
Proof.
  intros Htotals Hid Htypes. unfold person_stats_entry.
  set (total := sum (PyDict.values (PersonData.post_types data))).
  pose proof (for_each_append (post_assignment_entry totals total)
                (PyDict.items (PersonData.post_types data)) []) as H.
  destruct (for_each _ (PyDict.items (PersonData.post_types data)) [])
    as [entries|e].
  - destruct H as (bs & -> & HF). cbn [bind app].
    eexists. split; [reflexivity|].
    cbn [PersonStats.person_id PersonStats.person_name
         PersonStats.post_assignments].
    split; [exact Hid|]. split.
    + intros e He.
      apply (Permutation_in e (Permutation_sym (sorted_by_permutation _ _ bs)))
        in He.
      destruct (forall2_in_right _ _ _ _ HF He) as ([t c] & Hitem & Hentry).
      destruct (post_assignment_entry_ok rows totals total k _ t c
                  Htotals Htypes Hitem) as (e' & He' & Hspec).
      rewrite Hentry in He'. now injection He' as <-.
    + apply sorted_by_sorted; [exact ge_bool_total | exact ge_bool_trans].
  - exfalso. destruct H as ([t c] & Hitem & Hraise).
    destruct (post_assignment_entry_ok rows totals total k _ t c
                Htotals Htypes Hitem) as (e' & He' & _).
    rewrite Hraise in He'. discriminate.
Qed.



(** * Further properties *)

(** ** The pattern of the names *)

Lemma take_while_skipn (f : N -> bool) (s : pystr) :
  s = take_while f s ++ skipn (List.length (take_while f s)) s.
Proof.
  induction s as [|c s IH]; simpl; [reflexivity|].
  destruct (f c); simpl; [now rewrite <- IH | reflexivity].
Qed.

Lemma take_while_all (f : N -> bool) (s : pystr) :
  forallb f (take_while f s) = true.
Proof.
  induction s as [|c s IH]; simpl; [reflexivity|].
  destruct (f c) eqn:E; simpl; [now rewrite E | reflexivity].
Qed.

Lemma take_while_stops (f : N -> bool) (s : pystr) :
  match skipn (List.length (take_while f s)) s with
  | [] => True
  | c :: _ => f c = false
  end.
Proof.
  induction s as [|c s IH]; simpl; [exact I|].
  destruct (f c) eqn:E; simpl; [exact IH | exact E].
Qed.

Lemma startswith_skipn (p s : pystr) :
  PyStr.startswith p s = true -> s = p ++ skipn (List.length p) s.
Proof.
  revert s; induction p as [|x p IH]; intros [|y s]; simpl;
    try reflexivity; try discriminate.
  intros H. apply andb_true_iff in H as [Hxy Hp].
  apply N.eqb_eq in Hxy. subst y. now rewrite <- (IH s Hp).
Qed.

Lemma match_at_sound (s rank name : pystr) (len : nat) :
  match_at s = Some (rank, name, len) ->
  exists spaces after,
    s = rank ++ spaces ++ name ++ after
    /\ len = List.length (rank ++ spaces ++ name)
    /\ is_match rank spaces name after.
Proof.
  unfold match_at.
  destruct (first (fun r => PyStr.startswith r s) rank_tokens) as [r|] eqn:Hrank;
    [|discriminate].
  apply first_some_in in Hrank as [Hin Hstart].
  apply startswith_skipn in Hstart.
  set (after_rank := skipn (List.length r) s) in *.
  pose proof (take_while_skipn PyStr.is_space after_rank) as Hspaces.
  pose proof (take_while_all PyStr.is_space after_rank) as Hall.
  set (spaces := take_while PyStr.is_space after_rank) in *.
  set (after_spaces := skipn (List.length spaces) after_rank) in *.
  destruct spaces as [|sp spaces'] eqn:Esp; [discriminate|].
  destruct after_spaces as [|c rest] eqn:Eafter; [discriminate|].
  destruct (is_letter c) eqn:Hletter; [|discriminate].
  intros [= <- <- <-].
  pose proof (take_while_skipn is_name_char (c :: rest)) as Hname.
  pose proof (take_while_all is_name_char (c :: rest)) as Hnameall.
  pose proof (take_while_stops is_name_char (c :: rest)) as Hstop.
  exists (sp :: spaces'),
    (skipn (List.length (take_while is_name_char (c :: rest))) (c :: rest)).
  split; [|split].
  - etransitivity; [exact Hstart|]. f_equal.
    etransitivity; [exact Hspaces|]. f_equal. exact Hname.
  - rewrite !length_app. cbn [List.length]. lia.
  - split; [exact Hin|]. split; [discriminate|]. split; [exact Hall|].
    split; [|exact Hstop].
    simpl in Hnameall |- *.
    assert (Hc : is_name_char c = true)
      by (unfold is_name_char; now rewrite Hletter).
    rewrite Hc in Hnameall |- *. simpl in Hnameall.
    apply andb_true_iff in Hnameall as [_ Hrest].
    exists c, (take_while is_name_char rest). auto.
Qed.

Lemma findall_from_sound (s : pystr) :
  forall (skip : nat) (rank name : pystr),
    In (rank, name) (findall_from skip s) ->
    exists before spaces after,
      s = before ++ rank ++ spaces ++ name ++ after
      /\ is_match rank spaces name after.
Proof.
  induction s as [|c s IH]; intros skip rank name; simpl; [tauto|].
  assert (Hlater : forall k,
             In (rank, name) (findall_from k s) ->
             exists before spaces after,
               c :: s = before ++ rank ++ spaces ++ name ++ after
               /\ is_match rank spaces name after).
  { intros k Hin. destruct (IH k rank name Hin) as (b & sp & a & -> & Hm).
    exists (c :: b), sp, a. auto. }
  destruct skip as [|k]; [|apply Hlater].
  destruct (match_at (c :: s)) as [[[r n] len]|] eqn:Hmatch; [|apply Hlater].
  intros [[= -> ->]|Hin]; [|now apply (Hlater (len - 1)%nat)].
  apply match_at_sound in Hmatch as (sp & a & Hs & _ & Hm).
  exists [], sp, a. auto.
Qed.

(** X1.  Every pair that [re.findall] returns stands in the line: a rank
    token, one or more whitespace characters, and a name made of a letter
    followed by letters and hyphens, taken as far as it goes. *)
Theorem findall_sound (line rank name : pystr) :
  In (rank, name) (findall line) ->
  exists before spaces after,
    line = before ++ rank ++ spaces ++ name ++ after
    /\ is_match rank spaces name after.
Proof. apply findall_from_sound. Qed.

Lemma findall_sound_witness :
  exists before spaces after,
    PyStr.lit "SPC Miller, SGT   Matias-Rios"
    = before ++ PyStr.lit "SGT" ++ spaces ++ PyStr.lit "Matias-Rios" ++ after
    /\ is_match (PyStr.lit "SGT") spaces (PyStr.lit "Matias-Rios") after.
Proof.
  apply (findall_sound (PyStr.lit "SPC Miller, SGT   Matias-Rios")).
  vm_compute. auto.
Defined.

(** ** Matching a name *)

Section DictItems.
Context {K V : Type} (keq : K -> K -> bool).
Hypothesis keq_eq : forall a b, keq a b = true <-> a = b.

Lemma get_some_item (k : K) (v : V) (d : PyDict.t K V) :
  PyDict.get keq k d = Some v -> In (k, v) d.
Proof.
  induction d as [|[k' v'] d IH]; simpl; [discriminate|].
  destruct (keq k k') eqn:E.
  - apply keq_eq in E. subst k'. intros [= ->]. now left.
  - intros H. right. now apply IH.
Qed.

Lemma item_of_set (k k' : K) (v v' : V) (d : PyDict.t K V) :
  In (k', v') (PyDict.set keq k v d) -> In (k', v') d \/ (k', v') = (k, v).
Proof.
  induction d as [|[k0 v0] d IH]; simpl.
  - intros [H|[]]. now right.
  - destruct (keq k k0) eqn:E; simpl.
    + apply keq_eq in E. subst k0. intros [H|H]; [now right | auto].
    + intros [H|H]; [auto|]. destruct (IH H); auto.
Qed.

Lemma get_set_stays (k k' : K) (v : V) (d : PyDict.t K V) :
  PyDict.get keq k' d <> None -> PyDict.get keq k' (PyDict.set keq k v d) <> None.
Proof.
  intros H. destruct (keq k' k) eqn:E.
  - apply keq_eq in E. subst k'. rewrite (get_set_same keq keq_eq). discriminate.
  - rewrite (get_set_other keq keq_eq); [exact H|].
    intros ->. rewrite (keq_refl keq keq_eq) in E. discriminate.
Qed.
End DictItems.

(** What [personnel_map] holds after the loop over the personnel. *)
Lemma add_lookup_keys_items (l : list Personnel.t) :
  forall (acc personnel_map : PyDict.t pystr Personnel.t) (roster : list Personnel.t),
    for_each add_lookup_keys l acc = Ok personnel_map ->
    incl l roster ->
    Forall (fun item => In (snd item) roster /\ answers_to (snd item) (fst item)) acc ->
    Forall (fun item => In (snd item) roster /\ answers_to (snd item) (fst item))
      personnel_map.
Proof.
  induction l as [|p l IH]; intros acc personnel_map roster; cbn [for_each].
  - now intros [= <-].
  - unfold add_lookup_keys at 1.
    destruct (rev (PyStr.split (Personnel.name p))) as [|last rest] eqn:Hlast;
      cbn [bind]; [discriminate|].
    intros Hloop Hincl Hacc. apply (IH _ _ roster Hloop).
    + intros x Hx. apply Hincl. now right.
    + assert (Hp : In p roster) by (apply Hincl; now left).
      rewrite Forall_forall in *. intros [k v] Hitem.
      repeat (apply (item_of_set _ pystr_eqb_eq) in Hitem as [Hitem|[= -> ->]]);
        cbn [fst snd]; unfold answers_to;
        try solve [eauto 6 | split; [exact Hp|]; right; right; eauto].
      exact (Hacc _ Hitem).
Qed.

Lemma add_lookup_keys_present (l : list Personnel.t) (p : Personnel.t) :
  forall acc personnel_map : PyDict.t pystr Personnel.t,
    for_each add_lookup_keys l acc = Ok personnel_map ->
    In p l
    \/ PyDict.get PyStr.eqb (PyStr.upper (Personnel.full_name p)) acc <> None ->
    PyDict.get PyStr.eqb (PyStr.upper (Personnel.full_name p)) personnel_map
    <> None.
Proof.
  induction l as [|q l IH]; intros acc personnel_map; cbn [for_each].
  - intros [= <-] [[]|H]. exact H.
  - unfold add_lookup_keys at 1.
    destruct (rev (PyStr.split (Personnel.name q))) as [|last rest];
      cbn [bind]; [discriminate|].
    intros Hloop Hp. apply (IH _ _ Hloop).
    destruct Hp as [[->|Hin]|Hacc]; [right|left; exact Hin|right].
    + do 2 apply (get_set_stays _ pystr_eqb_eq).
      rewrite (get_set_same _ pystr_eqb_eq). discriminate.
    + now do 3 apply (get_set_stays _ pystr_eqb_eq).
Qed.

Lemma fuzzy_match_item (personnel_map : PyDict.t pystr Personnel.t)
    (rank last_name : pystr) (p : Personnel.t) :
  fuzzy_match personnel_map rank last_name = Some p ->
  exists key,
    In (key, p) personnel_map
    /\ PyStr.contains (PyStr.upper last_name) key = true
    /\ PyStr.contains (PyStr.upper rank) key = true.
Proof.
  unfold fuzzy_match, PyDict.items.
  destruct (first _ personnel_map) as [[key q]|] eqn:E; [|discriminate].
  intros [= <-]. apply first_some_in in E as [Hin Hf]. cbn [fst] in Hf.
  apply andb_true_iff in Hf as [H1 H2]. exists key. auto.
Qed.

(** X2.  The person that [find_person] gives is one of the persons the map
    was built from, and is held under a key that is the upper-cased
    ["rank name"], or the upper-cased name, or contains both the
    upper-cased name and the upper-cased rank. *)
Theorem find_person_sound (roster : list Personnel.t)
    (personnel_map : PyDict.t pystr Personnel.t) (rank last_name : pystr)
    (p : Personnel.t) :
  for_each add_lookup_keys roster [] = Ok personnel_map ->
  find_person personnel_map rank last_name = Some p ->
  In p roster
  /\ exists key,
       answers_to p key
       /\ (key = PyStr.upper (PyStr.spaced rank last_name)
           \/ key = PyStr.upper last_name
           \/ PyStr.contains (PyStr.upper last_name) key = true
              /\ PyStr.contains (PyStr.upper rank) key = true).
Proof.
  intros Hmap Hfind.
  pose proof (add_lookup_keys_items roster [] personnel_map roster Hmap
                (incl_refl _) (Forall_nil _)) as Hitems.
  rewrite Forall_forall in Hitems.
  rewrite find_person_order in Hfind.
  destruct (PyDict.get PyStr.eqb (PyStr.upper (PyStr.spaced rank last_name))
              personnel_map) as [q|] eqn:Hfull.
  - injection Hfind as ->.
    apply (get_some_item _ pystr_eqb_eq) in Hfull.
    destruct (Hitems _ Hfull) as [Hin Hanswers].
    split; [exact Hin|]. eexists. split; [exact Hanswers|]. now left.
  - destruct (fuzzy_match personnel_map rank last_name) as [q|] eqn:Hfuzzy.
    + injection Hfind as ->.
      apply fuzzy_match_item in Hfuzzy as (key & Hitem & H1 & H2).
      destruct (Hitems _ Hitem) as [Hin Hanswers].
      split; [exact Hin|]. exists key. split; [exact Hanswers|]. auto.
    + apply (get_some_item _ pystr_eqb_eq) in Hfind.
      destruct (Hitems _ Hfind) as [Hin Hanswers].
      split; [exact Hin|]. eexists. split; [exact Hanswers|]. auto.
Qed.

Lemma find_person_sound_witness :
  In leeds [leeds; lee]
  /\ exists key,
       answers_to leeds key
       /\ (key = PyStr.upper (PyStr.spaced (PyStr.lit "SGT") (PyStr.lit "Lee"))
           \/ key = PyStr.upper (PyStr.lit "Lee")
           \/ PyStr.contains (PyStr.upper (PyStr.lit "Lee")) key = true
              /\ PyStr.contains (PyStr.upper (PyStr.lit "SGT")) key = true).
Proof.
  eapply (find_person_sound [leeds; lee]); reflexivity.
Defined.

(** X3.  A person of the roster is always matched by the own rank and name:
    [find_person] gives a person of the roster who is held under that
    upper-cased full name (the person, or a later one entered under the
    same key). *)
Theorem find_person_finds_roster (roster : list Personnel.t)
    (personnel_map : PyDict.t pystr Personnel.t) (p : Personnel.t) :
  for_each add_lookup_keys roster [] = Ok personnel_map ->
  In p roster ->
  exists q,
    find_person personnel_map (Personnel.rank p) (Personnel.name p) = Some q
    /\ In q roster
    /\ answers_to q (PyStr.upper (Personnel.full_name p)).
Proof.
  intros Hmap Hin.
  pose proof (add_lookup_keys_items roster [] personnel_map roster Hmap
                (incl_refl _) (Forall_nil _)) as Hitems.
  rewrite Forall_forall in Hitems.
  pose proof (add_lookup_keys_present roster p [] personnel_map Hmap
                (or_introl Hin)) as Hpresent.
  rewrite find_person_order.
  change (PyStr.spaced (Personnel.rank p) (Personnel.name p))
    with (Personnel.full_name p).
  destruct (PyDict.get PyStr.eqb (PyStr.upper (Personnel.full_name p))
              personnel_map) as [q|] eqn:Hget; [|contradiction].
  exists q. split; [reflexivity|].
  apply (get_some_item _ pystr_eqb_eq) in Hget.
  exact (Hitems _ Hget).
Qed.

Lemma find_person_finds_roster_witness :
  exists personnel_map,
    for_each add_lookup_keys [lastre; miller] [] = Ok personnel_map
    /\ exists q,
         find_person personnel_map (Personnel.rank miller) (Personnel.name miller)
         = Some q
         /\ In q [lastre; miller]
         /\ answers_to q (PyStr.upper (Personnel.full_name miller)).
Proof.
  eexists. split; [reflexivity|].
  apply (find_person_finds_roster [lastre; miller]);
    [reflexivity | simpl; auto].
Defined.

(** ** Stability of the sorts *)

Section Stability.
Context {A K : Type} (le : K -> K -> bool) (key : A -> K).
Hypothesis le_trans : forall a b c, le a b = true -> le b c = true -> le a c = true.


End Stability.

Lemma strongly_sorted_app {A : Type} (R : A -> A -> Prop) (l1 l2 : list A) :
  StronglySorted R (l1 ++ l2) ->
  StronglySorted R l1 /\ StronglySorted R l2
  /\ forall a b, In a l1 -> In b l2 -> R a b.
Proof.
  induction l1 as [|x l1 IH]; simpl; intros H.
  - repeat split; [constructor | exact H | tauto].
  - inversion H as [|? ? Hs Hall]; subst.
    destruct (IH Hs) as (H1 & H2 & H12).
    rewrite Forall_forall in Hall. repeat split.
    + constructor; [exact H1|]. apply Forall_forall.
      intros y Hy. apply Hall, in_or_app. now left.
    + exact H2.
    + intros a b [<-|Ha] Hb; [|now apply H12].
      apply Hall, in_or_app. now right.
Qed.

(** ** Fairness ranking: who is listed, and ties *)

Lemma active_person_is_joined (s : Store) (p : Personnel.t) :
  In p (personnel s) -> Personnel.is_active p = true ->
  exists tracking, In (p, tracking) (personnel_with_tracking s).
Proof.
  intros Hin Hactive. unfold personnel_with_tracking.
  destruct (filter (fun f => FairnessTracking.person_id f =? Personnel.id p)
              (fairness_tracking s)) as [|f fs] eqn:Hrows.
  - exists None. apply in_flat_map. exists p.
    split; [now apply filter_In|]. rewrite Hrows. now left.
  - exists (Some f). apply in_flat_map. exists p.
    split; [now apply filter_In|]. rewrite Hrows. now left.
Qed.

(** X4.  When [get_fairness_stats] returns, every entry is the entry of an
    active person of the table, and every active person has an entry:
    inactive personnel are never ranked. *)
Theorem get_fairness_stats_lists_the_active
    (db : Session) (now : Z) (out : list FairnessStats.t) :
  get_fairness_stats db now = Ok out ->
  (forall s, In s out ->
     exists p, In p (personnel db) /\ Personnel.is_active p = true
               /\ FairnessStats.person_id s = Personnel.id p
               /\ FairnessStats.person_name s = Personnel.full_name p)
  /\ (forall p, In p (personnel db) -> Personnel.is_active p = true ->
        exists s, In s out /\ FairnessStats.person_id s = Personnel.id p)
  /\ List.length out = List.length (personnel_with_tracking db).
Proof.
  intros Hout.
  apply get_fairness_stats_ok in Hout as (stats & HF & HP & _).
  split; [|split].
  - intros s Hs. apply (Permutation_in s (Permutation_sym HP)) in Hs.
    destruct (forall2_in_right _ _ _ _ HF Hs) as ([p tracking] & Hrow & Hs').
    apply personnel_with_tracking_spec in Hrow as (Hp & Hactive & _).
    exists p. split; [exact Hp|]. split; [exact Hactive|].
    apply fairness_stats_row_scored in Hs' as [[Hid _] Hname].
    split; [exact Hid | exact Hname].
  - intros p Hp Hactive.
    destruct (active_person_is_joined db p Hp Hactive) as (tracking & Hrow).
    destruct (forall2_in_left _ _ _ _ HF Hrow) as (s & Hs & Hs').
    exists s. split; [eapply Permutation_in; eauto|].
    apply fairness_stats_row_scored in Hs' as [[Hid _] _]. exact Hid.
  - rewrite <- (Permutation_length HP). symmetry.
    eapply Forall2_length; eauto.
Qed.

Lemma get_fairness_stats_lists_the_active_witness :
  exists out,
    get_fairness_stats (get_db store_after_long_wait) sixty_days = Ok out
    /\ (forall s, In s out ->
          exists p, In p (personnel (get_db store_after_long_wait))
                    /\ Personnel.is_active p = true
                    /\ FairnessStats.person_id s = Personnel.id p
                    /\ FairnessStats.person_name s = Personnel.full_name p)
    /\ (forall p, In p (personnel (get_db store_after_long_wait)) ->
          Personnel.is_active p = true ->
          exists s, In s out /\ FairnessStats.person_id s = Personnel.id p)
    /\ List.length out
       = List.length (personnel_with_tracking (get_db store_after_long_wait)).
Proof.
  eexists. split; [reflexivity|].
  apply (get_fairness_stats_lists_the_active (get_db store_after_long_wait)
           sixty_days).
  vm_compute. reflexivity.
Defined.



(** ** Paged reads *)

Lemma strongly_sorted_firstn {A : Type} (R : A -> A -> Prop) (n : nat) (l : list A) :
  StronglySorted R l -> StronglySorted R (firstn n l).
Proof.
  intros H. rewrite <- (firstn_skipn n l) in H.
  now apply strongly_sorted_app in H.
Qed.

Lemma strongly_sorted_skipn {A : Type} (R : A -> A -> Prop) (n : nat) (l : list A) :
  StronglySorted R l -> StronglySorted R (skipn n l).
Proof.
  intros H. rewrite <- (firstn_skipn n l) in H.
  now apply strongly_sorted_app in H.
Qed.

Lemma in_firstn {A : Type} (n : nat) (l : list A) (x : A) :
  In x (firstn n l) -> In x l.
Proof.
  intros H. rewrite <- (firstn_skipn n l). apply in_or_app. now left.
Qed.

Lemma in_skipn {A : Type} (n : nat) (l : list A) (x : A) :
  In x (skipn n l) -> In x l.
Proof.
  intros H. rewrite <- (firstn_skipn n l). apply in_or_app. now right.
Qed.

Lemma rows_of_date_spec (db : Session) (duty_date : option Z) (a : Assignment.t) :
  In a (rows_of_date db duty_date) <->
  In a (assignments db)
  /\ forall d, duty_date = Some d -> Assignment.duty_date a = d.
Proof.
  unfold rows_of_date. destruct duty_date as [d|].
  - rewrite filter_In, Z.eqb_eq. split.
    + intros [Hin Hd]. split; [exact Hin|]. now intros d' [= <-].
    + intros [Hin Hd]. split; [exact Hin | now apply Hd].
  - split; [intros H; split; [exact H | discriminate] | tauto].
Qed.

(** X6.  [get_assignments], for an offset and a limit that SQLite can
    hold.  The rows returned are assignments of the date asked for, the
    latest duty date first.  A limit that is not negative bounds their
    number, and a negative limit does not: every row from the offset on is
    returned.  Without an offset the rows returned are the latest there
    are: every row of that date that is left out is no later than any row
    returned. *)
Theorem get_assignments_latest_first
    (db : Session) (skip limit : Z) (duty_date : option Z) :
  fits skip -> fits limit ->
  let out := get_assignments db skip limit duty_date in
  (0 <= limit -> Z.of_nat (List.length out) <= limit)
  /\ (limit < 0 ->
      exists before,
        Permutation (before ++ out) (rows_of_date db duty_date)
        /\ Z.of_nat (List.length before) <= Z.max 0 skip
        /\ forall a b, In a before -> In b out ->
                       Assignment.duty_date b <= Assignment.duty_date a)
  /\ (forall a, In a out -> In a (rows_of_date db duty_date))
  /\ StronglySorted (fun a b => Assignment.duty_date b <= Assignment.duty_date a)
       out
  /\ (skip <= 0 ->
      exists rest,
        Permutation (out ++ rest) (rows_of_date db duty_date)
        /\ forall a b, In a out -> In b rest ->
                       Assignment.duty_date b <= Assignment.duty_date a).
Proof.
  intros _ _. cbv zeta. unfold get_assignments.
  assert (Hquery : match duty_date with
                   | Some d =>
                       filter
                         (fun a =>
                            sql_text_eqb (datetime_text (Assignment.duty_date a))
                              (datetime_text d))
                         (assignments db)
                   | None => assignments db
                   end = rows_of_date db duty_date) by reflexivity.
  rewrite Hquery. clear Hquery.
  set (query := rows_of_date db duty_date).
  pose proof (sorted_by_permutation ge_bool Assignment.duty_date query) as Hperm.
  assert (Hsorted : StronglySorted
                      (fun a b => Assignment.duty_date b <= Assignment.duty_date a)
                      (sorted_by ge_bool Assignment.duty_date query)).
  { eapply strongly_sorted_weaken.
    2: { apply sorted_by_sorted; [exact ge_bool_total | exact ge_bool_trans]. }
    intros a b Hab. unfold key_le, ge_bool in Hab. lia. }
  set (sorted := sorted_by ge_bool Assignment.duty_date query) in *.
  unfold sql_limit, sql_offset.
  split; [|split; [|split; [|split]]].
  - intros Hlimit. destruct (limit <? 0) eqn:E; [lia|].
    pose proof (firstn_le_length (Z.to_nat limit) (skipn (Z.to_nat skip) sorted)).
    lia.
  - intros Hlimit. destruct (limit <? 0) eqn:E; [|lia].
    exists (firstn (Z.to_nat skip) sorted). rewrite firstn_skipn.
    split; [now apply Permutation_sym|]. split.
    + pose proof (firstn_le_length (Z.to_nat skip) sorted). lia.
    + rewrite <- (firstn_skipn (Z.to_nat skip) sorted) in Hsorted.
      apply strongly_sorted_app in Hsorted as (_ & _ & H). exact H.
  - intros a Ha.
    assert (Hin : In a (skipn (Z.to_nat skip) sorted))
      by (destruct (limit <? 0); [exact Ha | now apply in_firstn in Ha]).
    apply in_skipn in Hin.
    exact (Permutation_in a (Permutation_sym Hperm) Hin).
  - destruct (limit <? 0);
      [|apply strongly_sorted_firstn]; now apply strongly_sorted_skipn.
  - intros Hskip. replace (Z.to_nat skip) with 0%nat by lia. cbn [skipn].
    destruct (limit <? 0).
    + exists []. rewrite app_nil_r. split; [now apply Permutation_sym|].
      intros a b _ [].
    + exists (skipn (Z.to_nat limit) sorted).
      rewrite firstn_skipn. split; [now apply Permutation_sym|].
      rewrite <- (firstn_skipn (Z.to_nat limit) sorted) in Hsorted.
      apply strongly_sorted_app in Hsorted as (_ & _ & H). exact H.
Qed.

Lemma get_assignments_latest_first_witness :
  let out := get_assignments (get_db store_one_of_three) 0 (-1) None in
  out = [imported_assignment 7 1 19739; imported_assignment 7 1 19738;
         imported_assignment 1 1 19737]
  /\ (0 <= -1 -> Z.of_nat (List.length out) <= -1)
  /\ (-1 < 0 ->
      exists before,
        Permutation (before ++ out) (rows_of_date (get_db store_one_of_three) None)
        /\ Z.of_nat (List.length before) <= Z.max 0 0
        /\ forall a b, In a before -> In b out ->
                       Assignment.duty_date b <= Assignment.duty_date a)
  /\ (forall a, In a out -> In a (rows_of_date (get_db store_one_of_three) None))
  /\ StronglySorted (fun a b => Assignment.duty_date b <= Assignment.duty_date a)
       out
  /\ (0 <= 0 ->
      exists rest,
        Permutation (out ++ rest) (rows_of_date (get_db store_one_of_three) None)
        /\ forall a b, In a out -> In b rest ->
                       Assignment.duty_date b <= Assignment.duty_date a).
Proof.
  split; [reflexivity|].
  apply (get_assignments_latest_first (get_db store_one_of_three) 0 (-1) None);
    unfold fits; lia.
Defined.

(** ** Recalculation: when it fails and what it leaves *)

(** A call raises exactly for an untyped post, and then an
    [AttributeError]. *)
Lemma update_fairness_tracking_cases (db : Session) (now person_id post_id : Z) :
  match update_fairness_tracking db now person_id post_id with
  | Ok _ => untyped_post db post_id = false
  | Raise e => e = AttributeError /\ untyped_post db post_id = true
  end.
Proof.
  unfold update_fairness_tracking, untyped_post.
  destruct (first (fun p => Post.id p =? post_id) (posts db)) as [post|];
    [|reflexivity].
  destruct (post_type_of db post) as [pt|]; [|auto].
  now destruct (negb (PyStr.eqb (PostType.name pt) stand_by)).
Qed.

Lemma replay_outcome (s : Store) (clock : Z -> Z) (l : list Assignment.t) :
  forall (db : Session) (n : Z),
    tables db = with_fairness s [] ->
    match for_each (replay clock) l (db, n) with
    | Ok (d', n') =>
        tables d' = tables db
        /\ n' = n + Z.of_nat (List.length l)
        /\ existsb (blocks_replay s) l = false
        /\ exists rows,
             pending d' = pending db ++ rows /\ Forall2 (replayed s) l rows
    | Raise e => e = AttributeError /\ existsb (blocks_replay s) l = true
    end.
Proof.
  induction l as [|a l IH]; intros db n Hdb; cbn [for_each].
  - repeat split; [cbn; lia|]. exists []. rewrite app_nil_r. split; constructor.
  - unfold replay at 1. cbn [existsb].
    change (blocks_replay s a) with (untyped_post s (Assignment.post_id a)).
    pose proof (update_fairness_tracking_cases db (clock n)
                  (Assignment.person_id a) (Assignment.post_id a)) as Hcases.
    assert (Huntyped : untyped_post db (Assignment.post_id a)
                       = untyped_post s (Assignment.post_id a))
      by (now rewrite Hdb).
    assert (Hweight : resolved_weight db (Assignment.post_id a)
                      = resolved_weight s (Assignment.post_id a))
      by (now rewrite Hdb).
    rewrite Huntyped in Hcases.
    destruct (update_fairness_tracking db (clock n) (Assignment.person_id a)
                (Assignment.post_id a)) as [d1|e] eqn:Hupdate; cbn [bind].
    + rewrite Hcases. cbn [orb].
      apply update_fairness_tracking_ok in Hupdate. cbv zeta in Hupdate.
      rewrite Hdb in Hupdate. cbn [fairness_tracking with_fairness first find]
        in Hupdate.
      destruct Hupdate as (standby & _ & ->).
      match goal with
      | |- context [for_each (replay clock) l (?d, ?m)] =>
          remember d as d1 eqn:Hd1
      end.
      assert (Ht1 : tables d1 = with_fairness s []) by now subst d1.
      assert (Hp1 : exists f,
                 pending d1 = pending db ++ [f] /\ replayed s a f).
      { subst d1. eexists. split; [reflexivity|].
        unfold replayed. cbn. repeat split. }
      clear Hd1. specialize (IH d1 (n + 1) Ht1).
      destruct (for_each (replay clock) l (d1, n + 1)) as [[d' n']|e];
        [|exact IH].
      destruct IH as (Ht & Hn & Hb & rows & Hp & Hrows).
      destruct Hp1 as (f & Hp1 & Hf).
      split; [congruence|]. split; [cbn [List.length]; lia|].
      split; [exact Hb|].
      rewrite Hp1, <- app_assoc in Hp. eexists. split; [exact Hp|].
      now constructor.
    + destruct Hcases as [-> ->]. auto.
Qed.

(** X8.  A recalculation fails exactly when some assignment has a post
    whose post type cannot be resolved; it then answers 400 for an
    [AttributeError] and leaves the store as it was.  Otherwise it reports
    the number of assignments, rewrites the tracking table only, and leaves
    one tracking row per assignment, in the order of the assignments: the
    row of an assignment counts that one assignment and the weight of its
    post, even when the person has other assignments. *)
Theorem recalculate_fairness_outcome (s : Store) (clock : Z -> Z) :
  match recalculate_fairness s clock with
  | (s', Recalculated n) =>
      existsb (blocks_replay s) (assignments s) = false
      /\ n = Z.of_nat (List.length (assignments s))
      /\ same_roster s s'
      /\ assignments s' = assignments s
      /\ Forall2 (replayed s) (assignments s) (fairness_tracking s')
  | (s', BadRequest e) =>
      existsb (blocks_replay s) (assignments s) = true
      /\ e = AttributeError
      /\ s' = s
  end.
Proof.
  unfold recalculate_fairness.
  pose proof (replay_outcome s clock (assignments s)
                (get_db (with_fairness s [])) 0 eq_refl) as H.
  change (assignments (get_db (with_fairness s []))) with (assignments s).
  destruct (for_each (replay clock) (assignments s) _) as [[d' n']|e].
  - destruct H as (Ht & Hn & Hb & rows & Hp & Hrows).
    destruct d' as [t p]. cbn [tables pending get_db app] in *. subst t p.
    cbn [commit flush tables pending fairness_tracking with_fairness app
         assignments].
    repeat split; auto.
  - destruct H as [-> Hb]. auto.
Qed.

(** ** Setting up the posts *)

Lemma first_none_existsb {A : Type} (f : A -> bool) (l : list A) :
  first f l = None <-> existsb f l = false.
Proof.
  unfold first. induction l as [|x l IH]; simpl; [tauto|].
  destruct (f x); simpl; [split; discriminate | exact IH].
Qed.

Lemma ensure_post_type_spec (s : Store) (type_name : pystr) :
  let s' := ensure_post_type s type_name in
  personnel s' = personnel s /\ posts s' = posts s
  /\ assignments s' = assignments s
  /\ fairness_tracking s' = fairness_tracking s
  /\ has_post_type s' type_name = true
  /\ (forall n, has_post_type s n = true -> has_post_type s' n = true)
  /\ (has_post_type s type_name = true -> s' = s)
  /\ exists added,
       post_types s' = post_types s ++ added
       /\ Forall (fun pt => PostType.name pt = type_name
                            /\ PostType.difficulty_weight pt = Some 1) added.
Proof.
  cbv zeta. unfold ensure_post_type, has_post_type.
  destruct (first (fun pt => PyStr.eqb (PostType.name pt) type_name) (post_types s))
    as [pt|] eqn:E.
  - assert (Hhas : existsb (fun pt => PyStr.eqb (PostType.name pt) type_name)
                     (post_types s) = true).
    { destruct (existsb _ (post_types s)) eqn:Hex; [reflexivity|].
      apply first_none_existsb in Hex. congruence. }
    repeat split; auto. exists []. now rewrite app_nil_r.
  - apply first_none_existsb in E.
    cbn [with_post_types personnel posts assignments fairness_tracking post_types].
    repeat split.
    + rewrite existsb_app. cbn. rewrite (keq_refl _ pystr_eqb_eq).
      now rewrite orb_true_r.
    + intros n Hn. rewrite existsb_app, Hn. reflexivity.
    + congruence.
    + eexists. split; [reflexivity|]. repeat constructor.
Qed.

Lemma ensure_post_types_spec (names : list pystr) :
  forall s : Store,
    let s' := fold_left ensure_post_type names s in
    personnel s' = personnel s /\ posts s' = posts s
    /\ assignments s' = assignments s
    /\ fairness_tracking s' = fairness_tracking s
    /\ (forall n, In n names -> has_post_type s' n = true)
    /\ (forall n, has_post_type s n = true -> has_post_type s' n = true)
    /\ ((forall n, In n names -> has_post_type s n = true) -> s' = s)
    /\ exists added,
         post_types s' = post_types s ++ added
         /\ Forall (fun pt => In (PostType.name pt) names
                              /\ PostType.difficulty_weight pt = Some 1) added.
Proof.
  induction names as [|name names IH]; intros s; cbn [fold_left].
  - repeat split; auto; try tauto. exists []. now rewrite app_nil_r.
  - destruct (ensure_post_type_spec s name)
      as (H1 & H2 & H3 & H4 & Hhas & Hkeeps & Hsame & added1 & Hadd1 & Hall1).
    destruct (IH (ensure_post_type s name))
      as (G1 & G2 & G3 & G4 & Ghas & Gkeeps & Gsame & added2 & Hadd2 & Hall2).
    split; [congruence|]. split; [congruence|]. split; [congruence|].
    split; [congruence|]. split; [|split; [|split]].
    + intros n [<-|Hn]; [now apply Gkeeps | now apply Ghas].
    + intros n Hn. now apply Gkeeps, Hkeeps.
    + intros Hall.
      assert (Hs : ensure_post_type s name = s)
        by (apply Hsame, Hall; now left).
      rewrite Hs in *. apply Gsame. intros n Hn. apply Hall. now right.
    + exists (added1 ++ added2). split.
      * now rewrite Hadd2, Hadd1, app_assoc.
      * apply Forall_app. split.
        -- eapply Forall_impl; [|exact Hall1].
           intros pt [<- Hw]. split; [now left | exact Hw].
        -- eapply Forall_impl; [|exact Hall2].
           intros pt [Hn Hw]. split; [now right | exact Hw].
Qed.

(** X9.  [setup_posts] leaves a post type for each of the six names,
    creating the missing ones with weight 1 after the existing rows, and
    touches no other table; run again, it changes nothing. *)
Theorem setup_posts_ensures_post_types (s : Store) :
  let s' := fst (setup_posts s) in
  (forall n, In n post_type_data -> has_post_type s' n = true)
  /\ (exists added,
        post_types s' = post_types s ++ added
        /\ Forall (fun pt => In (PostType.name pt) post_type_data
                             /\ PostType.difficulty_weight pt = Some 1) added)
  /\ personnel s' = personnel s /\ posts s' = posts s
  /\ assignments s' = assignments s
  /\ fairness_tracking s' = fairness_tracking s
  /\ fst (setup_posts s') = s'.
Proof.
  cbv zeta. unfold setup_posts. cbn [fst].
  destruct (ensure_post_types_spec post_type_data s)
    as (H1 & H2 & H3 & H4 & Hhas & _ & _ & Hadded).
  destruct (ensure_post_types_spec post_type_data
              (fold_left ensure_post_type post_type_data s))
    as (_ & _ & _ & _ & _ & _ & Hsame & _).
  repeat split; auto.
Qed.

Lemma ensure_posts_outcome (s : Store) (l : list (pystr * pystr)) (n : Z) :
  for_each (ensure_post s) l n
  = if existsb (post_missing s) l then Raise TypeError else Ok n.
Proof.
  induction l as [|[type_name post_name] l IH]; cbn [for_each existsb];
    [reflexivity|].
  unfold ensure_post at 1, post_missing at 1. cbn [fst snd].
  destruct (first (fun pt => PyStr.eqb (PostType.name pt) type_name) (post_types s))
    as [post_type|]; cbn [bind orb]; [|exact IH].
  match goal with
  | |- context [first ?f (posts s)] =>
      destruct (first f (posts s)) as [post|] eqn:E;
      [ destruct (existsb f (posts s)) eqn:Hex;
        [|apply first_none_existsb in Hex; congruence]
      | apply first_none_existsb in E; rewrite E ]
  end; cbn [bind negb orb]; [exact IH | reflexivity].
Qed.

(** X10.  [setup_posts] never creates a post.  It answers
    [posts_created = 0] when every post of its list exists, and raises
    [TypeError] as soon as one is missing: the constructor of [Post] is
    given a [description], which the table does not have. *)
Theorem setup_posts_creates_no_post (s : Store) :
  posts (fst (setup_posts s)) = posts s
  /\ snd (setup_posts s)
     = if existsb (post_missing (fst (setup_posts s))) post_data
       then Raise TypeError else Ok 0.
Proof.
  split.
  - unfold setup_posts. cbn [fst].
    now destruct (ensure_post_types_spec post_type_data s) as (_ & H & _).
  - unfold setup_posts. cbn [fst snd]. apply ensure_posts_outcome.
Qed.

Lemma setup_posts_examples :
  snd (setup_posts store_without_posts) = Raise TypeError
  /\ setup_posts (seeded [lastre]) = (seeded [lastre], Ok 0).
Proof. split; reflexivity. Qed.

(** ** Post distribution: the totals *)

Lemma count_rows_split (f g : joined_row -> bool) (rows : list joined_row) :
  count_rows f rows
  = count_rows (fun r => f r && g r) rows
    + count_rows f (filter (fun r => negb (g r)) rows).
Proof.
  unfold count_rows. induction rows as [|r rows IH]; [reflexivity|].
  cbn [filter]. destruct (f r) eqn:Hf, (g r) eqn:Hg; cbn [andb negb filter];
    rewrite ?Hf; cbn [List.length]; lia.
Qed.

Lemma count_rows_filter (f g : joined_row -> bool) (rows : list joined_row) :
  count_rows f (filter g rows) = count_rows (fun r => f r && g r) rows.
Proof.
  unfold count_rows. induction rows as [|r rows IH]; [reflexivity|].
  cbn [filter]. destruct (g r) eqn:Hg; cbn [filter].
  - destruct (f r); cbn [andb List.length]; lia.
  - rewrite andb_false_r. exact IH.
Qed.

Lemma count_rows_ext (f g : joined_row -> bool) (rows : list joined_row) :
  (forall r, f r = g r) -> count_rows f rows = count_rows g rows.
Proof.
  intros H. unfold count_rows. now rewrite (filter_ext _ _ H).
Qed.

Lemma count_rows_zero (f : joined_row -> bool) (rows : list joined_row) :
  (forall r, In r rows -> f r = false) -> count_rows f rows = 0.
Proof.
  intros H. unfold count_rows. induction rows as [|r rows IH]; [reflexivity|].
  cbn [filter]. rewrite (H r (or_introl eq_refl)). apply IH.
  intros r' Hr'. apply H. now right.
Qed.

Lemma count_rows_positive (f : joined_row -> bool) (rows : list joined_row)
    (r : joined_row) :
  In r rows -> f r = true -> 0 < count_rows f rows.
Proof.
  intros Hin Hf. unfold count_rows.
  assert (H : In r (filter f rows)) by now apply filter_In.
  destruct (filter f rows); [destruct H | cbn [List.length]; lia].
Qed.

(** The counters of a dictionary add up to the number of the rows they
    count. *)
Lemma counts_sum (d : PyDict.t pystr Z) :
  forall (f : joined_row -> bool) (rows : list joined_row),
    counts d (fun t => count_rows (fun r => f r && PyStr.eqb (snd r) t) rows) ->
    sum (PyDict.values d) = count_rows f rows.
Proof.
  induction d as [|[t1 v1] d IH]; intros f rows [Hkeys Hget].
  - cbn. symmetry. apply count_rows_zero. intros r Hr.
    destruct (f r) eqn:Hf; [|reflexivity]. exfalso.
    specialize (Hget (snd r)). cbn in Hget. symmetry in Hget.
    apply some_positive_none in Hget.
    pose proof (count_rows_positive
                  (fun r0 => f r0 && PyStr.eqb (snd r0) (snd r)) rows r Hr) as Hp.
    cbn beta in Hp. rewrite Hf, (keq_refl _ pystr_eqb_eq) in Hp.
    specialize (Hp eq_refl). lia.
  - cbn [PyDict.values map snd sum fold_right] in *.
    inversion Hkeys as [|? ? Hnotin Hkeys']; subst.
    pose proof (Hget t1) as H1. cbn [PyDict.get] in H1.
    rewrite (keq_refl _ pystr_eqb_eq) in H1. symmetry in H1.
    apply some_positive_some in H1 as [H1 _].
    rewrite (count_rows_split f (fun r => PyStr.eqb (snd r) t1) rows).
    rewrite H1. f_equal.
    apply (IH f (filter (fun r => negb (PyStr.eqb (snd r) t1)) rows)).
    split; [exact Hkeys'|]. intros t. rewrite count_rows_filter.
    destruct (PyStr.eqb t t1) eqn:Et.
    + apply pystr_eqb_eq in Et. subst t.
      rewrite count_rows_zero.
      * destruct (PyDict.get PyStr.eqb t1 d) as [v|] eqn:Hv; [|reflexivity].
        exfalso. apply Hnotin.
        apply (get_some_item _ pystr_eqb_eq) in Hv.
        change t1 with (fst (t1, v)). now apply in_map.
      * intros r _. destruct (PyStr.eqb (snd r) t1); cbn;
          now rewrite ?andb_false_r.
    + specialize (Hget t). cbn [PyDict.get] in Hget. rewrite Et in Hget.
      rewrite Hget. f_equal. apply count_rows_ext. intros r.
      destruct (PyStr.eqb (snd r) t) eqn:Ert; [|now rewrite !andb_false_r].
      apply pystr_eqb_eq in Ert. rewrite Ert, Et. cbn [negb].
      now rewrite !andb_true_r.
Qed.

Lemma sum_permutation (l l' : list Z) : Permutation l l' -> sum l = sum l'.
Proof.
  unfold sum. induction 1; cbn [fold_right]; lia.
Qed.

(** The entry of one person, with its totals. *)
Lemma person_stats_entry_totals (rows : list joined_row)
    (totals : PyDict.t pystr Z) (k : person_key) (data : PersonData.t) :
  counts totals (fun t => count_rows (of_type t) rows) ->
  counts (PersonData.post_types data)
    (fun t => count_rows (of_person_and_type k t) rows) ->
  forall ps,
    person_stats_entry totals data = Ok ps ->
    PersonStats.total_assignments ps = count_rows (of_person k) rows
    /\ sum (map PostAssignment.count (PersonStats.post_assignments ps))
       = PersonStats.total_assignments ps
    /\ forall e, In e (PersonStats.post_assignments ps) ->
         0 < PostAssignment.count e <= PersonStats.total_assignments ps
         /\ PostAssignment.percentage_of_person e
            = PyFloat.round1 (percent (PostAssignment.count e)
                        (PersonStats.total_assignments ps)).
Proof.
  intros Htotals Htypes ps. unfold person_stats_entry.
  assert (Hsum : sum (PyDict.values (PersonData.post_types data))
                 = count_rows (of_person k) rows).
  { apply counts_sum. exact Htypes. }
  set (total := sum (PyDict.values (PersonData.post_types data))) in *.
  pose proof (for_each_append (post_assignment_entry totals total)
                (PyDict.items (PersonData.post_types data)) []) as H.
  destruct (for_each _ (PyDict.items (PersonData.post_types data)) [])
    as [entries|e]; cbn [bind]; [|discriminate].
  destruct H as (bs & -> & HF). cbn [app]. intros [= <-].
  cbn [PersonStats.total_assignments PersonStats.post_assignments].
  assert (Hitem : forall t c e,
             In (t, c) (PersonData.post_types data) ->
             post_assignment_entry totals total (t, c) = Ok e ->
             PostAssignment.count e = c
             /\ 0 < c <= total
             /\ PostAssignment.percentage_of_person e = PyFloat.round1 (percent c total)).
  { intros t c e Hin He.
    destruct Htypes as [Hkeys Hget].
    apply (item_is_got _ pystr_eqb_eq) in Hin; [|exact Hkeys].
    rewrite Hget in Hin. apply some_positive_some in Hin as [Hc Hc0].
    pose proof (count_rows_nonnegative (of_person_and_type k t) rows) as Hpos.
    assert (Hle : count_rows (of_person_and_type k t) rows
                  <= count_rows (of_person k) rows).
    { apply count_rows_le. intros r Hr. unfold of_person_and_type in Hr.
      now apply andb_true_iff in Hr. }
    unfold post_assignment_entry in He.
    destruct (PyDict.getitem PyStr.eqb t totals) as [T|]; cbn [bind] in He;
      [|discriminate].
    injection He as <-.
    cbn [PostAssignment.count PostAssignment.percentage_of_person].
    assert (Hlt : (0 <? total) = true) by lia.
    rewrite Hlt. repeat split; lia. }
  split; [exact Hsum|]. split.
  - rewrite <- (sum_permutation _ _
                  (Permutation_map PostAssignment.count
                     (sorted_by_permutation ge_bool PostAssignment.count bs))).
    subst total. unfold PyDict.values, PyDict.items in *.
    clear - HF.
    induction HF as [|[t c] e types bs He HF IH]; [reflexivity|].
    cbn [map snd]. change (sum (PostAssignment.count e :: map PostAssignment.count bs))
      with (PostAssignment.count e + sum (map PostAssignment.count bs)).
    change (sum (c :: map snd types)) with (c + sum (map snd types)).
    rewrite IH. f_equal.
    unfold post_assignment_entry in He.
    destruct (PyDict.getitem PyStr.eqb t totals); cbn [bind] in He;
      [|discriminate].
    now injection He as <-.
  - intros e He.
    apply (Permutation_in e (Permutation_sym (sorted_by_permutation _ _ bs))) in He.
    destruct (forall2_in_right _ _ _ _ HF He) as ([t c] & Hin & Hentry).
    destruct (Hitem t c e Hin Hentry) as (Hc & Hrange & Hpct).
    rewrite Hc. split; [exact Hrange | exact Hpct].
Qed.

Lemma count_rows_all (rows : list joined_row) :
  count_rows (fun _ => true) rows = Z.of_nat (List.length rows).
Proof.
  unfold count_rows. f_equal. f_equal.
  induction rows as [|r rows IH]; [reflexivity|]. cbn [filter]. now f_equal.
Qed.

(** X11.  The totals of [get_post_distribution_stats].  The grand total is
    the number of joined assignment rows and [total_personnel] the number
    of entries; every person with a row has an entry; the total of an
    entry is the number of the person's rows, is positive and is the sum of
    the counts of the breakdown; and [percentage_of_person] of every line
    of the breakdown is [round(count / total * 100, 1)] for its count and
    that total, in binary64 arithmetic. *)
Theorem get_post_distribution_stats_totals (db : Session) :
  exists out,
    get_post_distribution_stats db = Ok out
    /\ Distribution.total_assignments out
       = Z.of_nat (List.length (assignments_joined db))
    /\ Distribution.total_personnel out
       = Z.of_nat (List.length (Distribution.personnel_stats out))
    /\ (forall row,
          In row (assignments_joined db) ->
          exists ps,
            In ps (Distribution.personnel_stats out)
            /\ (PersonStats.person_id ps, PersonStats.person_name ps)
               = row_key row)
    /\ (forall ps,
          In ps (Distribution.personnel_stats out) ->
          PersonStats.total_assignments ps
          = count_rows
              (of_person (PersonStats.person_id ps, PersonStats.person_name ps))
              (assignments_joined db)
          /\ sum (map PostAssignment.count (PersonStats.post_assignments ps))
             = PersonStats.total_assignments ps
          /\ forall e,
               In e (PersonStats.post_assignments ps) ->
               0 < PostAssignment.count e <= PersonStats.total_assignments ps
               /\ PostAssignment.percentage_of_person e
                  = PyFloat.round1 (percent (PostAssignment.count e)
                              (PersonStats.total_assignments ps))).
Proof.
  unfold get_post_distribution_stats.
  destruct (count_assignments_ok (assignments_joined db) [] [] [])
    as (pps & totals & Hloop & [Hkeys Hpersons] & Htotals).
  { split; [constructor|]. intros k t. reflexivity. }
  { split; [constructor|]. intros t. reflexivity. }
  match goal with
  | |- context [for_each count_assignment ?l ?s] =>
      assert (Heq : for_each count_assignment l s = Ok (pps, totals))
        by exact Hloop;
      rewrite Heq; clear Heq
  end.
  cbn [bind app] in *.
  assert (Hentry : forall k data,
             PyDict.get person_key_eqb k pps = Some data ->
             exists ps,
               person_stats_entry totals data = Ok ps
               /\ (PersonStats.person_id ps, PersonStats.person_name ps) = k
               /\ PersonStats.total_assignments ps
                  = count_rows (of_person k) (assignments_joined db)
               /\ sum (map PostAssignment.count (PersonStats.post_assignments ps))
                  = PersonStats.total_assignments ps
               /\ forall e,
                    In e (PersonStats.post_assignments ps) ->
                    0 < PostAssignment.count e <= PersonStats.total_assignments ps
                    /\ PostAssignment.percentage_of_person e
                       = PyFloat.round1 (percent (PostAssignment.count e)
                                   (PersonStats.total_assignments ps))).
  { intros k data Hget. specialize (Hpersons k). rewrite Hget in Hpersons.
    destruct Hpersons as [Hid Htypes].
    destruct (person_stats_entry_ok _ totals k data Htotals Hid Htypes)
      as (ps & Hps & Hk & _).
    exists ps. split; [exact Hps|]. split; [exact Hk|].
    exact (person_stats_entry_totals _ totals k data Htotals Htypes ps Hps). }
  assert (Hvalue : forall data,
             In data (PyDict.values pps) ->
             exists k, PyDict.get person_key_eqb k pps = Some data).
  { intros data Hdata. unfold PyDict.values in Hdata.
    apply in_map_iff in Hdata as ([k data'] & Hsnd & Hitem).
    simpl in Hsnd. subst data'. exists k.
    now apply (item_is_got _ person_key_eqb_eq). }
  pose proof (for_each_append (person_stats_entry totals) (PyDict.values pps) [])
    as H.
  destruct (for_each _ (PyDict.values pps) []) as [results|e].
  - destruct H as (bs & -> & HF). cbn [bind app].
    eexists. split; [reflexivity|].
    cbn [Distribution.personnel_stats Distribution.total_assignments
         Distribution.total_personnel].
    split; [|split; [reflexivity|split]].
    + rewrite <- count_rows_all. apply counts_sum. exact Htotals.
    + intros row Hrow.
      pose proof (Hpersons (row_key row)) as Hk.
      destruct (PyDict.get person_key_eqb (row_key row) pps) as [data|] eqn:Hget.
      * destruct (Hentry _ _ Hget) as (ps & Hps & Hkey & _).
        apply (get_some_item _ person_key_eqb_eq) in Hget.
        assert (Hdata : In data (PyDict.values pps)).
        { unfold PyDict.values. change data with (snd (row_key row, data)).
          now apply in_map. }
        destruct (forall2_in_left _ _ _ _ HF Hdata) as (ps' & Hin & Hok).
        rewrite Hps in Hok. injection Hok as <-.
        exists ps. split; [|exact Hkey].
        now apply (Permutation_in ps (sorted_by_permutation _ _ bs)).
      * exfalso. specialize (Hk (snd row)).
        pose proof (count_rows_positive
                      (of_person_and_type (row_key row) (snd row))
                      (assignments_joined db) row Hrow) as Hpos.
        unfold of_person_and_type in Hpos at 1.
        rewrite (keq_refl _ person_key_eqb_eq), (keq_refl _ pystr_eqb_eq) in Hpos.
        specialize (Hpos eq_refl). lia.
    + intros ps Hps.
      apply (Permutation_in ps (Permutation_sym (sorted_by_permutation _ _ bs)))
        in Hps.
      destruct (forall2_in_right _ _ _ _ HF Hps) as (data & Hdata & Hok).
      destruct (Hvalue data Hdata) as (k & Hget).
      destruct (Hentry k data Hget) as (ps' & Hok' & Hkey & Hrest).
      rewrite Hok in Hok'. injection Hok' as <-. rewrite Hkey. exact Hrest.
  - exfalso. destruct H as (data & Hdata & Hraise).
    destruct (Hvalue data Hdata) as (k & Hget).
    destruct (Hentry k data Hget) as (ps & Hok & _).
    rewrite Hraise in Hok. discriminate.
Qed.

(** ** Tracking rows in step with the assignments *)

Lemma sum_app (l l' : list Z) : sum (l ++ l') = sum l + sum l'.
Proof.
  unfold sum. induction l as [|x l IH]; cbn [app fold_right]; lia.
Qed.

Lemma update_first_split {A : Type} (f : A -> bool) (g : A -> A) (l : list A)
    (x : A) :
  first f l = Some x ->
  exists l1 l2,
    l = l1 ++ x :: l2
    /\ (forall y, In y l1 -> f y = false)
    /\ f x = true
    /\ update_first f g l = l1 ++ g x :: l2.
Proof.
  unfold first. induction l as [|y l IH]; cbn [find update_first]; [discriminate|].
  destruct (f y) eqn:Hy.
  - intros [= ->]. exists [], l. repeat split; [|exact Hy]. intros z [].
  - intros H. destruct (IH H) as (l1 & l2 & -> & Hl1 & Hx & Hup).
    exists (y :: l1), l2. cbn [app]. rewrite Hup.
    repeat split; [|exact Hx]. intros z [<-|Hz]; [exact Hy | now apply Hl1].
Qed.

(** Recording one more assignment keeps the rows in step. *)
Lemma tracked_record (asg : list Assignment.t) (weight : Z -> Z)
    (rows : list FairnessTracking.t) (a : Assignment.t)
    (stamp standby : option Z) :
  tracked asg weight rows ->
  let same_person f :=
    FairnessTracking.person_id f =? Assignment.person_id a in
  let updated old :=
    FairnessTracking.mk (FairnessTracking.person_id old)
      (Some (or_zero (FairnessTracking.total_assignments old) + 1))
      (Some (or_zero (FairnessTracking.total_difficulty_points old)
             + weight (Assignment.post_id a)))
      stamp standby in
  tracked (asg ++ [a]) weight
    match first same_person rows with
    | Some old => update_first same_person (fun _ => updated old) rows
    | None =>
        rows ++ [updated (FairnessTracking.mk (Assignment.person_id a)
                            (Some 0) (Some 0) None (Some 0))]
    end.
Proof.
  intros (Hnodup & Hrows & Hcover) same_person updated.
  assert (Hother : forall f,
             FairnessTracking.person_id f <> Assignment.person_id a ->
             filter (fun b => Assignment.person_id b =? FairnessTracking.person_id f)
               (asg ++ [a])
             = filter (fun b => Assignment.person_id b =? FairnessTracking.person_id f)
                 asg).
  { intros f Hf. rewrite filter_app. cbn [filter].
    destruct (Assignment.person_id a =? FairnessTracking.person_id f) eqn:E;
      [apply Z.eqb_eq in E; congruence | apply app_nil_r]. }
  assert (Hown : filter (fun b => Assignment.person_id b =? Assignment.person_id a)
                   (asg ++ [a])
                 = filter (fun b => Assignment.person_id b =? Assignment.person_id a)
                     asg ++ [a]).
  { rewrite filter_app. cbn [filter]. now rewrite Z.eqb_refl. }
  destruct (first same_person rows) as [old|] eqn:Hfound.
  - destruct (update_first_split same_person (fun _ => updated old) rows old Hfound)
      as (l1 & l2 & -> & Hl1 & Hold & ->).
    unfold same_person in Hold. apply Z.eqb_eq in Hold.
    assert (Hids : map FairnessTracking.person_id (l1 ++ updated old :: l2)
                   = map FairnessTracking.person_id (l1 ++ old :: l2))
      by (now rewrite !map_app).
    split; [now rewrite Hids|]. split; [|now rewrite Hids; intros b Hb;
      apply in_app_or in Hb as [Hb|[<-|[]]];
      [apply Hcover | rewrite <- Hold, map_app; apply in_or_app; right; left]].
    rewrite map_app in Hnodup. cbn [map] in Hnodup.
    pose proof (NoDup_remove_2 _ _ _ Hnodup) as Hnotin.
    apply Forall_app in Hrows as [H1 H2].
    apply Forall_cons_iff in H2 as [[Hcount Hpoints] H2].
    assert (Hkeep : forall l,
               incl (map FairnessTracking.person_id l)
                 (map FairnessTracking.person_id l1
                  ++ map FairnessTracking.person_id l2) ->
               Forall
                 (fun f =>
                    let own :=
                      filter (fun a0 => Assignment.person_id a0
                                        =? FairnessTracking.person_id f) asg in
                    FairnessTracking.total_assignments f
                    = Some (Z.of_nat (List.length own))
                    /\ FairnessTracking.total_difficulty_points f
                       = Some (sum (map (fun a0 => weight (Assignment.post_id a0))
                                      own))) l ->
               Forall
                 (fun f =>
                    let own :=
                      filter (fun a0 => Assignment.person_id a0
                                        =? FairnessTracking.person_id f)
                        (asg ++ [a]) in
                    FairnessTracking.total_assignments f
                    = Some (Z.of_nat (List.length own))
                    /\ FairnessTracking.total_difficulty_points f
                       = Some (sum (map (fun a0 => weight (Assignment.post_id a0))
                                      own))) l).
    { intros l Hincl Hl. rewrite Forall_forall in *. intros f Hf. cbv zeta.
      rewrite Hother; [exact (Hl f Hf)|].
      intros Heq. apply Hnotin. rewrite Hold, <- Heq.
      apply Hincl. now apply in_map. }
    apply Forall_app. split; [|apply Forall_cons].
    + apply Hkeep; [|exact H1]. intros x Hx. apply in_or_app. now left.
    + cbv zeta in *. unfold updated.
      cbn [FairnessTracking.person_id FairnessTracking.total_assignments
           FairnessTracking.total_difficulty_points].
      rewrite Hold, Hown. rewrite Hold in Hcount, Hpoints.
      rewrite Hcount, Hpoints. cbn [or_zero].
      rewrite length_app, map_app, sum_app. cbn [List.length map].
      split; f_equal; [lia|]. f_equal. cbn. lia.
    + apply Hkeep; [|exact H2]. intros x Hx. apply in_or_app. now right.
  - pose proof (find_none _ _ Hfound) as Hnone.
    assert (Hfresh : ~ In (Assignment.person_id a)
                       (map FairnessTracking.person_id rows)).
    { intros Hin. apply in_map_iff in Hin as (f & Hf & Hin).
      specialize (Hnone f Hin). unfold same_person in Hnone.
      apply Z.eqb_neq in Hnone. congruence. }
    split; [|split].
    + rewrite map_app. cbn [map]. unfold updated.
      cbn [FairnessTracking.person_id].
      apply NoDup_app; [exact Hnodup | repeat constructor; intros [] |].
      intros x Hx [<-|[]]. now apply Hfresh.
    + apply Forall_app. split.
      * rewrite Forall_forall in *. intros f Hf. cbv zeta.
        rewrite Hother; [exact (Hrows f Hf)|].
        intros Heq. apply Hfresh. rewrite <- Heq. now apply in_map.
      * repeat constructor; unfold updated;
          cbn [FairnessTracking.person_id FairnessTracking.total_assignments
               FairnessTracking.total_difficulty_points or_zero];
          rewrite Hown.
        -- assert (Hnil : filter (fun b => Assignment.person_id b
                                           =? Assignment.person_id a) asg = []).
           { destruct (filter _ asg) as [|b l] eqn:E; [reflexivity|].
             exfalso. apply Hfresh.
             assert (Hb : In b (filter (fun b => Assignment.person_id b
                                                 =? Assignment.person_id a) asg))
               by (rewrite E; now left).
             apply filter_In in Hb as [Hb Hpid]. apply Z.eqb_eq in Hpid.
             rewrite <- Hpid. now apply Hcover. }
           rewrite Hnil. reflexivity.
        -- assert (Hnil : filter (fun b => Assignment.person_id b
                                           =? Assignment.person_id a) asg = []).
           { destruct (filter _ asg) as [|b l] eqn:E; [reflexivity|].
             exfalso. apply Hfresh.
             assert (Hb : In b (filter (fun b => Assignment.person_id b
                                                 =? Assignment.person_id a) asg))
               by (rewrite E; now left).
             apply filter_In in Hb as [Hb Hpid]. apply Z.eqb_eq in Hpid.
             rewrite <- Hpid. now apply Hcover. }
           rewrite Hnil. cbn. f_equal. lia.
    + intros b Hb. rewrite map_app. apply in_or_app.
      apply in_app_or in Hb as [Hb|[<-|[]]]; [left; now apply Hcover|].
      right. now left.
Qed.

Lemma record_in_step (s : Store) (a : Assignment.t) (now : Z) (db' : Session) :
  tracking_in_step s ->
  update_fairness_tracking
    (mkSession (with_assignments s (assignments s ++ [a])) [])
    now (Assignment.person_id a) (Assignment.post_id a) = Ok db' ->
  tracking_in_step (flush db').
Proof.
  intros Hs H. apply update_fairness_tracking_ok in H. cbv zeta in H.
  destruct H as (standby & _ & ->).
  pose proof (tracked_record _ _ _ a (Some now) (Some standby) Hs) as Hrec.
  cbv zeta in Hrec.
  cbn [tables fairness_tracking with_assignments pending] in *.
  unfold tracking_in_step.
  destruct (first _ (fairness_tracking s)) as [old|];
    cbn [flush tables fairness_tracking assignments with_fairness
         with_assignments pending app];
    rewrite ?app_nil_r; exact Hrec.
Qed.

Lemma tracking_in_step_seeded (roster : list Personnel.t) :
  tracking_in_step (seeded roster).
Proof.
  split; [constructor|]. split; [constructor|]. intros a [].
Qed.

(** X12.  When [create_assignment] returns on a fresh session, the post
    of the assignment is not a post without post type, the assignment
    stands after the others, roster, posts and post types are as they
    were, nothing is left pending, and tracking rows that were in step
    with the assignments (at most one row per person, a row for every
    person with an assignment, holding the number of the person's
    assignments and the sum of their weights) are in step again. *)
Theorem create_assignment_keeps_tracking_in_step
    (s : Store) (assignment : Assignment.t) (now : Z) (db' : Session) :
  create_assignment (get_db s) assignment now = Ok db' ->
  untyped_post s (Assignment.post_id assignment) = false
  /\ assignments db' = assignments s ++ [assignment]
  /\ same_roster s db'
  /\ pending db' = []
  /\ (tracking_in_step s -> tracking_in_step db').
Proof.
  unfold create_assignment. cbn [get_db tables pending].
  pose proof (update_fairness_tracking_cases
                (mkSession (with_assignments s (assignments s ++ [assignment])) [])
                now (Assignment.person_id assignment)
                (Assignment.post_id assignment)) as Hcases.
  destruct (update_fairness_tracking _ now _ _) as [db1|e] eqn:Hupdate;
    cbn [bind]; [|discriminate].
  intros [= <-]. split; [exact Hcases|].
  pose proof (fun Hs => record_in_step s assignment now db1 Hs Hupdate) as Hstep.
  apply update_fairness_tracking_keeps_rows in Hupdate as [Hroster Hrows].
  split; [exact Hrows|]. split; [exact Hroster|].
  split; [reflexivity | exact Hstep].
Qed.

Lemma create_assignment_keeps_tracking_in_step_witness :
  exists db',
    create_assignment (get_db store_after_long_wait)
      (imported_assignment 1 2 1) 7 = Ok db'
    /\ untyped_post store_after_long_wait 2 = false
    /\ assignments db'
       = assignments store_after_long_wait ++ [imported_assignment 1 2 1]
    /\ same_roster store_after_long_wait db'
    /\ pending db' = []
    /\ (tracking_in_step store_after_long_wait -> tracking_in_step db').
Proof.
  eexists.
  assert (H : create_assignment (get_db store_after_long_wait)
                (imported_assignment 1 2 1) 7 = Ok _) by reflexivity.
  split; [exact H|].
  exact (create_assignment_keeps_tracking_in_step store_after_long_wait
           (imported_assignment 1 2 1) 7 _ H).
Defined.

(** ** The import as a chain of created assignments *)

Lemma imports_trans (roster : list Personnel.t) (d : Z) (clock : Z -> Z)
    (st1 st2 st3 : Session * Z) :
  imports roster d clock st1 st2 -> imports roster d clock st2 st3 ->
  imports roster d clock st1 st3.
Proof.
  intros H12 H23. induction H23 as [|st2 st3 st4 _ IH Hstep]; [exact H12|].
  exact (imports_more _ _ _ _ _ _ (IH H12) Hstep).
Qed.

Lemma find_person_in_roster (roster : list Personnel.t)
    (personnel_map : PyDict.t pystr Personnel.t) (rank last_name : pystr)
    (p : Personnel.t) :
  for_each add_lookup_keys roster [] = Ok personnel_map ->
  find_person personnel_map rank last_name = Some p ->
  In p roster.
Proof.
  intros Hmap Hfind.
  pose proof (add_lookup_keys_items roster [] personnel_map roster Hmap
                (incl_refl _) (Forall_nil _)) as Hitems.
  rewrite Forall_forall in Hitems.
  rewrite find_person_order in Hfind.
  destruct (PyDict.get PyStr.eqb (PyStr.upper (PyStr.spaced rank last_name))
              personnel_map) as [q|] eqn:Hfull.
  - injection Hfind as ->.
    apply (get_some_item _ pystr_eqb_eq) in Hfull.
    exact (proj1 (Hitems _ Hfull)).
  - destruct (fuzzy_match personnel_map rank last_name) as [q|] eqn:Hfuzzy.
    + injection Hfind as ->.
      apply fuzzy_match_item in Hfuzzy as (key & Hitem & _).
      exact (proj1 (Hitems _ Hitem)).
    + apply (get_some_item _ pystr_eqb_eq) in Hfind.
      exact (proj1 (Hitems _ Hfind)).
Qed.

Lemma import_match_creates (roster : list Personnel.t)
    (personnel_map : PyDict.t pystr Personnel.t)
    (post_types : PyDict.t pystr PostType.t)
    (d : Z) (clock : Z -> Z) (current : pystr)
    (st st' : Session * Z) (name_match : pystr * pystr) :
  for_each add_lookup_keys roster [] = Ok personnel_map ->
  import_match personnel_map post_types d clock current st name_match = Ok st' ->
  st' = st \/ creates roster d clock st st'.
Proof.
  intros Hmap. destruct st as [db n], name_match as [rank last_name].
  unfold import_match.
  destruct (find_person personnel_map rank last_name) as [person|] eqn:Hfind;
    [|intros [= <-]; now left].
  destruct (PyDict.get PyStr.eqb current post_mappings) as [mapping|];
    [|intros [= <-]; now left].
  destruct (PyDict.get PyStr.eqb _ post_types) as [post_type|];
    [|intros [= <-]; now left].
  destruct (PostMapping.posts mapping) as [|post_name rest]; [discriminate|].
  destruct (first _ (posts db)) as [post|] eqn:Hpost;
    [|intros [= <-]; now left].
  destruct (first _ (assignments db)) as [old|] eqn:Hold;
    [intros [= <-]; now left|].
  destruct (update_fairness_tracking _ _ _ _) as [db1|e] eqn:Hupdate;
    cbn [bind]; [|discriminate].
  intros [= <-]. right.
  apply (creates_one roster d clock db db1 n person post).
  - exact (find_person_in_roster _ _ _ _ _ Hmap Hfind).
  - now apply first_some_in in Hpost.
  - exact Hupdate.
Qed.

Lemma import_matches_imports (roster : list Personnel.t)
    (personnel_map : PyDict.t pystr Personnel.t)
    (post_types : PyDict.t pystr PostType.t)
    (d : Z) (clock : Z -> Z) (current : pystr)
    (name_matches : list (pystr * pystr)) :
  for_each add_lookup_keys roster [] = Ok personnel_map ->
  forall st st',
    for_each (import_match personnel_map post_types d clock current)
      name_matches st = Ok st' ->
    imports roster d clock st st'.
Proof.
  intros Hmap.
  induction name_matches as [|m ms IH]; intros st st'; cbn [for_each].
  - intros [= <-]. constructor.
  - destruct (import_match personnel_map post_types d clock current st m)
      as [st1|e] eqn:Hm; cbn [bind]; [|discriminate].
    intros Hrest. apply IH in Hrest.
    destruct (import_match_creates _ _ _ _ _ _ _ _ _ Hmap Hm) as [->|Hstep];
      [exact Hrest|].
    refine (imports_trans _ _ _ _ _ _ _ Hrest).
    exact (imports_more _ _ _ _ _ _ (imports_none _ _ _ _) Hstep).
Qed.

Lemma import_line_imports (roster : list Personnel.t)
    (personnel_map : PyDict.t pystr Personnel.t)
    (post_types : PyDict.t pystr PostType.t)
    (d : Z) (clock : Z -> Z) (st st' : import_state) (line : pystr) :
  for_each add_lookup_keys roster [] = Ok personnel_map ->
  import_line personnel_map post_types d clock st line = Ok st' ->
  imports roster d clock (session st, assignments_created st)
    (session st', assignments_created st').
Proof.
  intros Hmap. unfold import_line.
  destruct (PyStr.strip line) as [|c line']; [intros [= <-]; constructor|].
  match goal with
  | |- context [first ?f section_markers] =>
      destruct (first f section_markers) as [[marker key]|]
  end; [intros [= <-]; constructor|].
  destruct (active_section (current_post_type st)) as [current|];
    [|intros [= <-]; constructor].
  match goal with
  | |- context [existsb ?f skipped_prefixes] =>
      destruct (existsb f skipped_prefixes)
  end; [intros [= <-]; constructor|].
  destruct (for_each
              (import_match personnel_map post_types d clock current)
              (findall (c :: line')) (session st, assignments_created st))
    as [[db1 n1]|e] eqn:Hloop; cbn [bind]; [|discriminate].
  intros [= <-]. cbn [session assignments_created].
  exact (import_matches_imports _ _ _ _ _ _ _ Hmap _ _ Hloop).
Qed.

Lemma import_lines_imports (roster : list Personnel.t)
    (personnel_map : PyDict.t pystr Personnel.t)
    (post_types : PyDict.t pystr PostType.t)
    (d : Z) (clock : Z -> Z) (lines : list pystr) :
  for_each add_lookup_keys roster [] = Ok personnel_map ->
  forall st st',
    for_each (import_line personnel_map post_types d clock) lines st = Ok st' ->
    imports roster d clock (session st, assignments_created st)
      (session st', assignments_created st').
Proof.
  intros Hmap.
  induction lines as [|line lines IH]; intros st st'; cbn [for_each].
  - intros [= <-]. constructor.
  - destruct (import_line personnel_map post_types d clock st line)
      as [st1|e] eqn:Hline; cbn [bind]; [|discriminate].
    intros Hrest.
    exact (imports_trans _ _ _ _ _ _
             (import_line_imports _ _ _ _ _ _ _ _ Hmap Hline) (IH _ _ Hrest)).
Qed.

(** A call that returns is a chain of created assignments, then a
    commit. *)
Lemma parse_imports (db db' : Session) (chat_text : pystr) (duty_date : option Z)
    (today : Z) (clock : Z -> Z) (n : Z) :
  parse_and_create_chat_assignments db chat_text duty_date today clock
  = Ok (n, db') ->
  exists db1,
    imports (get_personnel db 0 100) (date_or_today duty_date today) clock
      (db, 0) (db1, n)
    /\ db' = commit db1.
Proof.
  unfold parse_and_create_chat_assignments.
  destruct (for_each add_lookup_keys (get_personnel db 0 100) [])
    as [personnel_map|e] eqn:Hmap; cbn [bind]; [|discriminate].
  match goal with
  | |- context [for_each ?f ?l ?s] =>
      destruct (for_each f l s) as [st|e] eqn:Hlines
  end; cbn [bind]; [|discriminate].
  intros [= <- <-]. exists (session st). split; [|reflexivity].
  exact (import_lines_imports _ _ _ _ _ _ Hmap _ _ Hlines).
Qed.

Lemma imports_rows (roster : list Personnel.t) (d : Z) (clock : Z -> Z)
    (st st' : Session * Z) :
  imports roster d clock st st' ->
  exists rows,
    assignments (fst st') = assignments (fst st) ++ rows
    /\ snd st' = snd st + Z.of_nat (List.length rows)
    /\ same_roster (fst st) (fst st')
    /\ Forall (imported_for roster (posts (fst st)) d) rows.
Proof.
  induction 1 as [st|st st1 st2 _ IH Hstep].
  - exists []. rewrite app_nil_r, Z.add_0_r. repeat split. constructor.
  - destruct IH as (rows & Hrows & Hcount & Hroster & Hshape).
    destruct Hstep as [db1 db2 n person post Hperson Hpost Hupdate].
    cbn [fst snd] in *.
    apply update_fairness_tracking_keeps_rows in Hupdate as [Hroster2 Hrows2].
    cbn [add_assignment_and_flush flush tables assignments with_fairness
         with_assignments] in Hrows2.
    exists (rows ++ [imported_assignment (Personnel.id person) (Post.id post) d]).
    split; [|split; [|split]].
    + rewrite Hrows2, Hrows. now rewrite app_assoc.
    + rewrite Hcount, length_app. cbn [List.length]. lia.
    + eapply same_roster_trans; [exact Hroster|]. exact Hroster2.
    + apply Forall_app. split; [exact Hshape|]. constructor; [|constructor].
      exists person, post. split; [exact Hperson|]. split; [|reflexivity].
      destruct Hroster as (_ & _ & ->). exact Hpost.
Qed.

Lemma imports_in_step (roster : list Personnel.t) (d : Z) (clock : Z -> Z)
    (st st' : Session * Z) :
  imports roster d clock st st' ->
  tracking_in_step (flush (fst st)) -> tracking_in_step (flush (fst st')).
Proof.
  induction 1 as [st|st st1 st2 _ IH Hstep]; [auto|].
  intros Hst. specialize (IH Hst).
  destruct Hstep as [db1 db2 n person post Hperson Hpost Hupdate].
  cbn [fst] in *.
  exact (record_in_step (flush db1)
           (imported_assignment (Personnel.id person) (Post.id post) d)
           (clock n) db2 IH Hupdate).
Qed.

(** X13.  What an import that returns has created.  The assignments of the
    store are the old ones followed by the created ones, whose number is
    the count returned; every created assignment is [imported_assignment]
    of a person among the first hundred active persons and of a post of
    the store, on the date of the import; personnel, posts and post types
    are as before, and nothing is left pending. *)
Theorem import_creates_what_it_counts
    (db db' : Session) (chat_text : pystr) (duty_date : option Z)
    (today : Z) (clock : Z -> Z) (n : Z) :
  parse_and_create_chat_assignments db chat_text duty_date today clock
  = Ok (n, db') ->
  exists rows,
    assignments db' = assignments db ++ rows
    /\ n = Z.of_nat (List.length rows)
    /\ same_roster db db'
    /\ pending db' = []
    /\ Forall
         (imported_for (get_personnel db 0 100) (posts db)
            (date_or_today duty_date today)) rows.
Proof.
  intros H. apply parse_imports in H as (db1 & Hchain & ->).
  apply imports_rows in Hchain as (rows & Hrows & Hcount & Hroster & Hshape).
  cbn [fst snd] in *. exists rows.
  split; [exact Hrows|]. split; [lia|]. split; [exact Hroster|].
  split; [reflexivity | exact Hshape].
Qed.

Lemma import_creates_what_it_counts_witness :
  exists db' rows,
    parse_and_create_chat_assignments (get_db store_with_one_assignment)
      scenario_text_names_below (Some 19737) 0 (fun n => n) = Ok (2, db')
    /\ assignments db' = assignments store_with_one_assignment ++ rows
    /\ 2 = Z.of_nat (List.length rows)
    /\ same_roster store_with_one_assignment db'
    /\ pending db' = []
    /\ Forall
         (imported_for (get_personnel (get_db store_with_one_assignment) 0 100)
            (posts store_with_one_assignment)
            (date_or_today (Some 19737) 0)) rows.
Proof.
  eexists.
  assert (H : parse_and_create_chat_assignments
                (get_db store_with_one_assignment) scenario_text_names_below
                (Some 19737) 0 (fun n => n) = Ok (2, _)) by reflexivity.
  destruct (import_creates_what_it_counts _ _ _ _ _ _ _ H) as (rows & Hrows).
  exists rows. split; [exact H | exact Hrows].
Defined.

(** X14.  An import that returns keeps the tracking rows in step with the
    assignments: when, once the pending rows are written, there is one
    row per person with the number of the person's assignments and the
    sum of their weights, the same holds of the store that the import
    leaves. *)
Theorem import_keeps_tracking_in_step
    (db db' : Session) (chat_text : pystr) (duty_date : option Z)
    (today : Z) (clock : Z -> Z) (n : Z) :
  tracking_in_step (commit db) ->
  parse_and_create_chat_assignments db chat_text duty_date today clock
  = Ok (n, db') ->
  tracking_in_step db'.
Proof.
  intros Hdb H. apply parse_imports in H as (db1 & Hchain & ->).
  exact (imports_in_step _ _ _ _ _ Hchain Hdb).
Qed.

Lemma import_keeps_tracking_in_step_witness :
  exists db',
    parse_and_create_chat_assignments (get_db store_after_long_wait)
      scenario_text_names_below (Some 19737) 0 (fun n => n) = Ok (1, db')
    /\ tracking_in_step db'.
Proof.
  eexists.
  assert (H : parse_and_create_chat_assignments
                (get_db store_after_long_wait) scenario_text_names_below
                (Some 19737) 0 (fun n => n) = Ok (1, _)) by reflexivity.
  split; [exact H|].
  refine (import_keeps_tracking_in_step _ _ _ _ _ _ _ _ H).
  split; [repeat constructor; intros []|].
  split; [repeat constructor|].
  intros a [<-|[]]. now left.
Defined.

(** ** When the import returns *)

Lemma split_nil_spaces (s : pystr) :
  PyStr.split s = [] -> forallb PyStr.is_space s = true.
Proof.
  induction s as [|c s IH]; cbn [PyStr.split forallb]; [reflexivity|].
  destruct (PyStr.is_space c); [exact IH|].
  destruct s as [|c' s']; [discriminate|].
  destruct (PyStr.is_space c'); [discriminate|].
  destruct (PyStr.split (c' :: s')); discriminate.
Qed.

Lemma add_lookup_keys_returns (l : list Personnel.t) :
  existsb blank l = false ->
  forall acc, exists personnel_map, for_each add_lookup_keys l acc = Ok personnel_map.
Proof.
  induction l as [|p l IH]; intros Hl acc; cbn [for_each].
  - now exists acc.
  - cbn [existsb] in Hl. apply orb_false_iff in Hl as [Hp Hl].
    unfold add_lookup_keys at 1.
    destruct (rev (PyStr.split (Personnel.name p))) as [|last rest] eqn:Hlast.
    + exfalso. assert (Hnil : PyStr.split (Personnel.name p) = []).
      { destruct (PyStr.split (Personnel.name p)) as [|w ws]; [reflexivity|].
        cbn [rev] in Hlast. now destruct (rev ws). }
      apply split_nil_spaces in Hnil. unfold blank in Hp. congruence.
    + cbn [bind]. now apply IH.
Qed.

Lemma post_types_by_name_in (l : list PostType.t) (key : pystr) (pt : PostType.t) :
  PyDict.get PyStr.eqb key (post_types_by_name l) = Some pt -> In pt l.
Proof.
  intros H. apply (get_some_item _ pystr_eqb_eq) in H.
  unfold post_types_by_name in H.
  assert (Hgen : forall l' acc,
             In (key, pt)
               (fold_left
                  (fun d pt0 =>
                     PyDict.set PyStr.eqb (PyStr.upper (PostType.name pt0)) pt0 d)
                  l' acc) ->
             In (key, pt) acc \/ In pt l').
  { induction l' as [|x l' IH]; intros acc; cbn [fold_left]; [auto|].
    intros Hin. destruct (IH _ Hin) as [Hacc|Hl']; [|right; now right].
    apply (item_of_set _ pystr_eqb_eq) in Hacc as [Hacc|[= _ ->]];
      [now left | right; now left]. }
  destruct (Hgen _ _ H) as [[]|Hin]. exact Hin.
Qed.

Lemma post_mappings_name_a_post (current : pystr) (mapping : PostMapping.t) :
  PyDict.get PyStr.eqb current post_mappings = Some mapping ->
  PostMapping.posts mapping <> [].
Proof.
  intros H. apply (get_some_item _ pystr_eqb_eq) in H.
  unfold post_mappings in H. cbn [map] in H.
  repeat (destruct H as [H|H]; [injection H as _ <-; discriminate|]).
  destruct H.
Qed.

Lemma first_by_unique_id (l : list Post.t) (post : Post.t) :
  NoDup (map Post.id l) -> In post l ->
  first (fun p => Post.id p =? Post.id post) l = Some post.
Proof.
  unfold first. induction l as [|p l IH]; cbn [map find]; [intros _ []|].
  intros Hnodup [->|Hin].
  - now rewrite Z.eqb_refl.
  - inversion Hnodup as [|? ? Hnotin Hnodup']; subst.
    destruct (Post.id p =? Post.id post) eqn:E; [|now apply IH].
    exfalso. apply Hnotin. apply Z.eqb_eq in E. rewrite E. now apply in_map.
Qed.

Lemma import_match_keeps_roster
    (personnel_map : PyDict.t pystr Personnel.t)
    (post_types : PyDict.t pystr PostType.t) (d : Z) (clock : Z -> Z)
    (current : pystr) (db db' : Session) (n n' : Z)
    (name_match : pystr * pystr) :
  import_match personnel_map post_types d clock current (db, n) name_match
  = Ok (db', n') ->
  same_roster db db'.
Proof.
  destruct name_match as [rank last_name]. unfold import_match.
  destruct (find_person personnel_map rank last_name) as [person|];
    [|intros [= <- <-]; apply same_roster_refl].
  destruct (PyDict.get PyStr.eqb current post_mappings) as [mapping|];
    [|intros [= <- <-]; apply same_roster_refl].
  destruct (PyDict.get PyStr.eqb _ post_types) as [post_type|];
    [|intros [= <- <-]; apply same_roster_refl].
  destruct (PostMapping.posts mapping) as [|post_name rest]; [discriminate|].
  destruct (first _ (posts db)) as [post|];
    [|intros [= <- <-]; apply same_roster_refl].
  destruct (first _ (assignments db)) as [old|];
    [intros [= <- <-]; apply same_roster_refl|].
  destruct (update_fairness_tracking _ _ _ _) as [db1|e] eqn:Hupdate;
    cbn [bind]; [|discriminate].
  intros [= <- <-].
  apply update_fairness_tracking_keeps_rows in Hupdate as [Hroster _].
  eapply same_roster_trans; [|exact Hroster]. repeat split.
Qed.

(** With post identifiers that are unique, a name of a line raises
    nothing. *)
Lemma import_match_returns
    (personnel_map : PyDict.t pystr Personnel.t) (d : Z) (clock : Z -> Z)
    (current : pystr) (db : Session) (n : Z) (name_match : pystr * pystr) :
  NoDup (map Post.id (posts db)) ->
  exists st',
    import_match personnel_map (post_types_by_name (post_types db)) d clock
      current (db, n) name_match = Ok st'.
Proof.
  intros Hids. destruct name_match as [rank last_name]. unfold import_match.
  destruct (find_person personnel_map rank last_name) as [person|]; [|eauto].
  destruct (PyDict.get PyStr.eqb current post_mappings) as [mapping|] eqn:Hmapping;
    [|eauto].
  destruct (PyDict.get PyStr.eqb _ (post_types_by_name (post_types db)))
    as [post_type|] eqn:Htype; [|eauto].
  apply post_mappings_name_a_post in Hmapping.
  destruct (PostMapping.posts mapping) as [|post_name rest]; [contradiction|].
  destruct (first _ (posts db)) as [post|] eqn:Hpost; [|eauto].
  destruct (first _ (assignments db)) as [old|]; [eauto|].
  apply first_some_in in Hpost as [Hpost Hkind].
  apply andb_true_iff in Hkind as [Hkind _].
  apply post_types_by_name_in in Htype.
  match goal with
  | |- context [update_fairness_tracking ?s ?t ?p ?q] =>
      pose proof (update_fairness_tracking_cases s t p q) as Hcases;
      destruct (update_fairness_tracking s t p q) as [db1|e]
  end; cbn [bind]; [eauto|].
  exfalso. destruct Hcases as [_ Huntyped]. unfold untyped_post in Huntyped.
  cbn [add_assignment_and_flush flush tables posts with_fairness
       with_assignments] in Huntyped.
  rewrite (first_by_unique_id _ _ Hids Hpost) in Huntyped.
  unfold post_type_of in Huntyped.
  cbn [post_types with_fairness with_assignments tables] in Huntyped.
  unfold option_Z_eqb in Hkind.
  destruct (Post.post_type_id post) as [k|]; [|discriminate].
  destruct (first_found_in_larger (fun pt => PostType.id pt =? k)
              (post_types db) (post_types db) post_type Htype)
    as (pt & Hpt); [now rewrite Z.eqb_sym | apply incl_refl |].
  rewrite Hpt in Huntyped. discriminate.
Qed.

Lemma import_matches_return
    (personnel_map : PyDict.t pystr Personnel.t)
    (by_name : PyDict.t pystr PostType.t) (d : Z) (clock : Z -> Z)
    (current : pystr) (s : Store) (name_matches : list (pystr * pystr)) :
  NoDup (map Post.id (posts s)) ->
  by_name = post_types_by_name (post_types s) ->
  forall (db : Session) (n : Z),
    same_roster s db ->
    exists db' n',
      for_each (import_match personnel_map by_name d clock current)
        name_matches (db, n) = Ok (db', n')
      /\ same_roster s db'.
Proof.
  intros Hids ->.
  induction name_matches as [|m ms IH]; intros db n Hroster; cbn [for_each].
  - now exists db, n.
  - destruct Hroster as (Hpersonnel & Htypes & Hposts).
    destruct (import_match_returns personnel_map d clock current db n m)
      as ([db1 n1] & Hm); [now rewrite <- Hposts|].
    rewrite Htypes, Hm. cbn [bind].
    apply import_match_keeps_roster in Hm.
    rewrite <- Htypes. apply IH.
    eapply same_roster_trans; [|exact Hm]. repeat split; assumption.
Qed.

Lemma import_lines_return
    (personnel_map : PyDict.t pystr Personnel.t)
    (by_name : PyDict.t pystr PostType.t) (d : Z) (clock : Z -> Z)
    (s : Store) (lines : list pystr) :
  NoDup (map Post.id (posts s)) ->
  by_name = post_types_by_name (post_types s) ->
  forall st : import_state,
    same_roster s (session st) ->
    exists st',
      for_each (import_line personnel_map by_name d clock) lines st = Ok st'.
Proof.
  intros Hids Htypes.
  induction lines as [|line lines IH]; intros st Hroster; cbn [for_each].
  - now exists st.
  - assert (Hline : exists st1,
               import_line personnel_map by_name d clock st line = Ok st1
               /\ same_roster s (session st1)).
    { unfold import_line.
      destruct (PyStr.strip line) as [|c line']; [eauto|].
      match goal with
      | |- context [first ?f section_markers] =>
          destruct (first f section_markers) as [[marker key]|]
      end; [eauto|].
      destruct (active_section (current_post_type st)) as [current|]; [|eauto].
      match goal with
      | |- context [existsb ?f skipped_prefixes] =>
          destruct (existsb f skipped_prefixes)
      end; [eauto|].
      destruct (import_matches_return personnel_map by_name d clock current s
                  (findall (c :: line')) Hids Htypes (session st)
                  (assignments_created st) Hroster) as (db1 & n1 & -> & Hr).
      cbn [bind]. eauto. }
    destruct Hline as (st1 & -> & Hr). cbn [bind]. now apply IH.
Qed.

(** X15.  What the import raises.  With post identifiers that are unique,
    [parse_and_create_chat_assignments] raises [IndexError] exactly when
    one of the first hundred active persons has a name without a token,
    and never raises [AttributeError]: a post that is found through its
    post type has that post type, so that [update_fairness_tracking] does
    not fail inside the import. *)
Theorem import_never_raises_attribute_error
    (db : Session) (chat_text : pystr) (duty_date : option Z)
    (today : Z) (clock : Z -> Z) :
  NoDup (map Post.id (posts db)) ->
  parse_and_create_chat_assignments db chat_text duty_date today clock
  <> Raise AttributeError
  /\ (parse_and_create_chat_assignments db chat_text duty_date today clock
      = Raise IndexError
      <-> existsb blank (get_personnel db 0 100) = true).
Proof.
  intros Hids.
  assert (H : if existsb blank (get_personnel db 0 100)
              then parse_and_create_chat_assignments db chat_text duty_date
                     today clock = Raise IndexError
              else exists n db',
                     parse_and_create_chat_assignments db chat_text duty_date
                       today clock = Ok (n, db')).
  { unfold parse_and_create_chat_assignments.
    destruct (existsb blank (get_personnel db 0 100)) eqn:Hblank.
    - apply existsb_exists in Hblank as (p & Hin & Hp).
      now rewrite (add_lookup_keys_raises _ p Hin (split_of_spaces _ Hp)).
    - destruct (add_lookup_keys_returns _ Hblank []) as (personnel_map & ->).
      cbn [bind].
      destruct (import_lines_return personnel_map
                  (post_types_by_name (get_post_types db))
                  (match duty_date with Some d => d | None => today end) clock db
                  (PyStr.split_on 10%N (PyStr.strip chat_text)) Hids eq_refl
                  (mkImport None db 0) (same_roster_refl db)) as (st & ->).
      cbn [bind]. eauto. }
  destruct (existsb blank (get_personnel db 0 100)).
  - rewrite H. split; [discriminate | tauto].
  - destruct H as (n & db' & ->). split; [discriminate|].
    split; discriminate.
Qed.

Lemma import_never_raises_attribute_error_witness :
  parse_and_create_chat_assignments (get_db store_crowded)
    scenario_text_names_below (Some 19737) 0 (fun n => n)
  <> Raise AttributeError
  /\ (parse_and_create_chat_assignments (get_db store_crowded)
        scenario_text_names_below (Some 19737) 0 (fun n => n)
      = Raise IndexError
      <-> existsb blank (get_personnel (get_db store_crowded) 0 100) = true).
Proof.
  apply (import_never_raises_attribute_error (get_db store_crowded)).
  repeat constructor; cbn; intuition discriminate.
Defined.

(** ** Names on header lines *)

Lemma import_lines_quiet
    (personnel_map : PyDict.t pystr Personnel.t)
    (post_types : PyDict.t pystr PostType.t) (d : Z) (clock : Z -> Z)
    (lines : list pystr) :
  forall (seen_header : bool) (st : import_state),
    names_on_headers_only seen_header lines = true ->
    (seen_header = false -> active_section (current_post_type st) = None) ->
    exists current,
      for_each (import_line personnel_map post_types d clock) lines st
      = Ok (mkImport current (session st) (assignments_created st)).
Proof.
  induction lines as [|line lines IH]; intros seen st Hlines Hseen;
    cbn [for_each].
  - exists (current_post_type st). now destruct st.
  - cbn [names_on_headers_only] in Hlines. unfold import_line at 1.
    destruct (PyStr.strip line) as [|c line'] eqn:Hstrip.
    { cbn [bind]. destruct (has_marker []).
      - apply (IH true st Hlines). discriminate.
      - apply andb_true_iff in Hlines as [_ Hlines].
        exact (IH seen st Hlines Hseen). }
    match goal with
    | |- context [first ?f section_markers] =>
        pose proof (first_none_existsb f section_markers) as Hmarker;
        destruct (first f section_markers) as [[marker key]|]
    end.
    { cbn [bind].
      assert (Hm : has_marker (c :: line') = true).
      { unfold has_marker.
        destruct Hmarker as [_ Hback].
        destruct (existsb _ section_markers); [reflexivity|].
        discriminate (Hback eq_refl). }
      rewrite Hm in Hlines.
      destruct (IH true (mkImport (Some key) (session st) (assignments_created st))
                  Hlines) as (current & ->); [discriminate|].
      now exists current. }
    assert (Hm : has_marker (c :: line') = false).
    { unfold has_marker. now apply Hmarker. }
    rewrite Hm in Hlines.
    apply andb_true_iff in Hlines as [Hline Hlines].
    assert (Hstep : exists current,
               match active_section (current_post_type st) with
               | Some current =>
                   if existsb (fun p => PyStr.startswith p (c :: line'))
                        skipped_prefixes
                   then Ok st
                   else
                     '(db, created) <-
                        for_each
                          (import_match personnel_map post_types d clock current)
                          (findall (c :: line'))
                          (session st, assignments_created st) ;;
                     Ok (mkImport (current_post_type st) db created)
               | None => Ok st
               end
               = Ok (mkImport current (session st) (assignments_created st))
               /\ (seen = false -> active_section current = None)).
    { exists (current_post_type st).
      destruct (active_section (current_post_type st)) as [current|] eqn:Hactive.
      - destruct seen; [|now specialize (Hseen eq_refl)].
        split; [|discriminate].
        destruct (existsb _ skipped_prefixes); [now destruct st|].
        cbn [negb orb] in Hline.
        destruct (findall (c :: line')); [reflexivity | discriminate].
      - split; [now destruct st | reflexivity]. }
    destruct Hstep as (current & -> & Hcurrent). cbn [bind].
    destruct (IH seen (mkImport current (session st) (assignments_created st))
                Hlines Hcurrent) as (current' & ->).
    now exists current'.
Qed.

(** X16.  Names are read only below a header.  When every line of the
    text contains a section marker, or stands before the first line that
    does, or holds no rank followed by a name, the import creates nothing:
    it returns 0 and the store is as it was (no name of the first hundred
    active persons being blank). *)
Theorem import_creates_nothing_from_header_lines
    (db : Session) (chat_text : pystr) (duty_date : option Z)
    (today : Z) (clock : Z -> Z) :
  existsb blank (get_personnel db 0 100) = false ->
  names_on_headers_only false (PyStr.split_on 10%N (PyStr.strip chat_text)) = true ->
  parse_and_create_chat_assignments db chat_text duty_date today clock
  = Ok (0, commit db).
Proof.
  intros Hblank Hlines. unfold parse_and_create_chat_assignments.
  destruct (add_lookup_keys_returns _ Hblank []) as (personnel_map & ->).
  cbn [bind].
  destruct (import_lines_quiet personnel_map
              (post_types_by_name (get_post_types db))
              (match duty_date with Some d => d | None => today end) clock
              _ false (mkImport None db 0) Hlines) as (current & ->);
    reflexivity.
Qed.

Lemma import_creates_nothing_from_header_lines_witness :
  names_on_headers_only false
    (PyStr.split_on 10%N (PyStr.strip scenario_text)) = true
  /\ parse_and_create_chat_assignments (get_db (seeded [lastre; miller]))
       scenario_text (Some 19737) 0 (fun n => n)
     = Ok (0, commit (get_db (seeded [lastre; miller]))).
Proof.
  split; [reflexivity|].
  apply import_creates_nothing_from_header_lines; reflexivity.
Defined.
